(** * get-favicon: a shallow embedding of [favicon.py] and its properties

    The development follows the layout of the script:

    - Python string primitives ([str.find], slices, [str.split], ...);
    - the two standard-library helpers the script leans on,
      [urllib.parse.urlparse] and [posixpath.split]/[splitext];
    - the pure procedure [get_filename];
    - the effectful procedures [get_favicon_url], [get_favicon],
      [get_favicons] and [get_dokuwiki_interwiki_icons], written in a small
      state-and-exception monad over a world that records every request,
      log line, print and file write.

    Strings are [string]s of 8-bit characters; every operation used by the
    script is a prefix test, a split on an ASCII delimiter or a
    concatenation, all of which act character by character. *)

From Stdlib Require Import ZArith Lia Ascii String.
From stdpp Require Import base option list gmap strings.


Local Open Scope Z_scope.

(** ** Python string primitives *)

Module Py.

Definition chr (n : nat) : ascii := Ascii.ascii_of_nat n.
Definition ord (c : ascii) : Z := Z.of_nat (Ascii.nat_of_ascii c).

Definition len (s : string) : Z := Z.of_nat (String.length s).

Fixpoint take (n : nat) (s : string) : string :=
  match n, s with
  | O, _ => ""
  | S _, EmptyString => ""
  | S n', String c s' => String c (take n' s')
  end.

Fixpoint drop (n : nat) (s : string) : string :=
  match n, s with
  | O, _ => s
  | S _, EmptyString => ""
  | S n', String _ s' => drop n' s'
  end.

(** A slice bound as Python clamps it: negative bounds count from the end. *)
Definition bound (i : Z) (s : string) : nat :=
  Z.to_nat (if i <? 0 then Z.max 0 (len s + i) else Z.min i (len s)).

(** [s[:i]], [s[i:]] and [s[i:j]]. *)
Definition upto (i : Z) (s : string) : string := take (bound i s) s.
Definition from (i : Z) (s : string) : string := drop (bound i s) s.
Definition slice (i j : Z) (s : string) : string :=
  take (bound j s - bound i s) (drop (bound i s) s).

Fixpoint find_aux (c : ascii) (s : string) (i : Z) : Z :=
  match s with
  | EmptyString => -1
  | String a s' => if Ascii.eqb a c then i else find_aux c s' (i + 1)
  end.

(** [s.find(c)]: the first index of [c], or -1. *)
Definition find (c : ascii) (s : string) : Z := find_aux c s 0.

(** [s.find(c, start)] for a non-negative [start]. *)
Definition find_from (c : ascii) (start : Z) (s : string) : Z :=
  find_aux c (from start s) (Z.of_nat (bound start s)).

Fixpoint rfind_aux (c : ascii) (s : string) (i acc : Z) : Z :=
  match s with
  | EmptyString => acc
  | String a s' => rfind_aux c s' (i + 1) (if Ascii.eqb a c then i else acc)
  end.

(** [s.rfind(c)]: the last index of [c], or -1. *)
Definition rfind (c : ascii) (s : string) : Z := rfind_aux c s 0 (-1).

(** [c in s] for a one-character [c]. *)
Fixpoint contains (c : ascii) (s : string) : bool :=
  match s with
  | EmptyString => false
  | String a s' => Ascii.eqb a c || contains c s'
  end.

Fixpoint all (p : ascii -> bool) (s : string) : bool :=
  match s with
  | EmptyString => true
  | String a s' => p a && all p s'
  end.

Fixpoint startswith (p s : string) : bool :=
  match p, s with
  | EmptyString, _ => true
  | String a p', String b s' => Ascii.eqb a b && startswith p' s'
  | String _ _, EmptyString => false
  end.

(** [s.lstrip(chars)] and [s.rstrip(chars)], the stripped set given as a
    predicate. *)
Fixpoint lstrip (p : ascii -> bool) (s : string) : string :=
  match s with
  | EmptyString => ""
  | String a s' => if p a then lstrip p s' else s
  end.

Fixpoint rstrip (p : ascii -> bool) (s : string) : string :=
  match s with
  | EmptyString => ""
  | String a s' =>
      match rstrip p s' with
      | EmptyString => if p a then "" else String a ""
      | r => String a r
      end
  end.

(** [s.replace(c, "")]: every occurrence of [c] removed. *)
Fixpoint remove (c : ascii) (s : string) : string :=
  match s with
  | EmptyString => ""
  | String a s' => if Ascii.eqb a c then remove c s' else String a (remove c s')
  end.

(** [s.split(c)]: always at least one token. *)
Fixpoint split (c : ascii) (s : string) : list string :=
  match s with
  | EmptyString => [""]
  | String a s' =>
      if Ascii.eqb a c then "" :: split c s'
      else match split c s' with
           | t :: ts => String a t :: ts
           | [] => [String a ""]
           end
  end.

(** [s.split(c, 1)] where [c] is known to occur: the text before the first
    [c] and the text after it. *)
Definition split1 (c : ascii) (s : string) : string * string :=
  let i := find c s in
  if i <? 0 then (s, "") else (upto i s, from (i + 1) s).

(** [sep.join(parts)]. *)
Fixpoint join (sep : string) (parts : list string) : string :=
  match parts with
  | [] => ""
  | [p] => p
  | p :: ps => p +:+ sep +:+ join sep ps
  end.

Definition is_upper (c : ascii) : bool := (65 <=? ord c) && (ord c <=? 90).
Definition is_lower (c : ascii) : bool := (97 <=? ord c) && (ord c <=? 122).
Definition is_digit (c : ascii) : bool := (48 <=? ord c) && (ord c <=? 57).
Definition isascii (c : ascii) : bool := ord c <? 128.

(** [c.isalpha()] restricted to ASCII, as [urlsplit] guards it. *)
Definition is_ascii_alpha (c : ascii) : bool := is_upper c || is_lower c.

Definition lower_char (c : ascii) : ascii :=
  if is_upper c then chr (Z.to_nat (ord c + 32)) else c.

Fixpoint lower (s : string) : string :=
  match s with
  | EmptyString => ""
  | String a s' => String (lower_char a) (lower s')
  end.

(** Python truthiness of a string. *)
Definition truthy (s : string) : bool :=
  match s with EmptyString => false | _ => true end.

End Py.

(** ** Exceptions

    The exception classes the script distinguishes in its handlers, and the
    ones its own code raises.  All of them derive from [Exception]. *)

Inductive exn : Type :=
| ConnectionError (msg : string)   (* requests.ConnectionError *)
| HTTPError (status : Z)           (* requests.HTTPError, from raise_for_status *)
| RequestException (msg : string)  (* any other requests.RequestException *)
| ValueError (msg : string)
| NameError (name : string)
| Exception (msg : string).        (* a plain Exception or any other subclass *)

(** [isinstance(e, requests.ConnectionError)]. *)
Definition is_ConnectionError (e : exn) : bool :=
  match e with ConnectionError _ => true | _ => false end.

(** [isinstance(e, requests.RequestException)]: the base class of the
    [requests] hierarchy. *)
Definition is_RequestException (e : exn) : bool :=
  match e with
  | ConnectionError _ | HTTPError _ | RequestException _ => true
  | _ => false
  end.

(** Pure code that may raise. *)
Definition Result (A : Type) : Type := exn + A.

Definition ok {A} (a : A) : Result A := inr a.
Definition raise {A} (e : exn) : Result A := inl e.

Definition rbind {A B} (m : Result A) (k : A -> Result B) : Result B :=
  match m with
  | inl e => inl e
  | inr a => k a
  end.

Declare Scope result_scope.
Delimit Scope result_scope with res.
Notation "x <- m ;; k" := (rbind m (fun x => k))
  (at level 100, m at next level, right associativity) : result_scope.

(** ** [urllib.parse]

    [urlsplit] and [urlparse] as in CPython's [urllib/parse.py].  The two
    netloc validations that need tables outside this development (the
    IP-literal check of a bracketed host, and the NFKC check of a non-ASCII
    netloc) are parameters; for an ASCII netloc without brackets neither is
    consulted. *)

Module UrlParse.

Record Checks : Type := {
  bracketed_netloc_ok : string -> bool;
  nfkc_ok : string -> bool
}.

Record SplitResult : Type := {
  s_scheme : string; s_netloc : string; s_path : string;
  s_query : string; s_fragment : string
}.

Record ParseResult : Type := {
  scheme : string; netloc : string; path : string;
  params : string; query : string; fragment : string
}.

Definition uses_params : list string :=
  [""; "ftp"; "hdl"; "prospero"; "http"; "imap"; "https"; "shttp"; "rtsp";
   "rtspu"; "sip"; "sips"; "mms"; "sftp"; "tel"].

Definition scheme_char (c : ascii) : bool :=
  Py.is_lower c || Py.is_upper c || Py.is_digit c || Py.contains c "+-.".

Definition c0_control_or_space (c : ascii) : bool := Py.ord c <=? 32.

Definition TAB : ascii := "009"%char.
Definition LF : ascii := "010"%char.
Definition CR : ascii := "013"%char.

(** [for b in ['\t', '\r', '\n']: url = url.replace(b, "")]. *)
Definition remove_unsafe (url : string) : string :=
  fold_left (fun u b => Py.remove b u) [TAB; CR; LF] url.

(** The scheme step of [urlsplit]: the scheme (lower-cased) and the rest. *)
Definition split_scheme (url : string) : string * string :=
  let i := Py.find ":" url in
  match url with
  | String c0 _ =>
      if (0 <? i) && Py.isascii c0 && Py.is_ascii_alpha c0 then
        if Py.all scheme_char (Py.upto i url)
        then (Py.lower (Py.upto i url), Py.from (i + 1) url)
        else ("", url)
      else ("", url)
  | EmptyString => ("", url)
  end.

Definition _splitnetloc (url : string) (start : Z) : string * string :=
  let delim :=
    fold_left (fun delim c =>
                 let wdelim := Py.find_from c start url in
                 if 0 <=? wdelim then Z.min delim wdelim else delim)
              ["/"; "?"; "#"]%char (Py.len url) in
  (Py.slice start delim url, Py.from delim url).

Definition _checknetloc (chk : Checks) (netloc : string) : Result unit :=
  if negb (Py.truthy netloc) || Py.all Py.isascii netloc then ok tt
  else if nfkc_ok chk netloc then ok tt
  else raise (ValueError "netloc contains invalid characters under NFKC normalization").

Definition check_brackets (chk : Checks) (netloc : string) : Result unit :=
  let o := Py.contains "[" netloc in
  let c := Py.contains "]" netloc in
  if (o && negb c) || (c && negb o) then raise (ValueError "Invalid IPv6 URL")
  else if o && c then
    if bracketed_netloc_ok chk netloc then ok tt
    else raise (ValueError "Invalid IPv6 URL")
  else ok tt.

(** [urlsplit] from the netloc on, once the scheme has been split off. *)
Definition split_after_scheme (chk : Checks) (scheme url : string)
  : Result SplitResult :=
  (nu <-
     (if String.eqb (Py.upto 2 url) "//" then
        let '(netloc, url) := _splitnetloc url 2 in
        _ <- check_brackets chk netloc ;;
        ok (netloc, url)
      else ok ("", url)) ;;
   let '(netloc, url) := nu in
   let '(url, fragment) :=
     if Py.contains "#" url then Py.split1 "#" url else (url, "") in
   let '(url, query) :=
     if Py.contains "?" url then Py.split1 "?" url else (url, "") in
   _ <- _checknetloc chk netloc ;;
   ok {| s_scheme := scheme; s_netloc := netloc; s_path := url;
         s_query := query; s_fragment := fragment |})%res.

Definition urlsplit (chk : Checks) (url : string) : Result SplitResult :=
  let url := Py.lstrip c0_control_or_space url in
  let url := remove_unsafe url in
  let '(scheme, url) := split_scheme url in
  split_after_scheme chk scheme url.

Definition _splitparams (url : string) : string * string :=
  if Py.contains "/" url then
    let i := Py.find_from ";" (Py.rfind "/" url) url in
    if i <? 0 then (url, "") else (Py.upto i url, Py.from (i + 1) url)
  else
    let i := Py.find ";" url in
    (Py.upto i url, Py.from (i + 1) url).

Definition urlparse (chk : Checks) (url : string) : Result ParseResult :=
  (r <- urlsplit chk url ;;
   let '(url, params) :=
     if existsb (String.eqb (s_scheme r)) uses_params
        && Py.contains ";" (s_path r)
     then _splitparams (s_path r)
     else (s_path r, "") in
   ok {| scheme := s_scheme r; netloc := s_netloc r; path := url;
         params := params; query := s_query r; fragment := s_fragment r |})%res.

End UrlParse.

(** ** [posixpath] *)

Module PosixPath.

Definition all_sep (s : string) : bool := Py.all (Ascii.eqb "/") s.

(** [os.path.split]. *)
Definition split (p : string) : string * string :=
  let i := Py.rfind "/" p + 1 in
  let head := Py.upto i p in
  let tail := Py.from i p in
  let head :=
    if Py.truthy head && negb (all_sep head)
    then Py.rstrip (Ascii.eqb "/") head else head in
  (head, tail).

(** The loop of [genericpath._splitext] that skips leading dots; [n] is the
    number of indices left below [dotIndex]. *)
Fixpoint skip_dots (p : string) (dotIndex : Z) (n : nat) (filenameIndex : Z)
  : string * string :=
  match n with
  | O => (p, "")
  | S n' =>
      if negb (String.eqb (Py.slice filenameIndex (filenameIndex + 1) p) ".")
      then (Py.upto dotIndex p, Py.from dotIndex p)
      else skip_dots p dotIndex n' (filenameIndex + 1)
  end.

(** [os.path.splitext]. *)
Definition splitext (p : string) : string * string :=
  let sepIndex := Py.rfind "/" p in
  let dotIndex := Py.rfind "." p in
  if sepIndex <? dotIndex then
    let filenameIndex := sepIndex + 1 in
    skip_dots p dotIndex (Z.to_nat (dotIndex - filenameIndex)) filenameIndex
  else (p, "").

Definition endswith_sep (s : string) : bool :=
  match Py.from (-1) s with "/" => true | _ => false end.

(** One step of [os.path.join]'s loop, and the call with its arguments. *)
Definition join_step (path b : string) : string :=
  if Py.startswith "/" b then b
  else if negb (Py.truthy path) || endswith_sep path then path +:+ b
  else path +:+ "/" +:+ b.

Definition join (a : string) (p : list string) : string :=
  fold_left join_step p a.

End PosixPath.

(** ** [get_filename] *)

Definition EXCLUDED_DOMAINS : list string := ["www"; "com"; "org"; "net"; "ru"].

(** [d in EXCLUDED_DOMAINS]. *)
Definition excluded (d : string) : bool := existsb (String.eqb d) EXCLUDED_DOMAINS.

Definition get_filename (chk : UrlParse.Checks)
    (url favicon_url : string) (png : bool) : Result string :=
  (ext <- (if png then ok ".png"
           else p <- UrlParse.urlparse chk favicon_url ;;
                ok (snd (PosixPath.splitext (UrlParse.path p)))) ;;
   p <- UrlParse.urlparse chk url ;;
   ok (Py.join "-" (List.filter (fun d => negb (excluded d))
                                (Py.split "." (UrlParse.netloc p))) +:+ ext))%res.

(** ** The world the script acts on *)

(** A decoded [PIL.Image]: what the script reads of it, and its pixels. *)
Record Image : Type := {
  format : option string;            (* [favicon.format], possibly [None] *)
  width : Z;
  height : Z;
  ico_sizes : list (Z * Z);          (* [favicon.ico.sizes()] of an ICO file *)
  pixels : string
}.

Inductive Resample : Type := NEAREST | BILINEAR | BICUBIC | LANCZOS.

(** A file is a text file, held as the lines its iterator yields, or an
    image written by [Image.save]. *)
Inductive File : Type :=
| TextFile (lines : list string)
| ImageFile (img : Image).

(** A [requests.Response]; header names are held lower-cased, as the
    case-insensitive dictionary of [requests] compares them. *)
Record Response : Type := {
  status_code : Z;
  content : string;
  resp_url : string;
  headers : gmap string string
}.

Inductive Level : Type := DEBUG | INFO | WARNING | ERROR.

(** An argument of a logging call, formatted lazily by [logging]. *)
Inductive LogArg : Type :=
| AStr (s : string)
| AInt (n : Z)
| AFormat (f : option string)
| AList (l : list string)
| AExn (e : exn).

(** The header set every request carries. *)
Definition HEADERS : list (string * string) :=
  [("User-Agent",
    "Mozilla/5.0 (Windows NT 6.1; WOW64) AppleWebKit/537.36 (KHTML, like Gecko) "
    +:+ "Chrome/47.0.2526.111 Safari/537.36")].

(** What the script does to the outside, in the order it does it.  A
    request is recorded with its outcome; each one is sent with
    [HEADERS]. *)
Inductive Event : Type :=
| EvGet (url : string) (result : Result Response)   (* requests.get(url, headers=HEADERS) *)
| EvHead (url : string) (result : Result Response)  (* requests.head(url, headers=HEADERS) *)
| EvLog (lvl : Level) (msg : LogArg) (args : list LogArg)
| EvPrint (s : string)
| EvMakedirs (path : string) (mode : Z)
| EvOpen (content : string)                     (* Image.open(BytesIO(content)) *)
| EvGetImage (size : Z * Z)                     (* favicon.ico.getimage(size) *)
| EvResize (size : Z * Z) (resample : Resample) (* favicon.resize(size, resample) *)
| EvSave (filename : string).                   (* favicon.save(filename) *)

Definition is_request (ev : Event) : bool :=
  match ev with EvGet _ _ | EvHead _ _ => true | _ => false end.

Record World : Type := {
  trace : list Event;
  fs : gmap string File
}.

(** What lies outside the script: the network, the HTML and image
    libraries, and the parts of the operating system it asks.  The answer
    to a request may depend on how many requests came before it, so a
    server may answer the same URL differently each time. *)
Record Env : Type := {
  url_checks : UrlParse.Checks;
  http_get : nat -> string -> Result Response;
  http_head : nat -> string -> Result Response;
  (* BeautifulSoup(content, 'lxml').find('link', rel='icon'): the
     attributes of the element found, if any *)
  soup_find_icon : string -> Result (option (gmap string string));
  image_open : string -> Result Image;
  ico_getimage : Image -> Z * Z -> Result Image;
  image_resize : Image -> Z * Z -> Resample -> Result Image;
  (* the exception Image.save raises, if any *)
  image_save_error : Image -> string -> option exn;
  makedirs_error : string -> option exn;
  abspath : string -> string
}.

(** ** The state-and-exception monad

    A Python procedure changes the state and then returns or raises; the
    state it leaves behind is kept in both cases. *)

Definition M (St A : Type) : Type := St -> Result A * St.

Definition ret {St A} (a : A) : M St A := fun s => (inr a, s).
Definition throw {St A} (e : exn) : M St A := fun s => (inl e, s).

Definition bind {St A B} (m : M St A) (k : A -> M St B) : M St B :=
  fun s =>
    match m s with
    | (inl e, s') => (inl e, s')
    | (inr a, s') => k a s'
    end.

Definition lift {St A} (r : Result A) : M St A := fun s => (r, s).

(** [try: m  except Exception as ex: h ex]. *)
Definition try_except {St A} (m : M St A) (h : exn -> M St A) : M St A :=
  fun s =>
    match m s with
    | (inl e, s') => h e s'
    | (inr a, s') => (inr a, s')
    end.

Definition get_state {St} : M St St := fun s => (inr s, s).
Definition modify {St} (f : St -> St) : M St unit := fun s => (inr tt, f s).

(** Run a procedure on the world inside a state that also holds locals. *)
Definition on_world {L A} (m : M World A) : M (World * L) A :=
  fun s =>
    let '(r, w') := m (fst s) in (r, (w', snd s)).

Declare Scope monad_scope.
Delimit Scope monad_scope with M.
Notation "x <- m ;; k" := (bind m (fun x => k))
  (at level 100, m at next level, right associativity) : monad_scope.
Notation "m ;;; k" := (bind m (fun _ => k))
  (at level 100, right associativity) : monad_scope.

Definition after (w : World) (ev : Event) : World :=
  {| trace := trace w ++ [ev]; fs := fs w |}.

Definition emit (ev : Event) : M World unit :=
  modify (fun w => after w ev).

(** The number of requests made so far. *)
Definition requests_made (w : World) : nat :=
  length (List.filter is_request (trace w)).

(** The events of a run from [w] to [w']. *)
Definition events_since (w w' : World) : list Event :=
  drop (length (trace w)) (trace w').

(** The events a procedure adds when run from [w]. *)
Definition run_events {A} (m : M World A) (w : World) : list Event :=
  events_since w (m w).2.

Definition log (lvl : Level) (msg : string) (args : list LogArg) : M World unit :=
  emit (EvLog lvl (AStr msg) args).

Definition requests_get (E : Env) (url : string) : M World Response :=
  fun w =>
    let r := http_get E (requests_made w) url in (r, after w (EvGet url r)).

Definition requests_head (E : Env) (url : string) : M World Response :=
  fun w =>
    let r := http_head E (requests_made w) url in (r, after w (EvHead url r)).

(** ** [get_favicon_url] *)

(** [requests.codes.ok]. *)
Definition codes_ok : Z := 200.

(** [Response.is_redirect] of [requests]: a [Location] header and one of the
    redirect statuses. *)
Definition REDIRECT_STATI : list Z := [301; 302; 303; 307; 308].

Definition is_redirect (r : Response) : bool :=
  bool_decide (is_Some (headers r !! "location"))
  && existsb (Z.eqb (status_code r)) REDIRECT_STATI.

(** [response.headers['Location']]. *)
Definition header_Location (r : Response) : M World string :=
  match headers r !! "location" with
  | Some v => ret v
  | None => throw (Exception "KeyError: 'location'")
  end.

(** Lines 29-33: the reference declared by the page, or [''].  *)
Definition declared_reference (E : Env) (response : Response) : M World string :=
  (if status_code response =? codes_ok then
     link <- lift (soup_find_icon E (content response)) ;;
     match link with
     | Some attrs =>
         match attrs !! "href" with
         | Some href => ret href
         | None => ret ""
         end
     | None => ret ""
     end
   else ret "")%M.

(** Lines 38-45: the loop over the default locations; [favicon_url] is the
    value the variable holds when the loop ends without [break]. *)
Fixpoint probe_defaults (E : Env) (basename : string) (exts : list string)
    (favicon_url : string) : M World string :=
  match exts with
  | [] => ret favicon_url
  | ext :: exts' =>
      (response <- requests_head E (basename +:+ ext) ;;
       if is_redirect response then header_Location response
       else if status_code response =? codes_ok then ret (resp_url response)
       else probe_defaults E basename exts' favicon_url)%M
  end.

(** Lines 47-54: the reference made absolute against the page URL. *)
Definition resolve (parsed_url : UrlParse.ParseResult) (favicon_url : string) : string :=
  if Py.truthy favicon_url then
    if Py.startswith "//" favicon_url then
      UrlParse.scheme parsed_url +:+ ":" +:+ favicon_url
    else if Py.startswith "/" favicon_url then
      UrlParse.scheme parsed_url +:+ "://" +:+ UrlParse.netloc parsed_url +:+ favicon_url
    else if negb (Py.startswith "http" favicon_url) then
      let '(path, filename) := PosixPath.split (UrlParse.path parsed_url) in
      UrlParse.scheme parsed_url +:+ "://" +:+ UrlParse.netloc parsed_url
        +:+ "/" +:+ path +:+ "/" +:+ favicon_url
    else favicon_url
  else favicon_url.

(** Lines 24-45: the reference as found, before it is made absolute. *)
Definition find_reference (E : Env) (parsed_url : UrlParse.ParseResult)
    (url : string) : M World string :=
  (response <- requests_get E url ;;
   favicon_url <- declared_reference E response ;;
   if negb (Py.truthy favicon_url) then
     let basename :=
       UrlParse.scheme parsed_url +:+ "://" +:+ UrlParse.netloc parsed_url
         +:+ "/favicon." in
     probe_defaults E basename ["png"; "ico"] favicon_url
   else ret favicon_url)%M.

Definition get_favicon_url (E : Env) (url : string) : M World string :=
  (parsed_url <- lift (UrlParse.urlparse (url_checks E) url) ;;
   favicon_url <- find_reference E parsed_url url ;;
   ret (resolve parsed_url favicon_url))%M.

(** The environment in which no page declares an icon link, all else
    equal. *)
Definition no_icon_link (E : Env) : Env :=
  {| url_checks := url_checks E;
     http_get := http_get E;
     http_head := http_head E;
     soup_find_icon := fun _ => inr None;
     image_open := image_open E;
     ico_getimage := ico_getimage E;
     image_resize := image_resize E;
     image_save_error := image_save_error E;
     makedirs_error := makedirs_error E;
     abspath := abspath E |}.

(** ** [get_favicon] *)

(** [Response.raise_for_status] of [requests]: an [HTTPError] for a client
    or server error status, nothing otherwise. *)
Definition raise_for_status (r : Response) : M World unit :=
  if (400 <=? status_code r) && (status_code r <? 600)
  then throw (HTTPError (status_code r))
  else ret tt.

Definition size_eqb (a b : Z * Z) : bool :=
  (fst a =? fst b) && (snd a =? snd b).

Definition format_is (name : string) (img : Image) : bool :=
  match format img with
  | Some f => String.eqb f name
  | None => false
  end.

(** [favicon.save(filename)]. *)
Definition image_save (E : Env) (img : Image) (filename : string) : M World unit :=
  fun w =>
    let w1 := after w (EvSave filename) in
    match image_save_error E img filename with
    | Some e => (inl e, w1)
    | None => (inr tt, {| trace := trace w1; fs := <[filename := ImageFile img]> (fs w1) |})
    end.

(** Line 74: the icon is an ICO file that embeds a frame of this size. *)
Definition native_frame (favicon : Image) (size : Z * Z) : Prop :=
  format favicon = Some "ICO" /\ size ∈ ico_sizes favicon.

(** Lines 72-78: the resize step. *)
Definition resize_step (E : Env) (favicon : Image) (resize : Z) : M World Image :=
  (if 0 <? resize then
     let size := (resize, resize) in
     favicon <-
       (if format_is "ICO" favicon && existsb (size_eqb size) (ico_sizes favicon)
        then emit (EvGetImage size) ;;; lift (ico_getimage E favicon size)
        else emit (EvResize size BICUBIC) ;;; lift (image_resize E favicon size BICUBIC)) ;;
     log DEBUG "resized to %d×%d" [AInt (width favicon); AInt (height favicon)] ;;;
     ret favicon
   else ret favicon)%M.

Definition get_favicon (E : Env) (url filename : string) (resize : Z) : M World unit :=
  (log DEBUG "trying to get favicon from '%s'…" [AStr url] ;;;
   response <- requests_get E url ;;
   (if negb (status_code response =? codes_ok)
    then raise_for_status response else ret tt) ;;;
   emit (EvOpen (content response)) ;;;
   favicon <- lift (image_open E (content response)) ;;
   log DEBUG "%s %d×%d at '%s'"
     [AFormat (format favicon); AInt (width favicon); AInt (height favicon);
      AStr (resp_url response)] ;;;
   favicon <- resize_step E favicon resize ;;
   image_save E favicon filename ;;;
   log DEBUG "saved as '%s'" [AStr filename])%M.

(** ** [get_favicons] *)

(** [os.path.curdir]. *)
Definition curdir : string := ".".

(** The handlers of lines 101-106, tried in order. *)
Definition handle_url_error (url : string) (ex : exn) : M World unit :=
  if is_ConnectionError ex then log ERROR "cannot connect to '%s'" [AStr url]
  else if is_RequestException ex then log ERROR "requests: %s" [AExn ex]
  else emit (EvLog ERROR (AExn ex) []).

(** Line 87-88. *)
Definition normalize_url (url : string) : string :=
  if negb (Py.startswith "http" url) then "https://" +:+ url else url.

(** Lines 87-100: the body of the [try], acting on the world and on the
    local [output_dir], which keeps an assignment made before a failure. *)
Definition get_favicons_try (E : Env) (png : bool) (resize : Z) (get : bool)
    (url : string) : M (World * string) unit :=
  (favicon_url <- on_world (get_favicon_url E url) ;;
   if negb (Py.truthy favicon_url) then
     throw (Exception ("cannot find favicon for URL '" +:+ url +:+ "'"))
   else if get then
     output_dir <- (s <- get_state ;; ret (snd s)) ;;
     (if negb (Py.truthy output_dir)
      then modify (fun s => (fst s, curdir)) else ret tt) ;;;
     output_dir <- (s <- get_state ;; ret (snd s)) ;;
     name <- lift (get_filename (url_checks E) url favicon_url png) ;;
     let filename := PosixPath.join output_dir [name] in
     on_world (get_favicon E favicon_url filename resize)
   else on_world (emit (EvPrint favicon_url)))%M.


(** One iteration of the loop of lines 85-106. *)
Definition get_favicons_item (E : Env) (png : bool) (resize : Z) (get : bool)
    (url : string) : M (World * string) unit :=
  let url := normalize_url url in
  try_except (get_favicons_try E png resize get url)
             (fun ex => on_world (handle_url_error url ex)).

Fixpoint get_favicons_loop (E : Env) (png : bool) (resize : Z) (get : bool)
    (urls : list string) : M (World * string) unit :=
  match urls with
  | [] => ret tt
  | url :: urls' =>
      (get_favicons_item E png resize get url ;;;
       get_favicons_loop E png resize get urls')%M
  end.

Definition get_favicons (E : Env) (urls : list string) (output_dir : string)
    (png : bool) (resize : Z) (get : bool) : M World unit :=
  fun w =>
    let '(r, s) := get_favicons_loop E png resize get urls (w, output_dir) in
    (r, fst s).

(** ** The entry pattern of the interwiki configuration

    The [re.fullmatch] of line 117 under [re.ASCII]: a group of one or more
    name characters, one or more space characters, and a group of any
    number of characters other than a newline.  It is matched the way the
    [re] engine does it: each repetition is greedy and gives characters back
    one at a time when the rest of the pattern fails. *)

Module Re.

(** Greedy [c*]: consume as many characters of the class as possible, then
    fewer; [k] receives the text matched and the text left. *)
Fixpoint star {A} (cls : ascii -> bool) (s : string)
    (k : string -> string -> option A) : option A :=
  match s with
  | String c s' =>
      if cls c then
        match star cls s' (fun m rest => k (String c m) rest) with
        | Some r => Some r
        | None => k "" s
        end
      else k "" s
  | EmptyString => k "" ""
  end.

(** Greedy [c+]. *)
Definition plus {A} (cls : ascii -> bool) (s : string)
    (k : string -> string -> option A) : option A :=
  match s with
  | String c s' =>
      if cls c then star cls s' (fun m rest => k (String c m) rest) else None
  | EmptyString => None
  end.

(** [[-0-9.a-z_]]. *)
Definition name_char (c : ascii) : bool :=
  Ascii.eqb c "-" || Py.is_digit c || Ascii.eqb c "." || Py.is_lower c
  || Ascii.eqb c "_".

(** [\s] under [re.ASCII]: [[ \t\n\r\f\v]]. *)
Definition space (c : ascii) : bool :=
  ((9 <=? Py.ord c) && (Py.ord c <=? 13)) || (Py.ord c =? 32).

(** [.]: any character but a newline. *)
Definition dot (c : ascii) : bool := negb (Py.ord c =? 10).

(** The two groups of a full match. *)
Definition fullmatch_entry (s : string) : option (string * string) :=
  plus name_char s (fun g1 rest =>
  plus space rest (fun _ rest =>
  star dot rest (fun g2 rest =>
  match rest with
  | EmptyString => Some (g1, g2)
  | _ => None
  end))).

End Re.

(** What the pattern says of a string, without reference to how it is
    matched: a non-empty name, a non-empty run of spaces, and a target on
    one line; the run of spaces is the longest one. *)
Definition starts_with_space (s : string) : bool :=
  match s with String c _ => Re.space c | EmptyString => false end.

Definition entry_shape (s name target : string) : Prop :=
  exists gap,
    s = name +:+ gap +:+ target
    /\ name <> "" /\ Py.all Re.name_char name = true
    /\ gap <> "" /\ Py.all Re.space gap = true
    /\ Py.all Re.dot target = true
    /\ starts_with_space target = false.

(** The longest prefix of characters of a class. *)
Fixpoint take_while (cls : ascii -> bool) (s : string) : string :=
  match s with
  | String c s' => if cls c then String c (take_while cls s') else ""
  | EmptyString => ""
  end.

(** The groups computed without backtracking. *)
Definition entry_groups (s : string) : option (string * string) :=
  match take_while Re.name_char s, Py.lstrip Re.name_char s with
  | String c name, String d rest =>
      if Re.space d then
        let target := Py.lstrip Re.space rest in
        if Py.all Re.dot target then Some (String c name, target) else None
      else None
  | _, _ => None
  end.

(** [c.isspace()] on the characters of this development: what [str.strip()]
    removes. *)
Definition py_isspace (c : ascii) : bool :=
  ((9 <=? Py.ord c) && (Py.ord c <=? 13))
  || ((28 <=? Py.ord c) && (Py.ord c <=? 32))
  || (Py.ord c =? 133) || (Py.ord c =? 160).

Definition strip (s : string) : string :=
  Py.rstrip py_isspace (Py.lstrip py_isspace s).

(** ** [get_dokuwiki_interwiki_icons] *)

(** The namespace [argparse] returns. *)
Record Args : Type := {
  args_url : list string;
  args_args_file : option string;
  args_dir : string;
  args_resize : Z;
  args_png : bool;
  args_get : bool;
  args_verbose : bool;
  args_dokuwiki : option string;
  args_force : bool
}.

(** [os.path.isfile]. *)
Definition isfile (filename : string) : M World bool :=
  fun w => (inr (bool_decide (is_Some (fs w !! filename))), w).

(** [open(path)] followed by iteration over the lines. *)
Definition read_lines (path : string) : M World (list string) :=
  fun w =>
    match fs w !! path with
    | Some (TextFile lines) => (inr lines, w)
    | Some (ImageFile _) => (inl (Exception "UnicodeDecodeError"), w)
    | None => (inl (Exception "FileNotFoundError"), w)
    end.

(** [os.makedirs(path, mode=mode, exist_ok=True)]. *)
Definition makedirs (E : Env) (path : string) (mode : Z) : M World unit :=
  fun w =>
    let w1 := after w (EvMakedirs path mode) in
    match makedirs_error E path with
    | Some e => (inl e, w1)
    | None => (inr tt, w1)
    end.

(** Lines 117-130: the body of the [try].  [None] stands for [continue];
    otherwise the block falls through with [name] and [filename] bound. *)
Definition interwiki_try (E : Env) (images_dir : string) (force : bool)
    (line : string) : M World (option (string * string)) :=
  match Re.fullmatch_entry (strip line) with
  | None => ret None
  | Some (group1, group2) =>
      let name := group1 in
      let filename := PosixPath.join images_dir [name +:+ ".png"] in
      (exists_ <- isfile filename ;;
       if exists_ && negb force then
         log INFO "%s: icon exists - skip" [AStr name] ;;; ret None
       else
         parsed <- lift (UrlParse.urlparse (url_checks E) group2) ;;
         let url := UrlParse.scheme parsed +:+ "://" +:+ UrlParse.netloc parsed +:+ "/" in
         favicon_url <- get_favicon_url E url ;;
         if negb (Py.truthy favicon_url) then
           log ERROR "%s: cannot find favicon for URL '%s'" [AStr name; AStr url] ;;;
           ret None
         else
           get_favicon E favicon_url filename 16 ;;;
           ret (Some (name, filename)))%M
  end.

(** The handlers of lines 131-139.  The first one reads the module global
    [args], which only the [__main__] block binds. *)
Definition handle_entry_error (args : option Args) (ex : exn) : M World unit :=
  if is_ConnectionError ex then
    match args with
    | Some a => log ERROR "cannot connect to '%s'" [AList (args_url a)]
    | None => throw (NameError "args")
    end
  else if is_RequestException ex then log ERROR "requests: %s" [AExn ex]
  else log ERROR "%s" [AExn ex].

(** One iteration of the loop of lines 115-140. *)
Definition interwiki_entry (E : Env) (args : option Args) (images_dir : string)
    (force : bool) (line : string) : M World unit :=
  (r <- try_except (interwiki_try E images_dir force line)
                   (fun ex => handle_entry_error args ex ;;; ret None) ;;
   match r with
   | Some (name, filename) =>
       log INFO "%s: icon saved as '%s'" [AStr name; AStr filename]
   | None => ret tt
   end)%M.

Fixpoint interwiki_scan (E : Env) (args : option Args) (images_dir : string)
    (force : bool) (lines : list string) : M World unit :=
  match lines with
  | [] => ret tt
  | line :: lines' =>
      (interwiki_entry E args images_dir force line ;;;
       interwiki_scan E args images_dir force lines')%M
  end.

Definition get_dokuwiki_interwiki_icons (E : Env) (args : option Args)
    (dokuwiki_home : string) (force : bool) : M World unit :=
  let dokuwiki_home := abspath E dokuwiki_home in
  let images_dir := PosixPath.join dokuwiki_home ["lib"; "images"; "interwiki"] in
  (makedirs E images_dir 504 ;;;
   lines <- read_lines (PosixPath.join dokuwiki_home ["conf"; "interwiki.local.conf"]) ;;
   interwiki_scan E args images_dir force lines)%M.

(** ** The [__main__] block *)

Definition is_linebreak (c : ascii) : bool :=
  ((10 <=? Py.ord c) && (Py.ord c <=? 13))
  || ((28 <=? Py.ord c) && (Py.ord c <=? 30)) || (Py.ord c =? 133).

(** [s.splitlines()]. *)
Fixpoint splitlines (s : string) : list string :=
  match s with
  | EmptyString => []
  | String c s' =>
      if is_linebreak c then
        "" :: match s' with
              | String c' s'' =>
                  if (Py.ord c =? 13) && (Py.ord c' =? 10)
                  then splitlines s'' else splitlines s'
              | EmptyString => splitlines s'
              end
      else match splitlines s' with
           | l :: ls => String c l :: ls
           | [] => [String c ""]
           end
  end.

(** Lines 165-167: the URLs of the run. *)
Definition read_urls (args : Args) : M World (list string) :=
  match args_args_file args with
  | Some f =>
      if Py.truthy f then
        (lines <- read_lines f ;;
         ret (splitlines (fold_right String.append "" lines)))%M
      else ret (args_url args)
  | None => ret (args_url args)
  end.

(** Lines 162-168, from the parsed arguments on; [args] is bound as a module
    global from here on. *)
Definition main (E : Env) (args : Args) : M World unit :=
  match args_dokuwiki args with
  | Some (String c home) =>
      get_dokuwiki_interwiki_icons E (Some args) (String c home) (args_force args)
  | _ =>
      (urls <- read_urls args ;;
       get_favicons E urls (args_dir args) (args_png args) (args_resize args)
                    (args_get args))%M
  end.

(** ** Sample environments

    Concrete worlds and environments, used to run the procedures on
    explicit inputs. *)

Module Sample.

Definition checks : UrlParse.Checks :=
  {| UrlParse.bracketed_netloc_ok := fun _ => true;
     UrlParse.nfkc_ok := fun _ => true |}.

Definition png32 : Image :=
  {| format := Some "PNG"; width := 32; height := 32; ico_sizes := [];
     pixels := "png" |}.

Definition ico : Image :=
  {| format := Some "ICO"; width := 32; height := 32;
     ico_sizes := [(16, 16); (32, 32)]; pixels := "ico" |}.

Definition scaled (img : Image) (size : Z * Z) : Image :=
  {| format := format img; width := fst size; height := snd size;
     ico_sizes := ico_sizes img; pixels := pixels img |}.

Definition response (status : Z) (body url : string) : Response :=
  {| status_code := status; content := body; resp_url := url; headers := ∅ |}.

Definition refused : Result Response := inl (ConnectionError "refused").

(** An environment with the given answers to GET and HEAD, the given
    result of the search for the icon link, and the given decoded image;
    everything else succeeds. *)
Definition env (get head : nat -> string -> Result Response)
    (icon : option (gmap string string)) (img : Result Image) : Env :=
  {| url_checks := checks;
     http_get := get;
     http_head := head;
     soup_find_icon := fun _ => inr icon;
     image_open := fun _ => img;
     ico_getimage := fun i size => inr (scaled i size);
     image_resize := fun i size _ => inr (scaled i size);
     image_save_error := fun _ _ => None;
     makedirs_error := fun _ => None;
     abspath := fun p => p |}.

Definition world0 : World := {| trace := []; fs := ∅ |}.

(** A server that answers every GET with status 304 and an image body. *)
Definition env304 : Env :=
  env (fun _ u => inr (response 304 "body" u)) (fun _ _ => refused)
      None (inr png32).

(** A server that answers every GET with status 404. *)
Definition env404 : Env :=
  env (fun _ u => inr (response 404 "" u)) (fun _ _ => refused)
      None (inr png32).

(** A server that answers every GET with status 200 and an ICO body. *)
Definition env_ico : Env :=
  env (fun _ u => inr (response 200 "ico-bytes" u)) (fun _ _ => refused)
      None (inr ico).

(** A page with an icon link whose href is empty, on a server that has no
    [/favicon.png] but has [/favicon.ico]. *)
Definition env_empty_href : Env :=
  env (fun _ u => inr (response 200 "<html>" u))
      (fun n u => inr (response (if (n <=? 1)%nat then 404 else 200) "" u))
      (Some {[ "href" := "" ]}) (inr ico).

(** A configuration entry for a host that cannot be reached. *)
Definition env_down : Env :=
  env (fun _ _ => refused) (fun _ _ => refused) None (inr png32).

Definition args0 : Args :=
  {| args_url := []; args_args_file := None; args_dir := ""; args_resize := 0;
     args_png := false; args_get := true; args_verbose := false;
     args_dokuwiki := Some "/srv/wiki"; args_force := false |}.

Definition conf_path : string := "/srv/wiki/conf/interwiki.local.conf".

(** A DokuWiki tree with a two-line configuration and one icon in place. *)
Definition wiki_world : World :=
  {| trace := [];
     fs := {[ conf_path := TextFile ["# comment"; "wp   https://en.wikipedia.org/wiki/{NAME}"];
              "/srv/wiki/lib/images/interwiki/wp.png" := ImageFile png32 ]} |}.

(** A page that declares its icon by a path that starts with [http], and
    a page that declares it by a reference with an empty host. *)
Definition env_http_path : Env :=
  env (fun _ u => inr (response 200 "<html>" u)) (fun _ _ => refused)
      (Some {[ "href" := "httpdocs/favicon.ico" ]}) (inr ico).

Definition env_no_host : Env :=
  env (fun _ u => inr (response 200 "<html>" u)) (fun _ _ => refused)
      (Some {[ "href" := "///favicon.ico" ]}) (inr ico).

(** A page that declares its icon by a relative path. *)
Definition env_relative : Env :=
  env (fun _ u => inr (response 200 "<html>" u)) (fun _ _ => refused)
      (Some {[ "href" := "img/favicon.ico" ]}) (inr ico).

End Sample.

(** ** Absolute URLs *)

(** A fully qualified absolute URL: it parses, and has a scheme and a
    host. *)
Definition is_absolute_url (chk : UrlParse.Checks) (url : string) : Prop :=
  exists p,
    UrlParse.urlparse chk url = inr p
    /\ UrlParse.scheme p <> "" /\ UrlParse.netloc p <> "".

(** The characters that end the netloc. *)
Definition is_delim (c : ascii) : bool := Py.contains c "/?#".
Definition not_delim (c : ascii) : bool := negb (is_delim c).

(** A scheme as [urlsplit] returns it when it finds one. *)
Definition valid_scheme (sc : string) : Prop :=
  match sc with
  | String c0 _ =>
      Py.isascii c0 && Py.is_ascii_alpha c0 = true
      /\ Py.all UrlParse.scheme_char sc = true
      /\ Py.lower sc = sc
  | EmptyString => False
  end.

(** No tab, carriage return or line feed. *)
Definition unsafe_char (c : ascii) : bool :=
  Ascii.eqb c UrlParse.TAB || Ascii.eqb c UrlParse.CR || Ascii.eqb c UrlParse.LF.

Definition no_unsafe (s : string) : Prop :=
  Py.all (fun c => negb (unsafe_char c)) s = true.

(** ** Auxiliary definitions for the properties of the runs *)

(** The environment with another search for the icon link, all else equal. *)
Definition with_soup (E : Env)
    (find : string -> Result (option (gmap string string))) : Env :=
  {| url_checks := url_checks E;
     http_get := http_get E;
     http_head := http_head E;
     soup_find_icon := find;
     image_open := image_open E;
     ico_getimage := ico_getimage E;
     image_resize := image_resize E;
     image_save_error := image_save_error E;
     makedirs_error := makedirs_error E;
     abspath := abspath E |}.

(** Lines 37-39: the default location of the icon with extension [ext]. *)
Definition default_location (page : UrlParse.ParseResult) (ext : string) : string :=
  (UrlParse.scheme page +:+ "://" +:+ UrlParse.netloc page +:+ "/favicon.") +:+ ext.

(** The location claimed for a relative reference: the scheme and host of
    the page, the directory of the page path, and the reference. *)
Definition relative_location (page : UrlParse.ParseResult) (ref : string) : string :=
  UrlParse.scheme page +:+ "://" +:+ UrlParse.netloc page +:+ "/"
    +:+ (PosixPath.split (UrlParse.path page)).1 +:+ "/" +:+ ref.




(** Lines 95-96: the directory the files of a run of [get_favicons] go to. *)
Definition target_dir (output_dir : string) : string :=
  if Py.truthy output_dir then output_dir else curdir.

(** A text without line boundaries. *)
Definition line_text (s : string) : bool :=
  Py.all (fun c => negb (is_linebreak c)) s.

(** The text of a file whose lines all end with a line feed. *)
Definition terminated (lines : list string) : list string :=
  map (fun u => u +:+ String (Py.chr 10) "") lines.

(** Further sample environments and worlds. *)
Module Cases.

(** A site whose page declares no icon and whose [/favicon.png] answers with
    a redirect to another host. *)
Definition moved : Response :=
  {| status_code := 301; content := ""; resp_url := "https://example.com/favicon.png";
     headers := {[ "location" := "https://cdn.example.com/icon.png" ]} |}.

Definition env_moved : Env :=
  Sample.env (fun _ u => inr (Sample.response 200 "<html>" u))
             (fun _ _ => inr moved) None (inr Sample.png32).

(** A site that serves a page and images, where images cannot be decoded. *)
Definition env_not_image : Env :=
  Sample.env (fun _ u => inr (Sample.response 200 "<html>" u))
             (fun _ _ => Sample.refused) None (inl (Exception "UnidentifiedImageError")).

(** A site whose pages declare [/favicon.ico] and which serves it. *)
Definition env_site : Env :=
  Sample.env (fun _ u => inr (Sample.response 200 "bytes" u))
             (fun _ _ => Sample.refused)
             (Some {[ "href" := "/favicon.ico" ]}) (inr Sample.ico).

(** A page, and the parts of its URL. *)
Definition start_url : string := "https://example.com/wiki/start.html".

Definition start_page : UrlParse.ParseResult :=
  {| UrlParse.scheme := "https"; UrlParse.netloc := "example.com";
     UrlParse.path := "/wiki/start.html"; UrlParse.params := "";
     UrlParse.query := ""; UrlParse.fragment := "" |}.

(** An entry of an interwiki configuration, and the parts of its target. *)
Definition wp_line : string := "wp   https://en.wikipedia.org/wiki/{NAME}".

Definition wp_target : UrlParse.ParseResult :=
  {| UrlParse.scheme := "https"; UrlParse.netloc := "en.wikipedia.org";
     UrlParse.path := "/wiki/{NAME}"; UrlParse.params := "";
     UrlParse.query := ""; UrlParse.fragment := "" |}.

(** A DokuWiki tree with two entries and no icon yet. *)
Definition two_entries : World :=
  {| trace := [];
     fs := {[ Sample.conf_path :=
                TextFile [wp_line; "en   https://example.com/{NAME}"] ]} |}.

(** Arguments that name a file of URLs, and a world that holds it. *)
Definition args_listed : Args :=
  {| args_url := ["ignored.example"]; args_args_file := Some "urls.txt";
     args_dir := "icons"; args_resize := 0; args_png := true; args_get := false;
     args_verbose := false; args_dokuwiki := None; args_force := false |}.

Definition listed_world : World :=
  {| trace := [];
     fs := {[ "urls.txt" := TextFile (terminated ["example.com"; ""; "https://example.org/a"]) ]} |}.

End Cases.

(** * Properties *)

(** ** Facts about the string primitives *)

Module PyFacts.

Lemma append_cons (c : ascii) (a b : string) :
  String c a +:+ b = String c (a +:+ b).
Proof. reflexivity. Qed.

Lemma append_nil_l (a : string) : "" +:+ a = a.
Proof. reflexivity. Qed.

Lemma append_assoc (a b c : string) : (a +:+ b) +:+ c = a +:+ (b +:+ c).
Proof.
  induction a as [|x a IH]; [reflexivity|].
  rewrite !append_cons. now f_equal.
Qed.


Lemma take_drop (n : nat) (s : string) : Py.take n s +:+ Py.drop n s = s.
Proof.
  revert s; induction n as [|n IH]; intros [|c s]; simpl; try reflexivity.
  rewrite append_cons. now rewrite IH.
Qed.

Lemma upto_from (i : Z) (s : string) : Py.upto i s +:+ Py.from i s = s.
Proof. apply take_drop. Qed.




End PyFacts.

(** ** [get_filename] *)

Section Filename.





End Filename.

(** ** Runs and their events *)

Section Runs.

Lemma events_since_app (w w' : World) (new : list Event) :
  trace w' = trace w ++ new -> events_since w w' = new.
Proof. intros H. unfold events_since. rewrite H. apply drop_app_length. Qed.

Lemma events_since_refl (w : World) : events_since w w = [].
Proof. apply events_since_app. now rewrite app_nil_r. Qed.

Lemma events_since_mk (w : World) (new : list Event) (files : gmap string File) :
  events_since w {| trace := trace w ++ new; fs := files |} = new.
Proof. now apply events_since_app. Qed.

End Runs.

Ltac run_step :=
  unfold bind, log, emit, modify, requests_get, requests_head, lift, throw,
    ret, try_except, after in *; simpl in *.

(** Case analysis on every answer of the environment a run consults. *)
Ltac run_simpl :=
  repeat progress
    (unfold bind, log, emit, modify, requests_get, requests_head, lift, throw,
       ret, try_except, after, header_Location, raise_for_status, image_save,
       isfile, codes_ok in *;
     simpl in *; rewrite <- ?app_assoc in *; simpl in *;
     rewrite ?events_since_mk, ?events_since_refl in * ).

Ltac run_cases :=
  repeat (run_simpl;
          match goal with
          | |- context [match ?x with _ => _ end] =>
              lazymatch type of x with
              | bool => destruct x eqn:?
              | Result _ => destruct x eqn:?
              | option _ => destruct x eqn:?
              end
          | H : context [match ?x with _ => _ end] |- _ =>
              lazymatch type of x with
              | bool => destruct x eqn:?
              | Result _ => destruct x eqn:?
              | option _ => destruct x eqn:?
              end
          end);
  run_simpl.

(** Two answers to the same question are the same answer. *)
Ltac same_answer :=
  repeat match goal with
         | H1 : ?x = ?a, H2 : ?x = ?b |- _ =>
             rewrite H1 in H2;
             first [discriminate H2 | inversion H2; subst; clear H2]
         end.

(** Membership in an explicit list of events. *)
Ltac inv_elem H :=
  repeat (apply elem_of_cons in H as [H|H];
          [try discriminate H; try (inversion H; subst; clear H)|]);
  try (now apply elem_of_nil in H).

(** ** [get_favicon] *)

Section Fetch.

Context (E : Env).

(** C2. When [get_favicon] receives a response whose status is a client or
    server error (400 to 599), it raises an HTTP error that carries the
    status, and it does so before the body is decoded: the request is the
    last thing it did. *)
Theorem get_favicon_raises_http_error (url filename : string) (resize : Z)
    (w : World) (response : Response) :
  EvGet url (inr response)
    ∈ events_since w (get_favicon E url filename resize w).2 ->
  400 <= status_code response < 600 ->
  (get_favicon E url filename resize w).1 = inl (HTTPError (status_code response))
  /\ last (events_since w (get_favicon E url filename resize w).2)
     = Some (EvGet url (inr response))
  /\ (forall c, EvOpen c ∉ events_since w (get_favicon E url filename resize w).2)
  /\ fs (get_favicon E url filename resize w).2 = fs w.
Proof.
  intros Hin Hst.
  unfold get_favicon, raise_for_status, resize_step, image_save in *. run_step.
  run_cases.
  all: inv_elem Hin.
  all: try (exfalso; unfold codes_ok in *; lia).
  all: repeat split; try reflexivity.
  all: try (intros c Hc; inv_elem Hc).
Qed.

End Fetch.

Lemma get_favicon_raises_http_error_witness :
  (get_favicon Sample.env404 "http://h/favicon.ico" "h.ico" 0 Sample.world0).1
  = inl (HTTPError 404)
  /\ last (events_since Sample.world0
             (get_favicon Sample.env404 "http://h/favicon.ico" "h.ico" 0
                          Sample.world0).2)
     = Some (EvGet "http://h/favicon.ico"
                   (inr (Sample.response 404 "" "http://h/favicon.ico")))
  /\ (forall c, EvOpen c ∉ events_since Sample.world0
                   (get_favicon Sample.env404 "http://h/favicon.ico" "h.ico" 0
                               Sample.world0).2)
  /\ fs (get_favicon Sample.env404 "http://h/favicon.ico" "h.ico" 0
                     Sample.world0).2 = fs Sample.world0.
Proof.
  apply (get_favicon_raises_http_error Sample.env404 "http://h/favicon.ico"
           "h.ico" 0 Sample.world0
           (Sample.response 404 "" "http://h/favicon.ico")).
  - vm_compute. apply list_elem_of_In. simpl. tauto.
  - simpl. lia.
Defined.

(** A status outside the 2xx range that is not an error status is not
    raised: with status 304 the body is decoded and the image saved. *)
Lemma get_favicon_304_not_raised :
  EvGet "http://h/favicon.ico"
        (inr (Sample.response 304 "body" "http://h/favicon.ico"))
    ∈ events_since Sample.world0
        (get_favicon Sample.env304 "http://h/favicon.ico" "h.ico" 0
                     Sample.world0).2
  /\ ~ (200 <= status_code (Sample.response 304 "body" "http://h/favicon.ico") < 300)
  /\ (get_favicon Sample.env304 "http://h/favicon.ico" "h.ico" 0
                  Sample.world0).1 = inr tt
  /\ EvOpen "body"
       ∈ events_since Sample.world0
           (get_favicon Sample.env304 "http://h/favicon.ico" "h.ico" 0
                        Sample.world0).2.
Proof.
  repeat split.
  - vm_compute. apply list_elem_of_In. simpl. tauto.
  - simpl. lia.
  - vm_compute. apply list_elem_of_In. simpl. tauto.
Qed.

Section Resize.

Context (E : Env).

Lemma size_eqb_eq (a b : Z * Z) : size_eqb a b = true <-> a = b.
Proof.
  destruct a as [a1 a2], b as [b1 b2]. unfold size_eqb. simpl.
  rewrite andb_true_iff, !Z.eqb_eq. split; [intros [-> ->]; reflexivity|].
  intros H; inversion H; auto.
Qed.

(** The test of line 74 decides [native_frame]. *)
Lemma native_frame_test (favicon : Image) (size : Z * Z) :
  format_is "ICO" favicon && existsb (size_eqb size) (ico_sizes favicon) = true
  <-> native_frame favicon size.
Proof.
  unfold native_frame, format_is. rewrite andb_true_iff, existsb_exists.
  split.
  - intros [Hf (x & Hin & Hx)]. apply size_eqb_eq in Hx. subst x.
    split; [|now apply list_elem_of_In].
    destruct (format favicon); [|discriminate].
    apply String.eqb_eq in Hf. now subst.
  - intros [Hf Hin]. rewrite Hf. split; [reflexivity|].
    exists size. split; [now apply list_elem_of_In | now apply size_eqb_eq].
Qed.

(** C6. For a decoded image and a resize request with [size > 0]: if the
    source is an ICO file that embeds a frame of exactly [size] by [size],
    [get_favicon] takes that frame and makes no resampling call; in every
    other case it resizes to [size] by [size] with bicubic resampling.  The
    image it goes on to save is the one so obtained. *)
Theorem get_favicon_resize (url filename : string) (resize : Z) (w : World)
    (response : Response) (favicon : Image) :
  EvGet url (inr response) ∈ run_events (get_favicon E url filename resize) w ->
  EvOpen (content response) ∈ run_events (get_favicon E url filename resize) w ->
  image_open E (content response) = inr favicon ->
  0 < resize ->
  (native_frame favicon (resize, resize) ->
     EvGetImage (resize, resize) ∈ run_events (get_favicon E url filename resize) w
     /\ (forall size resample,
           EvResize size resample ∉ run_events (get_favicon E url filename resize) w)
     /\ ((get_favicon E url filename resize w).1 = inr tt ->
         exists frame,
           ico_getimage E favicon (resize, resize) = inr frame
           /\ fs (get_favicon E url filename resize w).2 !! filename
              = Some (ImageFile frame)))
  /\ (~ native_frame favicon (resize, resize) ->
       EvResize (resize, resize) BICUBIC
         ∈ run_events (get_favicon E url filename resize) w
       /\ (forall size resample,
             EvResize size resample ∈ run_events (get_favicon E url filename resize) w ->
             size = (resize, resize) /\ resample = BICUBIC)
       /\ (forall size,
             EvGetImage size ∉ run_events (get_favicon E url filename resize) w)
       /\ ((get_favicon E url filename resize w).1 = inr tt ->
           exists resized,
             image_resize E favicon (resize, resize) BICUBIC = inr resized
             /\ fs (get_favicon E url filename resize w).2 !! filename
                = Some (ImageFile resized))).
Proof.
  intros Hget Hopen Himg Hpos.
  pose proof (native_frame_test favicon (resize, resize)) as Hnat.
  unfold run_events, get_favicon, raise_for_status, resize_step, image_save in *.
  run_step. run_cases.
  all: inv_elem Hget.
  all: try (inv_elem Hopen).
  all: try (exfalso; congruence).
  all: try (exfalso;
            match goal with
            | H : (0 <? ?z) = false |- _ => apply Z.ltb_ge in H; lia
            end).
  all: replace i with favicon in * by congruence.
  all: split; intros Hn.
  all: try (exfalso; apply Hnat in Hn; congruence).
  all: try (exfalso; apply Hn, Hnat; assumption).
  all: repeat split.
  all: try (apply list_elem_of_In; simpl; tauto).
  all: try (intros sz rs Hin; inv_elem Hin; fail).
  all: try (intros sz Hin; inv_elem Hin; fail).
  all: try (inv_elem H; reflexivity).
  all: try discriminate.
  all: intros _; eexists; (split; [eassumption | apply lookup_insert_eq]).
Qed.

End Resize.

Lemma get_favicon_resize_witness :
  EvGetImage (16, 16)
    ∈ run_events (get_favicon Sample.env_ico "http://h/favicon.ico" "h.png" 16)
                 Sample.world0
  /\ EvResize (24, 24) BICUBIC
       ∈ run_events (get_favicon Sample.env_ico "http://h/favicon.ico" "h.png" 24)
                    Sample.world0.
Proof.
  split.
  - apply (get_favicon_resize Sample.env_ico "http://h/favicon.ico" "h.png" 16
             Sample.world0
             (Sample.response 200 "ico-bytes" "http://h/favicon.ico") Sample.ico).
    + vm_compute. apply list_elem_of_In. simpl. tauto.
    + vm_compute. apply list_elem_of_In. simpl. tauto.
    + reflexivity.
    + lia.
    + split; [reflexivity|]. apply list_elem_of_In. simpl. tauto.
  - apply (get_favicon_resize Sample.env_ico "http://h/favicon.ico" "h.png" 24
             Sample.world0
             (Sample.response 200 "ico-bytes" "http://h/favicon.ico") Sample.ico).
    + vm_compute. apply list_elem_of_In. simpl. tauto.
    + vm_compute. apply list_elem_of_In. simpl. tauto.
    + reflexivity.
    + lia.
    + intros [_ Hin]. apply list_elem_of_In in Hin. simpl in Hin.
      destruct Hin as [H|[H|[]]]; discriminate H.
Defined.

(** ** [get_favicon_url] *)

Section Locate.

Context (E : Env).

(** C9. When the page declares an icon link whose [href] is the empty
    string, [get_favicon_url] behaves as if the page declared no icon at
    all: it goes on to probe [/favicon.png] and then [/favicon.ico]. *)
Theorem empty_href_probes_defaults (url : string) (w : World)
    (response : Response) (attrs : gmap string string) :
  EvGet url (inr response) ∈ run_events (get_favicon_url E url) w ->
  status_code response = 200 ->
  soup_find_icon E (content response) = inr (Some attrs) ->
  attrs !! "href" = Some "" ->
  get_favicon_url E url w = get_favicon_url (no_icon_link E) url w
  /\ exists page r1 rest,
      UrlParse.urlparse (url_checks E) url = inr page
      /\ run_events (get_favicon_url E url) w
         = EvGet url (inr response)
           :: EvHead ((UrlParse.scheme page +:+ "://" +:+ UrlParse.netloc page
                        +:+ "/favicon.") +:+ "png") r1
           :: rest
      /\ (forall resp1,
            r1 = inr resp1 -> is_redirect resp1 = false ->
            status_code resp1 <> 200 ->
            exists r2,
              rest = [EvHead ((UrlParse.scheme page +:+ "://"
                                +:+ UrlParse.netloc page +:+ "/favicon.")
                               +:+ "ico") r2]).
Proof.
  intros Hget Hst Hsoup Hhref.
  unfold run_events, get_favicon_url, find_reference, declared_reference,
    header_Location, codes_ok in *.
  run_cases.
  all: inv_elem Hget.
  all: same_answer.
  all: try discriminate.
  all: (split; [reflexivity|]).
  all: eexists _, _, _; (split; [reflexivity|]); (split; [reflexivity|]).
  all: intros resp1 Hr1 Hred Hs; try discriminate Hr1.
  all: inversion Hr1; subst; try congruence.
  all: try (exfalso; apply Hs; apply Z.eqb_eq; assumption).
  all: eexists; reflexivity.
Qed.

End Locate.

Lemma empty_href_probes_defaults_witness :
  get_favicon_url Sample.env_empty_href "https://example.com/wiki/page" Sample.world0
  = get_favicon_url (no_icon_link Sample.env_empty_href)
      "https://example.com/wiki/page" Sample.world0
  /\ (get_favicon_url Sample.env_empty_href "https://example.com/wiki/page"
                      Sample.world0).1
     = inr "https://example.com/favicon.ico".
Proof.
  split; [|reflexivity].
  apply (empty_href_probes_defaults Sample.env_empty_href
           "https://example.com/wiki/page" Sample.world0
           (Sample.response 200 "<html>" "https://example.com/wiki/page")
           {[ "href" := "" ]}).
  - vm_compute. apply list_elem_of_In. simpl. tauto.
  - reflexivity.
  - reflexivity.
  - reflexivity.
Defined.

(** ** [get_dokuwiki_interwiki_icons] *)

Section Interwiki.

Context (E : Env).

(** With [args] bound, no handler of the entry loop raises. *)
Lemma handle_entry_error_returns (a : Args) (ex : exn) (w : World) :
  exists msg args,
    handle_entry_error (Some a) ex w = (inr tt, after w (EvLog ERROR msg args)).
Proof.
  unfold handle_entry_error.
  destruct (is_ConnectionError ex); [|destruct (is_RequestException ex)];
    eexists _, _; reflexivity.
Qed.

Lemma interwiki_entry_returns (a : Args) (images_dir : string) (force : bool)
    (line : string) (w : World) :
  (interwiki_entry E (Some a) images_dir force line w).1 = inr tt.
Proof.
  unfold interwiki_entry, bind, try_except.
  destruct (interwiki_try E images_dir force line w) as [[e|[[name filename]|]] w1].
  - destruct (handle_entry_error_returns a e w1) as (msg & args & ->). reflexivity.
  - reflexivity.
  - reflexivity.
Qed.

Lemma interwiki_scan_fold (a : Args) (images_dir : string) (force : bool)
    (lines : list string) (w : World) :
  interwiki_scan E (Some a) images_dir force lines w
  = (inr tt,
     fold_left (fun w line => (interwiki_entry E (Some a) images_dir force line w).2)
               lines w).
Proof.
  revert w; induction lines as [|line lines IH]; intros w; [reflexivity|].
  simpl. unfold bind at 1.
  pose proof (interwiki_entry_returns a images_dir force line w) as Hr.
  destruct (interwiki_entry E (Some a) images_dir force line w) as [r w1].
  simpl in Hr. subst r. apply IH.
Qed.

Lemma interwiki_scan_app (args : option Args) (images_dir : string)
    (force : bool) (before rest : list string) (w w1 : World) :
  interwiki_scan E args images_dir force before w = (inr tt, w1) ->
  interwiki_scan E args images_dir force (before ++ rest) w
  = interwiki_scan E args images_dir force rest w1.
Proof.
  revert w; induction before as [|l before IH]; intros w H.
  - cbn in H. now inversion H.
  - cbn [app interwiki_scan] in *. unfold bind in *.
    destruct (interwiki_entry E args images_dir force l w) as [[e|[]] w2];
      cbn [fst snd] in *; [discriminate|].
    now apply IH.
Qed.

(** C1. In interwiki mode an exception raised while one entry of the
    configuration file is processed reaches one of the three handlers of the
    entry.  A failure other than a connection failure is logged at error
    level and the entry returns, whether the module global [args] is bound
    or not.  The handler of a connection failure reads [args.url]: where
    [args] is bound, as in a run from the command line, the failure is
    logged, with the URLs of the command line in the message, and the scan
    goes on through every line; where it is not, as when the function is
    called from another module, the handler raises [NameError], nothing is
    logged, and the scan ends at that entry without processing the lines
    that follow. *)
Theorem interwiki_entry_failure_containment :
  (* a failure other than a connection failure is logged and contained *)
  (forall args images_dir force line w ex,
      (interwiki_try E images_dir force line w).1 = inl ex ->
      is_ConnectionError ex = false ->
      exists msg la,
        interwiki_entry E args images_dir force line w
        = (inr tt,
           after (interwiki_try E images_dir force line w).2 (EvLog ERROR msg la)))
  (* a connection failure is logged and contained where [args] is bound *)
  /\ (forall a images_dir force line w ex,
        (interwiki_try E images_dir force line w).1 = inl ex ->
        is_ConnectionError ex = true ->
        interwiki_entry E (Some a) images_dir force line w
        = (inr tt,
           after (interwiki_try E images_dir force line w).2
                 (EvLog ERROR (AStr "cannot connect to '%s'") [AList (args_url a)])))
  (* and escapes as a [NameError] where it is not *)
  /\ (forall images_dir force line w ex,
        (interwiki_try E images_dir force line w).1 = inl ex ->
        is_ConnectionError ex = true ->
        interwiki_entry E None images_dir force line w
        = (inl (NameError "args"), (interwiki_try E images_dir force line w).2))
  (* with [args] bound the scan processes every line *)
  /\ (forall a images_dir force lines w,
        interwiki_scan E (Some a) images_dir force lines w
        = (inr tt,
           fold_left
             (fun w line => (interwiki_entry E (Some a) images_dir force line w).2)
             lines w))
  (* with [args] unbound it ends at the first connection failure *)
  /\ (forall images_dir force before line rest w w1 ex,
        interwiki_scan E None images_dir force before w = (inr tt, w1) ->
        (interwiki_try E images_dir force line w1).1 = inl ex ->
        is_ConnectionError ex = true ->
        interwiki_scan E None images_dir force (before ++ line :: rest) w
        = (inl (NameError "args"), (interwiki_try E images_dir force line w1).2))
  (* the run from the command line, where [args] is bound *)
  /\ (forall a home lines w,
        args_dokuwiki a = Some home -> home <> "" ->
        makedirs_error E
          (PosixPath.join (abspath E home) ["lib"; "images"; "interwiki"]) = None ->
        fs w !! PosixPath.join (abspath E home) ["conf"; "interwiki.local.conf"]
          = Some (TextFile lines) ->
        main E a w
        = (inr tt,
           fold_left
             (fun w line =>
                (interwiki_entry E (Some a)
                   (PosixPath.join (abspath E home) ["lib"; "images"; "interwiki"])
                   (args_force a) line w).2)
             lines
             (after w (EvMakedirs
                         (PosixPath.join (abspath E home)
                            ["lib"; "images"; "interwiki"]) 504))))
  (* the function called where [args] is unbound *)
  /\ (forall home force before line rest w w1 ex,
        makedirs_error E
          (PosixPath.join (abspath E home) ["lib"; "images"; "interwiki"]) = None ->
        fs w !! PosixPath.join (abspath E home) ["conf"; "interwiki.local.conf"]
          = Some (TextFile (before ++ line :: rest)) ->
        interwiki_scan E None
          (PosixPath.join (abspath E home) ["lib"; "images"; "interwiki"]) force
          before
          (after w (EvMakedirs
                      (PosixPath.join (abspath E home)
                         ["lib"; "images"; "interwiki"]) 504))
        = (inr tt, w1) ->
        (interwiki_try E
           (PosixPath.join (abspath E home) ["lib"; "images"; "interwiki"])
           force line w1).1 = inl ex ->
        is_ConnectionError ex = true ->
        get_dokuwiki_interwiki_icons E None home force w
        = (inl (NameError "args"),
           (interwiki_try E
              (PosixPath.join (abspath E home) ["lib"; "images"; "interwiki"])
              force line w1).2)).
Proof.
  assert (Hunbound : forall images_dir force line w ex,
             (interwiki_try E images_dir force line w).1 = inl ex ->
             is_ConnectionError ex = true ->
             interwiki_entry E None images_dir force line w
             = (inl (NameError "args"), (interwiki_try E images_dir force line w).2)).
  { intros images_dir force line w ex Hex Hc.
    unfold interwiki_entry, bind, try_except.
    destruct (interwiki_try E images_dir force line w) as [[e|r] w1];
      cbn [fst snd] in *; [|discriminate].
    inversion Hex; subst e. unfold handle_entry_error. rewrite Hc. reflexivity. }
  assert (Hstop : forall images_dir force before line rest w w1 ex,
             interwiki_scan E None images_dir force before w = (inr tt, w1) ->
             (interwiki_try E images_dir force line w1).1 = inl ex ->
             is_ConnectionError ex = true ->
             interwiki_scan E None images_dir force (before ++ line :: rest) w
             = (inl (NameError "args"),
                (interwiki_try E images_dir force line w1).2)).
  { intros images_dir force before line rest w w1 ex Hb Hex Hc.
    rewrite (interwiki_scan_app None images_dir force before (line :: rest) w w1 Hb).
    cbn [interwiki_scan]. unfold bind at 1.
    now rewrite (Hunbound images_dir force line w1 ex Hex Hc). }
  split; [|split; [|split; [exact Hunbound|split; [|split; [exact Hstop|split]]]]].
  - intros args images_dir force line w ex Hex Hc.
    unfold interwiki_entry, bind, try_except.
    destruct (interwiki_try E images_dir force line w) as [[e|r] w1];
      cbn [fst snd] in *; [|discriminate].
    inversion Hex; subst e. unfold handle_entry_error. rewrite Hc.
    destruct (is_RequestException ex); eexists _, _; reflexivity.
  - intros a images_dir force line w ex Hex Hc.
    unfold interwiki_entry, bind, try_except.
    destruct (interwiki_try E images_dir force line w) as [[e|r] w1];
      cbn [fst snd] in *; [|discriminate].
    inversion Hex; subst e. unfold handle_entry_error. rewrite Hc. reflexivity.
  - intros a images_dir force lines w. apply interwiki_scan_fold.
  - intros a home lines w Hd Hne Hmk Hconf.
    unfold main. rewrite Hd. destruct home as [|c home]; [congruence|].
    unfold get_dokuwiki_interwiki_icons, bind, makedirs, read_lines.
    cbn [fst snd]. rewrite Hmk. cbn [fst snd after fs]. rewrite Hconf.
    cbn [fst snd]. now rewrite interwiki_scan_fold.
  - intros home force before line rest w w1 ex Hmk Hconf Hb Hex Hc.
    unfold get_dokuwiki_interwiki_icons, bind, makedirs, read_lines.
    cbn [fst snd]. rewrite Hmk. cbn [fst snd after fs]. rewrite Hconf.
    cbn [fst snd]. now apply (Hstop _ force before line rest _ w1 ex).
Qed.

(** When the function is called with [args] unbound, that is from another
    module rather than from the [__main__] block, the handler for a
    connection failure itself raises. *)
Lemma handle_entry_error_unbound (msg : string) (w : World) :
  handle_entry_error None (ConnectionError msg) w = (inl (NameError "args"), w).
Proof. reflexivity. Qed.

End Interwiki.

Lemma interwiki_entry_failure_containment_witness :
  get_dokuwiki_interwiki_icons Sample.env_down None "/srv/wiki" false Cases.two_entries
  = (inl (NameError "args"),
     (interwiki_try Sample.env_down
        (PosixPath.join (abspath Sample.env_down "/srv/wiki")
           ["lib"; "images"; "interwiki"])
        false Cases.wp_line
        (after Cases.two_entries
           (EvMakedirs
              (PosixPath.join (abspath Sample.env_down "/srv/wiki")
                 ["lib"; "images"; "interwiki"]) 504))).2).
Proof.
  destruct (interwiki_entry_failure_containment Sample.env_down)
    as (_ & _ & _ & _ & _ & _ & H).
  apply (H "/srv/wiki" false [] Cases.wp_line
           ["en   https://example.com/{NAME}"] Cases.two_entries _
           (ConnectionError "refused")); reflexivity.
Defined.

(** Called where [args] is unbound, the scan of a two-entry file ends with
    [NameError] at the first host that refuses the connection: nothing is
    logged and the second entry is never asked for.  Run from the command
    line both entries are processed, and each message names the URLs of
    the command line, here none, instead of the host that failed. *)
Lemma interwiki_unbound_args_aborts_scan :
  get_dokuwiki_interwiki_icons Sample.env_down None "/srv/wiki" false Cases.two_entries
  = (inl (NameError "args"),
     {| trace := [EvMakedirs "/srv/wiki/lib/images/interwiki" 504;
                  EvGet "https://en.wikipedia.org/" Sample.refused];
        fs := fs Cases.two_entries |})
  /\ main Sample.env_down Sample.args0 Cases.two_entries
     = (inr tt,
        {| trace := [EvMakedirs "/srv/wiki/lib/images/interwiki" 504;
                     EvGet "https://en.wikipedia.org/" Sample.refused;
                     EvLog ERROR (AStr "cannot connect to '%s'") [AList []];
                     EvGet "https://example.com/" Sample.refused;
                     EvLog ERROR (AStr "cannot connect to '%s'") [AList []]];
           fs := fs Cases.two_entries |}).
Proof. split; reflexivity. Qed.

(** ** The entry pattern *)

Section Pattern.

Lemma star_ext {A} (cls : ascii -> bool) (s : string)
    (k k' : string -> string -> option A) :
  (forall m r, k m r = k' m r) -> Re.star cls s k = Re.star cls s k'.
Proof.
  revert k k'; induction s as [|c s IH]; intros k k' Hk; simpl; [apply Hk|].
  destruct (cls c); [|apply Hk].
  rewrite (IH _ (fun m rest => k' (String c m) rest)) by (intros; apply Hk).
  now rewrite Hk.
Qed.

(** A repetition whose continuation rejects every rest that starts with a
    character of the class never gives a character back. *)
Lemma star_commits {A} (cls : ascii -> bool) (s : string)
    (k : string -> string -> option A) :
  (forall m c r, cls c = true -> k m (String c r) = None) ->
  Re.star cls s k = k (take_while cls s) (Py.lstrip cls s).
Proof.
  revert k; induction s as [|c s IH]; intros k Hk; simpl; [reflexivity|].
  destruct (cls c) eqn:Hc; [|reflexivity].
  rewrite IH by (intros; now apply Hk).
  destruct (k (String c (take_while cls s)) (Py.lstrip cls s)) eqn:Hr;
    [reflexivity|].
  now apply Hk.
Qed.

(** The last repetition, followed by the end of the string. *)
Lemma star_dot_end {A} (f : string -> A) (s : string) :
  Re.star Re.dot s
    (fun m rest => match rest with EmptyString => Some (f m) | _ => None end)
  = if Py.all Re.dot s then Some (f s) else None.
Proof.
  revert f; induction s as [|c s IH]; intros f; simpl; [reflexivity|].
  destruct (Re.dot c); simpl; [|reflexivity].
  rewrite (IH (fun m => f (String c m))).
  now destruct (Py.all Re.dot s).
Qed.

Lemma all_dot_lstrip (s : string) :
  Py.all Re.dot s = true -> Py.all Re.dot (Py.lstrip Re.space s) = true.
Proof.
  induction s as [|c s IH]; simpl; [reflexivity|].
  intros H. apply andb_true_iff in H as [Hc Hs].
  destruct (Re.space c); [now apply IH|].
  simpl. now rewrite Hc, Hs.
Qed.

(** The middle repetition: giving spaces back cannot turn a failure of the
    rest into a success. *)
Lemma star_space_then {A} (f : string -> A) (s : string) :
  Re.star Re.space s
    (fun _ rest => if Py.all Re.dot rest then Some (f rest) else None)
  = if Py.all Re.dot (Py.lstrip Re.space s)
    then Some (f (Py.lstrip Re.space s)) else None.
Proof.
  induction s as [|c s IH]; [reflexivity|].
  cbn [Re.star Py.lstrip].
  destruct (Re.space c) eqn:Hc; [|reflexivity].
  rewrite IH.
  destruct (Py.all Re.dot (Py.lstrip Re.space s)) eqn:Hd; [reflexivity|].
  destruct (Py.all Re.dot (String c s)) eqn:Hall; [|reflexivity].
  apply all_dot_lstrip in Hall. simpl in Hall. rewrite Hc in Hall. congruence.
Qed.

Lemma name_char_not_space (c : ascii) :
  Re.name_char c = true -> Re.space c = false.
Proof. destruct c as [[] [] [] [] [] [] [] []]; vm_compute; congruence. Qed.

(** The backtracking match computes [entry_groups]. *)
Lemma fullmatch_entry_groups (s : string) :
  Re.fullmatch_entry s = entry_groups s.
Proof.
  unfold Re.fullmatch_entry, entry_groups, Re.plus.
  destruct s as [|c s]; [reflexivity|]. cbn [take_while Py.lstrip].
  destruct (Re.name_char c) eqn:Hc; [|reflexivity].
  rewrite star_commits.
  - destruct (Py.lstrip Re.name_char s) as [|d rest]; [reflexivity|].
    destruct (Re.space d); [|reflexivity].
    rewrite (star_ext _ _ _
               (fun _ r => if Py.all Re.dot r
                           then Some (String c (take_while Re.name_char s), r)
                           else None)).
    + apply (star_space_then (fun r => (String c (take_while Re.name_char s), r))).
    + intros m r. apply (star_dot_end (fun g2 => (String c (take_while Re.name_char s), g2))).
  - intros m d r Hd. now rewrite (name_char_not_space d Hd).
Qed.

Lemma take_while_lstrip (cls : ascii -> bool) (s : string) :
  take_while cls s +:+ Py.lstrip cls s = s.
Proof.
  induction s as [|c s IH]; simpl; [reflexivity|].
  destruct (cls c); [|reflexivity].
  rewrite PyFacts.append_cons. now rewrite IH.
Qed.

Lemma all_take_while (cls : ascii -> bool) (s : string) :
  Py.all cls (take_while cls s) = true.
Proof.
  induction s as [|c s IH]; simpl; [reflexivity|].
  destruct (cls c) eqn:Hc; simpl; [now rewrite Hc|reflexivity].
Qed.

(** A prefix of the class followed by a character outside it is the
    longest such prefix. *)
Lemma take_while_app (cls : ascii -> bool) (a b : string) :
  Py.all cls a = true ->
  match b with String c _ => cls c = false | EmptyString => True end ->
  take_while cls (a +:+ b) = a /\ Py.lstrip cls (a +:+ b) = b.
Proof.
  intros Ha Hb. induction a as [|x a IH].
  - rewrite PyFacts.append_nil_l. destruct b as [|c b]; simpl; [auto|].
    now rewrite Hb.
  - rewrite PyFacts.append_cons. simpl in *.
    apply andb_true_iff in Ha as [Hx Ha]. rewrite Hx.
    destruct (IH Ha) as [-> ->]. auto.
Qed.

Lemma starts_with_space_lstrip (s : string) :
  starts_with_space (Py.lstrip Re.space s) = false.
Proof.
  induction s as [|c s IH]; simpl; [reflexivity|].
  destruct (Re.space c) eqn:Hc; [exact IH | simpl; exact Hc].
Qed.

(** The groups of a full match are those of the shape the pattern
    describes, and every string of that shape matches. *)
Lemma fullmatch_entry_shape (s name target : string) :
  Re.fullmatch_entry s = Some (name, target) <-> entry_shape s name target.
Proof.
  rewrite fullmatch_entry_groups. unfold entry_groups, entry_shape. split.
  - intros H.
    pose proof (take_while_lstrip Re.name_char s) as Hs.
    pose proof (all_take_while Re.name_char s) as Hn.
    destruct (take_while Re.name_char s) as [|c n]; [discriminate|].
    destruct (Py.lstrip Re.name_char s) as [|d rest]; [discriminate|].
    destruct (Re.space d) eqn:Hd; [|discriminate].
    destruct (Py.all Re.dot (Py.lstrip Re.space rest)) eqn:Hdot; [|discriminate].
    inversion H; subst name target; clear H.
    exists (String d (take_while Re.space rest)).
    repeat split; try discriminate; try assumption.
    + rewrite <- Hs, (PyFacts.append_cons d), take_while_lstrip. reflexivity.
    + simpl. rewrite Hd. apply all_take_while.
    + apply starts_with_space_lstrip.
  - intros (gap & -> & Hne & Hn & Hg & Hsp & Hdot & Hst).
    destruct gap as [|d gap]; [congruence|].
    simpl in Hsp. apply andb_true_iff in Hsp as [Hd Hsp].
    destruct (take_while_app Re.name_char name (String d gap +:+ target) Hn)
      as [-> ->].
    { rewrite PyFacts.append_cons.
      destruct (Re.name_char d) eqn:Hnd; [|reflexivity].
      apply name_char_not_space in Hnd. congruence. }
    destruct name as [|c name]; [congruence|].
    rewrite PyFacts.append_cons, Hd.
    destruct (take_while_app Re.space gap target Hsp) as [_ ->].
    { destruct target as [|t target]; [exact I | exact Hst]. }
    now rewrite Hdot.
Qed.

End Pattern.

Section Skip.

Context (E : Env).

(** C7. In interwiki mode without [force], a valid entry whose destination
    [name.png] already exists costs one info-level message and nothing
    else: no request is made, no error is logged and the file system, the
    destination included, is left as it was. *)
Theorem interwiki_existing_icon_is_skipped (args : option Args)
    (images_dir line name target : string) (w : World) :
  entry_shape (strip line) name target ->
  is_Some (fs w !! PosixPath.join images_dir [name +:+ ".png"]) ->
  interwiki_entry E args images_dir false line w
  = (inr tt, after w (EvLog INFO (AStr "%s: icon exists - skip") [AStr name]))
  /\ run_events (interwiki_entry E args images_dir false line) w
     = [EvLog INFO (AStr "%s: icon exists - skip") [AStr name]]
  /\ Forall (fun ev => is_request ev = false)
            (run_events (interwiki_entry E args images_dir false line) w)
  /\ (forall msg a,
        EvLog ERROR msg a ∉ run_events (interwiki_entry E args images_dir false line) w)
  /\ fs (interwiki_entry E args images_dir false line w).2 = fs w.
Proof.
  intros Hshape Hfile.
  apply fullmatch_entry_shape in Hshape.
  assert (Hrun : interwiki_entry E args images_dir false line w
                 = (inr tt, after w (EvLog INFO (AStr "%s: icon exists - skip")
                                            [AStr name]))).
  { unfold interwiki_entry, interwiki_try. rewrite Hshape.
    unfold bind, try_except, isfile, log, emit, modify, ret.
    rewrite (bool_decide_eq_true_2 _ Hfile). reflexivity. }
  split; [exact Hrun|].
  unfold run_events. rewrite Hrun. unfold after. simpl.
  rewrite events_since_mk.
  repeat split.
  - repeat constructor.
  - intros msg a Hin. inv_elem Hin.
Qed.

End Skip.

Lemma interwiki_existing_icon_is_skipped_witness :
  run_events (interwiki_entry Sample.env_down (Some Sample.args0)
                "/srv/wiki/lib/images/interwiki" false
                "wp   https://en.wikipedia.org/wiki/{NAME}")
             Sample.wiki_world
  = [EvLog INFO (AStr "%s: icon exists - skip") [AStr "wp"]].
Proof.
  apply (interwiki_existing_icon_is_skipped Sample.env_down (Some Sample.args0)
           "/srv/wiki/lib/images/interwiki"
           "wp   https://en.wikipedia.org/wiki/{NAME}" "wp"
           "https://en.wikipedia.org/wiki/{NAME}" Sample.wiki_world).
  - exists "   ". repeat split; try reflexivity; discriminate.
  - vm_compute. eexists. reflexivity.
Defined.

(** ** [get_favicons] *)

Section Batch.

Context (E : Env).

(** [get_favicon_url] either fails before it does anything, or starts with
    the GET of the page and goes on with requests only; it never touches
    the file system. *)
Lemma get_favicon_url_shape (url : string) (w : World) :
  (exists e, get_favicon_url E url w = (inl e, w))
  \/ (exists r more,
        trace (get_favicon_url E url w).2 = trace w ++ EvGet url r :: more
        /\ Forall (fun ev => is_request ev = true) more
        /\ fs (get_favicon_url E url w).2 = fs w).
Proof.
  unfold get_favicon_url, find_reference, declared_reference.
  run_cases.
  all: try (left; eexists; reflexivity).
  all: right; eexists _, _; (split; [reflexivity|]); split; [|reflexivity].
  all: repeat constructor.
Qed.

(** [get_favicon] only adds to the trace. *)
Lemma get_favicon_extends (url filename : string) (resize : Z) (w : World) :
  exists new, trace (get_favicon E url filename resize w).2 = trace w ++ new.
Proof.
  unfold get_favicon, resize_step.
  run_cases.
  all: eexists; reflexivity.
Qed.

Lemma handle_url_error_returns (url : string) (ex : exn) (w : World) :
  exists msg args,
    handle_url_error url ex w = (inr tt, after w (EvLog ERROR msg args)).
Proof.
  unfold handle_url_error.
  destruct (is_ConnectionError ex); [|destruct (is_RequestException ex)];
    eexists _, _; reflexivity.
Qed.

(** What an iteration adds comes after what [get_favicon_url] did. *)
Lemma get_favicons_item_extends (png : bool) (resize : Z) (get : bool)
    (url output_dir : string) (w : World) :
  (get_favicons_item E png resize get url (w, output_dir)).1 = inr tt
  /\ exists new,
      trace (get_favicons_item E png resize get url (w, output_dir)).2.1
      = trace (get_favicon_url E (normalize_url url) w).2 ++ new.
Proof.
  unfold get_favicons_item, try_except, get_favicons_try, bind, on_world,
    get_state, modify, throw, lift, ret.
  simpl.
  destruct (get_favicon_url E (normalize_url url) w) as [[e|fav] w1]; simpl.
  - destruct (handle_url_error_returns (normalize_url url) e w1) as (m & a & ->).
    split; [reflexivity|]. eexists; reflexivity.
  - destruct (negb (Py.truthy fav)); simpl.
    { split; [reflexivity|]. eexists; reflexivity. }
    destruct get; simpl; [|split; [reflexivity | eexists; reflexivity]].
    destruct (negb (Py.truthy output_dir)); simpl.
    all: destruct (get_filename (url_checks E) (normalize_url url) fav png)
      as [e|name]; simpl.
    all: try (destruct (handle_url_error_returns (normalize_url url) e w1)
                as (m & a & ->);
              split; [reflexivity | eexists; reflexivity]).
    all: match goal with
         | |- context [get_favicon E ?u ?f ?r ?w0] =>
             destruct (get_favicon_extends u f r w0) as (new & Hnew);
             destruct (get_favicon E u f r w0) as [[e|[]] w2]
         end; simpl in *.
    all: try (destruct (handle_url_error_returns (normalize_url url) e w2)
                as (m & a & ->); simpl;
              split; [reflexivity|]; rewrite Hnew, <- app_assoc;
              eexists; reflexivity).
    all: split; [reflexivity | eexists; exact Hnew].
Qed.

(** The loop runs the iteration on every URL in turn. *)
Lemma get_favicons_loop_fold (png : bool) (resize : Z) (get : bool)
    (urls : list string) (s : World * string) :
  get_favicons_loop E png resize get urls s
  = (inr tt,
     fold_left (fun s url => (get_favicons_item E png resize get url s).2) urls s).
Proof.
  revert s; induction urls as [|url urls IH]; intros s; [reflexivity|].
  simpl. unfold bind at 1. destruct s as [w od].
  pose proof (get_favicons_item_extends png resize get url od w) as [Hr _].
  destruct (get_favicons_item E png resize get url (w, od)) as [r s1].
  simpl in Hr. subst r. apply IH.
Qed.

(** C3. The URL-list driver prefixes [https://] to a URL that does not start
    with [http] and leaves a URL that starts with [http] as it is; it does so
    before any request: the first request of an iteration, if there is one,
    is the GET of the normalized URL. *)
Theorem get_favicons_normalizes_url (png : bool) (resize : Z) (get : bool)
    (url output_dir : string) (w : World) :
  normalize_url url = (if Py.startswith "http" url then url else "https://" +:+ url)
  /\ (List.filter is_request
        (events_since w (get_favicons_item E png resize get url (w, output_dir)).2.1)
      = []
      \/ exists r rest,
          events_since w (get_favicons_item E png resize get url (w, output_dir)).2.1
          = EvGet (normalize_url url) r :: rest)
  /\ (forall urls s,
        get_favicons_loop E png resize get urls s
        = (inr tt,
           fold_left (fun s url => (get_favicons_item E png resize get url s).2)
                     urls s)).
Proof.
  split; [unfold normalize_url; now destruct (Py.startswith "http" url)|].
  split; [|intros; apply get_favicons_loop_fold].
  destruct (get_favicon_url_shape (normalize_url url) w)
    as [[e He] | (r & more & Htr & _ & _)].
  - left.
    unfold get_favicons_item, try_except, get_favicons_try, bind, on_world.
    simpl. rewrite He. simpl.
    destruct (handle_url_error_returns (normalize_url url) e w) as (m & a & ->).
    simpl. unfold after. rewrite events_since_mk. reflexivity.
  - right.
    destruct (get_favicons_item_extends png resize get url output_dir w)
      as [_ (new & Hnew)].
    exists r, (more ++ new). apply events_since_app.
    rewrite Hnew, Htr, <- app_assoc. reflexivity.
Qed.




End Batch.

(** A URL with a scheme other than [http] or [https] is still prefixed, and
    a URL without a scheme that happens to start with [http] is not. *)
Lemma normalize_url_ignores_scheme :
  (exists p, UrlParse.urlparse Sample.checks "ftp://example.com" = inr p
             /\ UrlParse.scheme p = "ftp")
  /\ normalize_url "ftp://example.com" = "https://ftp://example.com"
  /\ (exists p, UrlParse.urlparse Sample.checks "httpbin.org" = inr p
                /\ UrlParse.scheme p = "")
  /\ normalize_url "httpbin.org" = "httpbin.org".
Proof.
  repeat split.
  - eexists. split; reflexivity.
  - eexists. split; reflexivity.
Qed.


(** ** Parsing a URL the script has put together *)

Module UrlFacts.

Import PyFacts.

Lemma length_append (a b : string) :
  String.length (a +:+ b) = (String.length a + String.length b)%nat.
Proof.
  induction a as [|x a IH]; [reflexivity|].
  rewrite append_cons. simpl. now rewrite IH.
Qed.

Lemma take_app_length (a b : string) : Py.take (String.length a) (a +:+ b) = a.
Proof.
  induction a as [|x a IH]; [now destruct b|].
  rewrite append_cons. simpl. now rewrite IH.
Qed.

Lemma drop_app_length (a b : string) : Py.drop (String.length a) (a +:+ b) = b.
Proof.
  induction a as [|x a IH]; [reflexivity|].
  rewrite append_cons. simpl. exact IH.
Qed.

Lemma bound_in_range (i : Z) (s : string) :
  0 <= i <= Py.len s -> Py.bound i s = Z.to_nat i.
Proof.
  intros H. unfold Py.bound.
  destruct (i <? 0) eqn:Hi; [apply Z.ltb_lt in Hi; lia|].
  f_equal. lia.
Qed.

Lemma all_append (p : ascii -> bool) (a b : string) :
  Py.all p (a +:+ b) = Py.all p a && Py.all p b.
Proof.
  induction a as [|x a IH]; [reflexivity|].
  rewrite append_cons. simpl. rewrite IH. now rewrite andb_assoc.
Qed.

Lemma all_take (p : ascii -> bool) (n : nat) (s : string) :
  Py.all p s = true -> Py.all p (Py.take n s) = true.
Proof.
  revert s; induction n as [|n IH]; intros [|c s]; simpl; auto.
  intros H. apply andb_true_iff in H as [-> H]. simpl. now apply IH.
Qed.

Lemma all_drop (p : ascii -> bool) (n : nat) (s : string) :
  Py.all p s = true -> Py.all p (Py.drop n s) = true.
Proof.
  revert s; induction n as [|n IH]; intros [|c s]; simpl; auto.
  intros H. apply andb_true_iff in H as [_ H]. now apply IH.
Qed.

Lemma all_rstrip (p q : ascii -> bool) (s : string) :
  Py.all p s = true -> Py.all p (Py.rstrip q s) = true.
Proof.
  induction s as [|c s IH]; simpl; [reflexivity|].
  intros H. apply andb_true_iff in H as [Hc H]. specialize (IH H).
  destruct (Py.rstrip q s) as [|d r].
  - destruct (q c); simpl; [reflexivity | now rewrite Hc].
  - simpl in *. now rewrite Hc, IH.
Qed.

Lemma all_impl (p q : ascii -> bool) (s : string) :
  (forall c, p c = true -> q c = true) ->
  Py.all p s = true -> Py.all q s = true.
Proof.
  intros Hpq. induction s as [|c s IH]; simpl; [reflexivity|].
  intros H. apply andb_true_iff in H as [Hc H].
  now rewrite (Hpq c Hc), IH.
Qed.

(** [c not in s], as a property of every character. *)
Lemma contains_all (c : ascii) (s : string) :
  Py.contains c s = false <-> Py.all (fun a => negb (Ascii.eqb a c)) s = true.
Proof.
  induction s as [|a s IH]; simpl; [tauto|].
  rewrite orb_false_iff, andb_true_iff, negb_true_iff. tauto.
Qed.

Lemma remove_append (c : ascii) (a b : string) :
  Py.remove c (a +:+ b) = Py.remove c a +:+ Py.remove c b.
Proof.
  induction a as [|x a IH]; [reflexivity|].
  rewrite append_cons. simpl. rewrite IH.
  destruct (Ascii.eqb x c); [reflexivity | now rewrite append_cons].
Qed.

Lemma remove_absent (c : ascii) (s : string) :
  Py.contains c s = false -> Py.remove c s = s.
Proof.
  induction s as [|a s IH]; simpl; [reflexivity|].
  intros H. apply orb_false_iff in H as [-> H]. now rewrite IH.
Qed.

Lemma contains_remove (c : ascii) (s : string) :
  Py.contains c (Py.remove c s) = false.
Proof.
  induction s as [|a s IH]; simpl; [reflexivity|].
  destruct (Ascii.eqb a c) eqn:Ha; [exact IH|]. simpl. now rewrite Ha.
Qed.

Lemma contains_remove_other (c d : ascii) (s : string) :
  Py.contains c s = false -> Py.contains c (Py.remove d s) = false.
Proof.
  induction s as [|a s IH]; simpl; [reflexivity|].
  intros H. apply orb_false_iff in H as [Ha H].
  destruct (Ascii.eqb a d); [now apply IH|]. simpl. now rewrite Ha, IH.
Qed.

Lemma find_aux_bounds (c : ascii) (s : string) (i : Z) :
  Py.find_aux c s i = -1 \/ i <= Py.find_aux c s i < i + Py.len s.
Proof.
  revert i; induction s as [|a s IH]; intros i; simpl; [now left|].
  unfold Py.len in *. simpl String.length.
  destruct (Ascii.eqb a c); [right; lia|].
  destruct (IH (i + 1)) as [->|H]; [now left | right; lia].
Qed.


(** The first occurrence of [c] after a prefix that does not hold it. *)
Lemma find_aux_append (c : ascii) (a b : string) (i : Z) :
  Py.contains c a = false ->
  Py.find_aux c (a +:+ String c b) i = i + Py.len a.
Proof.
  revert i; induction a as [|x a IH]; intros i H.
  - rewrite append_nil_l. simpl. rewrite Ascii.eqb_refl. unfold Py.len. simpl. lia.
  - rewrite append_cons. simpl in *. apply orb_false_iff in H as [-> H].
    rewrite IH by assumption. unfold Py.len. simpl String.length. lia.
Qed.

Lemma upto_append (a b : string) : Py.upto (Py.len a) (a +:+ b) = a.
Proof.
  unfold Py.upto. rewrite bound_in_range.
  - unfold Py.len. rewrite Nat2Z.id. apply take_app_length.
  - unfold Py.len. rewrite length_append. lia.
Qed.

Lemma from_append (a b : string) : Py.from (Py.len a) (a +:+ b) = b.
Proof.
  unfold Py.from. rewrite bound_in_range.
  - unfold Py.len. rewrite Nat2Z.id. apply drop_app_length.
  - unfold Py.len. rewrite length_append. lia.
Qed.

Lemma take_take_while (f : ascii -> bool) (s : string) :
  Py.take (String.length (take_while f s)) s = take_while f s.
Proof.
  induction s as [|c s IH]; simpl; [reflexivity|].
  destruct (f c); simpl; [now rewrite IH | reflexivity].
Qed.

Lemma drop_take_while (f : ascii -> bool) (s : string) :
  Py.drop (String.length (take_while f s)) s = Py.lstrip f s.
Proof.
  induction s as [|c s IH]; simpl; [reflexivity|].
  destruct (f c); simpl; [exact IH | reflexivity].
Qed.

Lemma length_take_while (f : ascii -> bool) (s : string) :
  (String.length (take_while f s) <= String.length s)%nat.
Proof.
  induction s as [|c s IH]; simpl; [lia|].
  destruct (f c); simpl; lia.
Qed.

Lemma drop_add (a b : string) (n : nat) :
  Py.drop (String.length a + n) (a +:+ b) = Py.drop n b.
Proof.
  induction a as [|x a IH]; [reflexivity|].
  rewrite append_cons. simpl. exact IH.
Qed.

Lemma not_delim_spec (c : ascii) :
  not_delim c
  = negb (Ascii.eqb c "/" || Ascii.eqb c "?" || Ascii.eqb c "#").
Proof.
  unfold not_delim, is_delim. cbn [Py.contains].
  rewrite (Ascii.eqb_sym "/" c), (Ascii.eqb_sym "?" c), (Ascii.eqb_sym "#" c).
  now rewrite orb_false_r, orb_assoc.
Qed.

(** The loop of [_splitnetloc] finds the first delimiter. *)
Lemma delim_index (body : string) (o : Z) :
  0 <= o ->
  fold_left (fun delim c =>
               let wdelim := Py.find_aux c body o in
               if 0 <=? wdelim then Z.min delim wdelim else delim)
            ["/"; "?"; "#"]%char (o + Py.len body)
  = o + Z.of_nat (String.length (take_while not_delim body)).
Proof.
  revert o; induction body as [|c body IH]; intros o Ho.
  - simpl. unfold Py.len. simpl. lia.
  - specialize (IH (o + 1) ltac:(lia)).
    cbn [fold_left Py.find_aux take_while] in IH |- *.
    rewrite not_delim_spec.
    pose proof (find_aux_bounds "/" body (o + 1)) as H1.
    pose proof (find_aux_bounds "?" body (o + 1)) as H2.
    pose proof (find_aux_bounds "#" body (o + 1)) as H3.
    replace (o + Py.len (String c body)) with (o + 1 + Py.len body)
      by (unfold Py.len; simpl String.length; lia).
    destruct (Ascii.eqb c "/") eqn:E1, (Ascii.eqb c "?") eqn:E2,
             (Ascii.eqb c "#") eqn:E3;
      cbn [orb negb String.length].
    8: { rewrite Nat2Z.inj_succ, IH. lia. }
    all: unfold Py.len in *.
    all: repeat match goal with
                | |- context [0 <=? ?x] => destruct (Z.leb_spec 0 x)
                end; lia.
Qed.

Lemma splitnetloc_after (pre body : string) :
  UrlParse._splitnetloc (pre +:+ body) (Py.len pre)
  = (take_while not_delim body, Py.lstrip not_delim body).
Proof.
  unfold UrlParse._splitnetloc.
  assert (Hb : Py.bound (Py.len pre) (pre +:+ body) = String.length pre).
  { rewrite bound_in_range; unfold Py.len; [apply Nat2Z.id|].
    rewrite length_append. lia. }
  assert (Hfind : forall c, Py.find_from c (Py.len pre) (pre +:+ body)
                            = Py.find_aux c body (Py.len pre)).
  { intros c. unfold Py.find_from. rewrite from_append, Hb. reflexivity. }
  simpl fold_left. rewrite !Hfind.
  replace (Py.len (pre +:+ body)) with (Py.len pre + Py.len body)
    by (unfold Py.len; rewrite length_append; lia).
  pose proof (delim_index body (Py.len pre) ltac:(unfold Py.len; lia)) as Hd.
  simpl fold_left in Hd. rewrite Hd. clear Hd.
  pose proof (length_take_while not_delim body) as Hle.
  assert (Hb2 : Py.bound (Py.len pre + Z.of_nat (String.length (take_while not_delim body)))
                         (pre +:+ body)
                = (String.length pre + String.length (take_while not_delim body))%nat).
  { rewrite bound_in_range; unfold Py.len; [lia|].
    rewrite length_append. lia. }
  unfold Py.slice, Py.from. rewrite Hb, Hb2.
  replace (String.length pre + String.length (take_while not_delim body)
           - String.length pre)%nat
    with (String.length (take_while not_delim body)) by lia.
  rewrite drop_app_length, take_take_while, drop_add, drop_take_while.
  reflexivity.
Qed.

(** *** Characters *)

Lemma scheme_char_lower (c : ascii) :
  UrlParse.scheme_char c = true -> UrlParse.scheme_char (Py.lower_char c) = true.
Proof. destruct c as [[] [] [] [] [] [] [] []]; vm_compute; congruence. Qed.

Lemma lower_char_idem (c : ascii) :
  Py.lower_char (Py.lower_char c) = Py.lower_char c.
Proof. destruct c as [[] [] [] [] [] [] [] []]; reflexivity. Qed.

Lemma alpha_lower (c : ascii) :
  Py.isascii c && Py.is_ascii_alpha c = true ->
  Py.isascii (Py.lower_char c) && Py.is_ascii_alpha (Py.lower_char c) = true.
Proof. destruct c as [[] [] [] [] [] [] [] []]; vm_compute; congruence. Qed.

Lemma alpha_not_c0 (c : ascii) :
  Py.isascii c && Py.is_ascii_alpha c = true ->
  UrlParse.c0_control_or_space c = false.
Proof. destruct c as [[] [] [] [] [] [] [] []]; vm_compute; congruence. Qed.

Lemma scheme_char_safe (c : ascii) :
  UrlParse.scheme_char c = true -> negb (unsafe_char c) = true.
Proof. destruct c as [[] [] [] [] [] [] [] []]; vm_compute; congruence. Qed.

Lemma scheme_char_not_colon (c : ascii) :
  UrlParse.scheme_char c = true -> negb (Ascii.eqb c ":") = true.
Proof. destruct c as [[] [] [] [] [] [] [] []]; vm_compute; congruence. Qed.

Lemma delim_safe (c : ascii) : not_delim c = false -> unsafe_char c = false.
Proof. destruct c as [[] [] [] [] [] [] [] []]; vm_compute; congruence. Qed.

(** *** Unsafe characters *)

Lemma remove_unsafe_cons (c : ascii) (s : string) :
  UrlParse.remove_unsafe (String c s)
  = if unsafe_char c then UrlParse.remove_unsafe s
    else String c (UrlParse.remove_unsafe s).
Proof.
  unfold UrlParse.remove_unsafe, unsafe_char. cbn [fold_left Py.remove].
  destruct (Ascii.eqb c UrlParse.TAB) eqn:Et; [reflexivity|].
  cbn [orb Py.remove].
  destruct (Ascii.eqb c UrlParse.CR) eqn:Ec; [reflexivity|].
  cbn [orb Py.remove].
  destruct (Ascii.eqb c UrlParse.LF) eqn:El; reflexivity.
Qed.

Lemma remove_unsafe_append (a b : string) :
  UrlParse.remove_unsafe (a +:+ b)
  = UrlParse.remove_unsafe a +:+ UrlParse.remove_unsafe b.
Proof.
  induction a as [|c a IH]; [reflexivity|].
  rewrite append_cons, !remove_unsafe_cons, IH.
  destruct (unsafe_char c); [reflexivity | now rewrite append_cons].
Qed.

Lemma remove_unsafe_id (s : string) :
  no_unsafe s -> UrlParse.remove_unsafe s = s.
Proof.
  unfold no_unsafe. induction s as [|c s IH]; [reflexivity|].
  cbn [Py.all]. intros H. apply andb_true_iff in H as [Hc H].
  rewrite remove_unsafe_cons. apply negb_true_iff in Hc. rewrite Hc.
  now rewrite IH.
Qed.

Lemma no_unsafe_remove (s : string) : no_unsafe (UrlParse.remove_unsafe s).
Proof.
  unfold no_unsafe. induction s as [|c s IH]; [reflexivity|].
  rewrite remove_unsafe_cons.
  destruct (unsafe_char c) eqn:Hc; [exact IH|].
  cbn [Py.all]. now rewrite Hc, IH.
Qed.

(** *** The scheme *)

Lemma valid_scheme_chars (sc : string) :
  valid_scheme sc -> Py.all UrlParse.scheme_char sc = true.
Proof. destruct sc; [contradiction | now intros (_ & H & _)]. Qed.

Lemma valid_scheme_safe (sc : string) : valid_scheme sc -> no_unsafe sc.
Proof.
  intros H. apply valid_scheme_chars in H.
  eapply all_impl; [|exact H]. apply scheme_char_safe.
Qed.

Lemma all_lower (s : string) :
  Py.all UrlParse.scheme_char s = true ->
  Py.all UrlParse.scheme_char (Py.lower s) = true.
Proof.
  induction s as [|c s IH]; [reflexivity|]. cbn [Py.all Py.lower].
  intros H. apply andb_true_iff in H as [Hc H].
  now rewrite (scheme_char_lower c Hc), IH.
Qed.

Lemma lower_idem (s : string) : Py.lower (Py.lower s) = Py.lower s.
Proof.
  induction s as [|c s IH]; [reflexivity|]. cbn [Py.lower].
  now rewrite lower_char_idem, IH.
Qed.

(** The scheme [split_scheme] finds, when it finds one, is valid. *)
Lemma split_scheme_valid (url sc rest : string) :
  UrlParse.split_scheme url = (sc, rest) ->
  (sc = "" /\ rest = url) \/ valid_scheme sc.
Proof.
  unfold UrlParse.split_scheme.
  destruct url as [|c0 t]; [intros H; inversion H; now left|].
  rewrite <- andb_assoc.
  destruct (0 <? Py.find ":" (String c0 t)) eqn:Hi;
    [|intros H; inversion H; now left].
  destruct (Py.isascii c0 && Py.is_ascii_alpha c0) eqn:Ha;
    [|intros H; inversion H; now left].
  cbn [andb].
  destruct (Py.all UrlParse.scheme_char (Py.upto (Py.find ":" (String c0 t))
                                                 (String c0 t))) eqn:Hall;
    [|intros H; inversion H; now left].
  intros H; inversion H; subst; clear H. right.
  apply Z.ltb_lt in Hi.
  unfold Py.upto in *.
  assert (Hb : exists n, Py.bound (Py.find ":" (String c0 t)) (String c0 t) = S n).
  { unfold Py.bound.
    destruct (Py.find ":" (String c0 t) <? 0) eqn:Hn;
      [apply Z.ltb_lt in Hn; lia|].
    unfold Py.len. simpl String.length.
    exists (Z.to_nat (Py.find ":" (String c0 t) `min`
                      Z.of_nat (S (String.length t))) - 1)%nat. lia. }
  destruct Hb as [n Hn]. rewrite Hn in *. cbn [Py.take Py.lower] in *.
  unfold valid_scheme. split; [now apply alpha_lower|].
  split.
  - apply (all_lower (String c0 (Py.take n t))). exact Hall.
  - apply (lower_idem (String c0 (Py.take n t))).
Qed.

Lemma split_scheme_append (sc rest : string) :
  valid_scheme sc ->
  UrlParse.split_scheme (sc +:+ String ":" rest) = (sc, rest).
Proof.
  intros Hv. pose proof (valid_scheme_chars sc Hv) as Hall.
  assert (Hcolon : Py.contains ":" sc = false).
  { apply contains_all. eapply all_impl; [|exact Hall].
    apply scheme_char_not_colon. }
  destruct sc as [|c0 t]; [contradiction|].
  destruct Hv as (Ha & _ & Hl).
  unfold UrlParse.split_scheme. rewrite append_cons.
  rewrite <- (append_cons c0 t (String ":" rest)).
  unfold Py.find. rewrite (find_aux_append ":" (String c0 t) rest 0 Hcolon).
  replace (0 <? 0 + Py.len (String c0 t)) with true
    by (symmetry; apply Z.ltb_lt; unfold Py.len; simpl String.length; lia).
  rewrite <- andb_assoc, Ha. cbn [andb].
  rewrite Z.add_0_l, upto_append, Hall, Hl.
  f_equal.
  replace (String c0 t +:+ String ":" rest)
    with ((String c0 t +:+ ":") +:+ rest)
    by (now rewrite append_assoc).
  replace (Py.len (String c0 t) + 1) with (Py.len (String c0 t +:+ ":"))
    by (unfold Py.len; rewrite length_append; simpl String.length; lia).
  apply from_append.
Qed.

(** *** The netloc *)

Lemma upto_2 (a b : ascii) (x : string) :
  Py.upto 2 (String a (String b x)) = String a (String b "").
Proof.
  unfold Py.upto. rewrite bound_in_range.
  - reflexivity.
  - unfold Py.len. simpl String.length. lia.
Qed.

Lemma upto_2_slashes (url : string) :
  String.eqb (Py.upto 2 url) "//" = true -> exists body, url = "//" +:+ body.
Proof.
  intros H. apply String.eqb_eq in H.
  exists (Py.from 2 url). rewrite <- H. symmetry. apply upto_from.
Qed.

Lemma all_take_while_sub (P f : ascii -> bool) (s : string) :
  Py.all P s = true -> Py.all P (take_while f s) = true.
Proof.
  induction s as [|c s IH]; [reflexivity|]. cbn [Py.all take_while].
  intros H. apply andb_true_iff in H as [Hc H].
  destruct (f c); [|reflexivity]. cbn [Py.all]. now rewrite Hc, IH.
Qed.

Lemma all_lstrip_sub (P f : ascii -> bool) (s : string) :
  Py.all P s = true -> Py.all P (Py.lstrip f s) = true.
Proof.
  induction s as [|c s IH]; [reflexivity|]. cbn [Py.all Py.lstrip].
  intros H. destruct (f c); [|exact H].
  apply andb_true_iff in H as [_ H]. now apply IH.
Qed.

Lemma all_split1 (P : ascii -> bool) (c : ascii) (s : string) :
  Py.all P s = true -> Py.all P (Py.split1 c s).1 = true.
Proof.
  intros H. unfold Py.split1.
  destruct (Py.find c s <? 0); [exact H|]. now apply all_take.
Qed.

(** The scheme plays no part in the rest of [urlsplit]. *)
Lemma split_after_scheme_scheme (chk : UrlParse.Checks) (sc sc' url : string) :
  UrlParse.split_after_scheme chk sc url
  = match UrlParse.split_after_scheme chk sc' url with
    | inl e => inl e
    | inr r =>
        inr {| UrlParse.s_scheme := sc;
               UrlParse.s_netloc := UrlParse.s_netloc r;
               UrlParse.s_path := UrlParse.s_path r;
               UrlParse.s_query := UrlParse.s_query r;
               UrlParse.s_fragment := UrlParse.s_fragment r |}
    end.
Proof.
  unfold UrlParse.split_after_scheme, rbind, ok.
  destruct (String.eqb (Py.upto 2 url) "//").
  - destruct (UrlParse._splitnetloc url 2) as [netloc rest].
    destruct (UrlParse.check_brackets chk netloc) as [e|[]]; [reflexivity|].
    destruct (if Py.contains "#" rest then Py.split1 "#" rest else (rest, ""))
      as [u1 fragment].
    destruct (if Py.contains "?" u1 then Py.split1 "?" u1 else (u1, ""))
      as [u2 query].
    destruct (UrlParse._checknetloc chk netloc) as [e|[]]; reflexivity.
  - destruct (if Py.contains "#" url then Py.split1 "#" url else (url, ""))
      as [u1 fragment].
    destruct (if Py.contains "?" u1 then Py.split1 "?" u1 else (u1, ""))
      as [u2 query].
    destruct (UrlParse._checknetloc chk "") as [e|[]]; reflexivity.
Qed.

(** What [urlsplit] returns after the scheme. *)
Lemma split_after_scheme_out (chk : UrlParse.Checks) (sc url : string)
    (r : UrlParse.SplitResult) :
  UrlParse.split_after_scheme chk sc url = inr r ->
  UrlParse.s_scheme r = sc
  /\ Py.all not_delim (UrlParse.s_netloc r) = true
  /\ UrlParse.check_brackets chk (UrlParse.s_netloc r) = inr tt
  /\ UrlParse._checknetloc chk (UrlParse.s_netloc r) = inr tt
  /\ (forall P, Py.all P url = true ->
                Py.all P (UrlParse.s_netloc r) = true
                /\ Py.all P (UrlParse.s_path r) = true).
Proof.
  unfold UrlParse.split_after_scheme, rbind, ok.
  destruct (String.eqb (Py.upto 2 url) "//") eqn:Hs.
  - destruct (upto_2_slashes url Hs) as [body ->].
    change 2 with (Py.len "//"). rewrite splitnetloc_after.
    destruct (UrlParse.check_brackets chk (take_while not_delim body))
      as [e|[]] eqn:Hb; [discriminate|].
    destruct (if Py.contains "#" (Py.lstrip not_delim body)
              then Py.split1 "#" (Py.lstrip not_delim body)
              else (Py.lstrip not_delim body, "")) as [u1 fragment] eqn:H1.
    destruct (if Py.contains "?" u1 then Py.split1 "?" u1 else (u1, ""))
      as [u2 query] eqn:H2.
    destruct (UrlParse._checknetloc chk (take_while not_delim body))
      as [e|[]] eqn:Hc; [discriminate|].
    intros H; inversion H; subst; clear H. cbn.
    split; [reflexivity|]. split; [apply all_take_while|].
    split; [exact Hb|]. split; [exact Hc|].
    intros P HP. rewrite all_append in HP. apply andb_true_iff in HP as [_ HP].
    split; [now apply all_take_while_sub|].
    assert (Hu1 : Py.all P u1 = true).
    { destruct (Py.contains "#" (Py.lstrip not_delim body)).
      - replace u1 with (Py.split1 "#" (Py.lstrip not_delim body)).1
          by (now rewrite H1).
        apply all_split1. now apply all_lstrip_sub.
      - inversion H1; subst. now apply all_lstrip_sub. }
    destruct (Py.contains "?" u1).
    + replace u2 with (Py.split1 "?" u1).1 by (now rewrite H2).
      now apply all_split1.
    + inversion H2; subst. exact Hu1.
  - destruct (if Py.contains "#" url then Py.split1 "#" url else (url, ""))
      as [u1 fragment] eqn:H1.
    destruct (if Py.contains "?" u1 then Py.split1 "?" u1 else (u1, ""))
      as [u2 query] eqn:H2.
    destruct (UrlParse._checknetloc chk "") as [e|[]] eqn:Hc; [discriminate|].
    intros H; inversion H; subst; clear H. cbn.
    split; [reflexivity|]. split; [reflexivity|].
    split; [reflexivity|]. split; [exact Hc|].
    intros P HP. split; [reflexivity|].
    assert (Hu1 : Py.all P u1 = true).
    { destruct (Py.contains "#" url).
      - replace u1 with (Py.split1 "#" url).1 by (now rewrite H1).
        now apply all_split1.
      - inversion H1; subst. exact HP. }
    destruct (Py.contains "?" u1).
    + replace u2 with (Py.split1 "?" u1).1 by (now rewrite H2).
      now apply all_split1.
    + inversion H2; subst. exact Hu1.
Qed.

(** A netloc put between [//] and a delimiter is found again. *)
Lemma split_after_scheme_authority (chk : UrlParse.Checks)
    (sc nl tail : string) :
  Py.all not_delim nl = true ->
  match tail with String c _ => not_delim c = false | EmptyString => True end ->
  UrlParse.check_brackets chk nl = inr tt ->
  UrlParse._checknetloc chk nl = inr tt ->
  exists r,
    UrlParse.split_after_scheme chk sc ("//" +:+ nl +:+ tail) = inr r
    /\ UrlParse.s_scheme r = sc /\ UrlParse.s_netloc r = nl.
Proof.
  intros Hnl Htail Hb Hc.
  unfold UrlParse.split_after_scheme, rbind, ok.
  replace (Py.upto 2 ("//" +:+ nl +:+ tail)) with "//"
    by (symmetry; apply (upto_2 "/" "/")).
  cbn [String.eqb Ascii.eqb Bool.eqb].
  change 2 with (Py.len "//"). rewrite splitnetloc_after.
  destruct (take_while_app not_delim nl tail Hnl) as [-> ->].
  { destruct tail; [exact I | exact Htail]. }
  rewrite Hb.
  destruct (if Py.contains "#" tail then Py.split1 "#" tail else (tail, ""))
    as [u1 fragment].
  destruct (if Py.contains "?" u1 then Py.split1 "?" u1 else (u1, ""))
    as [u2 query].
  rewrite Hc. eexists. split; [reflexivity|]. split; reflexivity.
Qed.

(** *** [urlsplit] and [urlparse] *)

Lemma split_scheme_sub (P : ascii -> bool) (url sc rest : string) :
  UrlParse.split_scheme url = (sc, rest) ->
  Py.all P url = true -> Py.all P rest = true.
Proof.
  unfold UrlParse.split_scheme. destruct url as [|c0 t].
  - intros H; inversion H; auto.
  - destruct (_ && _); [|intros H; inversion H; auto].
    destruct (Py.all _ _); [|intros H; inversion H; auto].
    intros H; inversion H; subst. apply all_drop.
Qed.

(** What [urlsplit] returns. *)
Lemma urlsplit_out (chk : UrlParse.Checks) (url : string)
    (r : UrlParse.SplitResult) :
  UrlParse.urlsplit chk url = inr r ->
  (UrlParse.s_scheme r = "" \/ valid_scheme (UrlParse.s_scheme r))
  /\ Py.all not_delim (UrlParse.s_netloc r) = true
  /\ UrlParse.check_brackets chk (UrlParse.s_netloc r) = inr tt
  /\ UrlParse._checknetloc chk (UrlParse.s_netloc r) = inr tt
  /\ no_unsafe (UrlParse.s_netloc r)
  /\ no_unsafe (UrlParse.s_path r).
Proof.
  unfold UrlParse.urlsplit.
  pose proof (no_unsafe_remove (Py.lstrip UrlParse.c0_control_or_space url))
    as Hclean.
  destruct (UrlParse.split_scheme
              (UrlParse.remove_unsafe (Py.lstrip UrlParse.c0_control_or_space url)))
    as [sc rest] eqn:Hs.
  intros H. apply split_after_scheme_out in H as (Hsc & Hnd & Hb & Hc & Hsub).
  pose proof (split_scheme_sub _ _ _ _ Hs Hclean) as Hrest.
  destruct (Hsub _ Hrest) as [Hn Hp].
  rewrite Hsc. repeat split; try assumption.
  destruct (split_scheme_valid _ _ _ Hs) as [[-> _]|Hv]; auto.
Qed.

(** A URL put together from a scheme, a netloc and a tail that starts with
    a delimiter splits into that scheme and that netloc. *)
Lemma urlsplit_composed (chk : UrlParse.Checks) (sc nl tail : string) :
  valid_scheme sc ->
  Py.all not_delim nl = true ->
  no_unsafe nl ->
  UrlParse.check_brackets chk nl = inr tt ->
  UrlParse._checknetloc chk nl = inr tt ->
  match tail with String c _ => not_delim c = false | EmptyString => True end ->
  exists r,
    UrlParse.urlsplit chk (sc +:+ "://" +:+ nl +:+ tail) = inr r
    /\ UrlParse.s_scheme r = sc /\ UrlParse.s_netloc r = nl.
Proof.
  intros Hv Hnd Hsafe Hb Hc Htail.
  pose proof (valid_scheme_safe sc Hv) as Hscsafe.
  unfold UrlParse.urlsplit.
  assert (Hstrip : Py.lstrip UrlParse.c0_control_or_space
                     (sc +:+ "://" +:+ nl +:+ tail)
                   = sc +:+ "://" +:+ nl +:+ tail).
  { destruct sc as [|c0 t]; [contradiction|]. destruct Hv as (Ha & _).
    rewrite append_cons. cbn [Py.lstrip]. now rewrite (alpha_not_c0 c0 Ha). }
  rewrite Hstrip.
  assert (Hclean : UrlParse.remove_unsafe (sc +:+ "://" +:+ nl +:+ tail)
                   = sc +:+ String ":" ("//" +:+ nl +:+ UrlParse.remove_unsafe tail)).
  { rewrite !remove_unsafe_append.
    rewrite (remove_unsafe_id sc Hscsafe), (remove_unsafe_id nl Hsafe).
    reflexivity. }
  rewrite Hclean, (split_scheme_append sc _ Hv).
  apply split_after_scheme_authority; try assumption.
  destruct tail as [|d t]; [exact I|].
  rewrite remove_unsafe_cons, (delim_safe d Htail). exact Htail.
Qed.

Lemma all_splitparams (P : ascii -> bool) (s : string) :
  Py.all P s = true -> Py.all P (UrlParse._splitparams s).1 = true.
Proof.
  intros H. unfold UrlParse._splitparams.
  destruct (Py.contains "/" s).
  - destruct (_ <? 0); [exact H | now apply all_take].
  - now apply all_take.
Qed.

(** [urlparse] keeps the scheme and the netloc of [urlsplit], and takes its
    path from the path of [urlsplit]. *)
Lemma urlparse_urlsplit (chk : UrlParse.Checks) (url : string) :
  match UrlParse.urlsplit chk url with
  | inl e => UrlParse.urlparse chk url = inl e
  | inr r =>
      exists p,
        UrlParse.urlparse chk url = inr p
        /\ UrlParse.scheme p = UrlParse.s_scheme r
        /\ UrlParse.netloc p = UrlParse.s_netloc r
        /\ (forall P, Py.all P (UrlParse.s_path r) = true ->
                      Py.all P (UrlParse.path p) = true)
  end.
Proof.
  unfold UrlParse.urlparse, rbind.
  destruct (UrlParse.urlsplit chk url) as [e|r]; [reflexivity|].
  destruct (existsb _ _ && _) eqn:Hp.
  - pose proof (fun P => all_splitparams P (UrlParse.s_path r)) as Hsub.
    destruct (UrlParse._splitparams (UrlParse.s_path r)) as [u params].
    eexists. split; [reflexivity|]. cbn. auto.
  - eexists. split; [reflexivity|]. cbn. auto.
Qed.

Lemma all_posix_split (P : ascii -> bool) (p : string) :
  Py.all P p = true -> Py.all P (PosixPath.split p).1 = true.
Proof.
  intros H. unfold PosixPath.split. cbn [fst].
  destruct (_ && _); [apply all_rstrip|]; now apply all_take.
Qed.

Lemma startswith_slashes (ref : string) :
  Py.startswith "//" ref = true -> exists x, ref = "//" +:+ x.
Proof.
  destruct ref as [|a [|b x]]; cbn [Py.startswith]; try discriminate.
  - rewrite andb_false_r. discriminate.
  - intros H. apply andb_true_iff in H as [Ha H].
    apply andb_true_iff in H as [Hb _].
    apply Ascii.eqb_eq in Ha, Hb. subst. now exists x.
Qed.

Lemma split_scheme_not_alpha (c0 : ascii) (t : string) :
  Py.is_ascii_alpha c0 = false ->
  UrlParse.split_scheme (String c0 t) = ("", String c0 t).
Proof.
  intros H. unfold UrlParse.split_scheme. now rewrite H, andb_false_r.
Qed.

(** A protocol-relative reference behind a scheme keeps its netloc. *)
Lemma urlsplit_protocol_relative (chk : UrlParse.Checks) (sc ref : string)
    (r0 : UrlParse.SplitResult) :
  valid_scheme sc ->
  Py.startswith "//" ref = true ->
  UrlParse.urlsplit chk ref = inr r0 ->
  exists r,
    UrlParse.urlsplit chk (sc +:+ ":" +:+ ref) = inr r
    /\ UrlParse.s_scheme r = sc
    /\ UrlParse.s_netloc r = UrlParse.s_netloc r0.
Proof.
  intros Hv Hs. destruct (startswith_slashes ref Hs) as [x ->].
  pose proof (valid_scheme_safe sc Hv) as Hscsafe.
  unfold UrlParse.urlsplit.
  assert (Hstrip : Py.lstrip UrlParse.c0_control_or_space
                     (sc +:+ ":" +:+ "//" +:+ x)
                   = sc +:+ ":" +:+ "//" +:+ x).
  { destruct sc as [|c0 t]; [contradiction|]. destruct Hv as (Ha & _).
    rewrite append_cons. cbn [Py.lstrip]. now rewrite (alpha_not_c0 c0 Ha). }
  rewrite Hstrip.
  assert (Hclean : UrlParse.remove_unsafe (sc +:+ ":" +:+ "//" +:+ x)
                   = sc +:+ String ":" ("//" +:+ UrlParse.remove_unsafe x)).
  { rewrite !remove_unsafe_append. rewrite (remove_unsafe_id sc Hscsafe).
    reflexivity. }
  rewrite Hclean, (split_scheme_append sc _ Hv).
  replace (Py.lstrip UrlParse.c0_control_or_space ("//" +:+ x))
    with ("//" +:+ x) by reflexivity.
  replace (UrlParse.remove_unsafe ("//" +:+ x))
    with ("//" +:+ UrlParse.remove_unsafe x)
    by (now rewrite remove_unsafe_append).
  replace (UrlParse.split_scheme ("//" +:+ UrlParse.remove_unsafe x))
    with ("", "//" +:+ UrlParse.remove_unsafe x)
    by (symmetry; now apply (split_scheme_not_alpha "/")).
  rewrite (split_after_scheme_scheme chk sc "").
  intros ->. eexists. split; [reflexivity|]. split; reflexivity.
Qed.

(** *** The directory of a path *)

Lemma rfind_aux_spec (c : ascii) (s : string) (i acc : Z) :
  (Py.contains c s = false /\ Py.rfind_aux c s i acc = acc)
  \/ (exists a b,
         s = a +:+ String c b /\ Py.contains c b = false
         /\ Py.rfind_aux c s i acc = i + Py.len a).
Proof.
  revert i acc; induction s as [|x s IH]; intros i acc; [now left|].
  cbn [Py.rfind_aux Py.contains].
  destruct (IH (i + 1) (if Ascii.eqb x c then i else acc))
    as [[Hno Hr] | (a & b & Hs & Hb & Hr)].
  - destruct (Ascii.eqb_spec x c) as [->|Hne].
    + right. exists "", s. rewrite Hr. repeat split; [exact Hno|].
      unfold Py.len. simpl. lia.
    + left. now rewrite Hr.
  - right. exists (String x a), b. subst s. rewrite Hr.
    repeat split; [exact Hb|]. unfold Py.len. simpl String.length. lia.
Qed.

Lemma rstrip_spec (f : ascii -> bool) (s : string) :
  exists seps, s = Py.rstrip f s +:+ seps /\ Py.all f seps = true.
Proof.
  induction s as [|x s (seps & Hs & Hall)]; [now exists ""|].
  cbn [Py.rstrip]. destruct (Py.rstrip f s) as [|y r] eqn:Hr.
  - rewrite append_nil_l in Hs. subst seps.
    destruct (f x) eqn:Hx.
    + exists (String x s). split; [reflexivity|]. cbn [Py.all]. now rewrite Hx.
    + exists s. split; [reflexivity | exact Hall].
  - exists seps. split; [|exact Hall]. rewrite append_cons. now f_equal.
Qed.

(** [os.path.split] cuts the path at its last slash: the tail holds no
    slash, and head and tail are separated by slashes only. *)
Lemma posix_split_spec (p : string) :
  Py.contains "/" (PosixPath.split p).2 = false
  /\ exists seps,
      Py.all (Ascii.eqb "/") seps = true
      /\ p = (PosixPath.split p).1 +:+ seps +:+ (PosixPath.split p).2.
Proof.
  unfold PosixPath.split, Py.rfind. cbn [fst snd].
  destruct (rfind_aux_spec "/" p 0 (-1)) as [[Hno ->] | (a & b & -> & Hb & ->)].
  - replace (Py.upto (-1 + 1) p) with "" by (now destruct p).
    replace (Py.from (-1 + 1) p) with p by (now destruct p).
    cbn. split; [exact Hno|]. now exists "".
  - replace (a +:+ String "/" b) with ((a +:+ "/") +:+ b)
      by (now rewrite append_assoc).
    replace (0 + Py.len a + 1) with (Py.len (a +:+ "/"))
      by (unfold Py.len; rewrite length_append; simpl String.length; lia).
    rewrite upto_append, from_append. split; [exact Hb|].
    destruct (Py.truthy (a +:+ "/") && negb (PosixPath.all_sep (a +:+ "/"))).
    + destruct (rstrip_spec (Ascii.eqb "/") (a +:+ "/")) as (seps & Hs & Hall).
      exists seps. split; [exact Hall|].
      rewrite <- append_assoc. now rewrite <- Hs.
    + now exists "".
Qed.

End UrlFacts.

(** ** [get_filename]: the name and the host *)

Section FilenameHost.

Import UrlFacts.




End FilenameHost.



(** ** Resolution of the favicon reference *)

Section Resolve.

Import UrlFacts.

Context (chk : UrlParse.Checks).

(** What [urlparse] returns. *)
Lemma urlparse_out (url : string) (page : UrlParse.ParseResult) :
  UrlParse.urlparse chk url = inr page ->
  (UrlParse.scheme page = "" \/ valid_scheme (UrlParse.scheme page))
  /\ Py.all not_delim (UrlParse.netloc page) = true
  /\ UrlParse.check_brackets chk (UrlParse.netloc page) = inr tt
  /\ UrlParse._checknetloc chk (UrlParse.netloc page) = inr tt
  /\ no_unsafe (UrlParse.netloc page)
  /\ no_unsafe (UrlParse.path page).
Proof.
  intros Hp. pose proof (urlparse_urlsplit chk url) as H.
  destruct (UrlParse.urlsplit chk url) as [e|r] eqn:Hr; [congruence|].
  destruct H as (p & Hp' & Hs & Hn & Hpath).
  assert (p = page) by congruence. subst p.
  destruct (urlsplit_out chk url r Hr) as (H1 & H2 & H3 & H4 & H5 & H6).
  rewrite Hs, Hn. repeat split; try assumption. now apply Hpath.
Qed.

(** The scheme and the host of the page are those of any URL made of
    them and of a tail that starts with a delimiter. *)
Lemma reparse_under_page (url : string) (page : UrlParse.ParseResult)
    (tail : string) :
  UrlParse.urlparse chk url = inr page ->
  UrlParse.scheme page <> "" ->
  match tail with String c _ => not_delim c = false | EmptyString => True end ->
  exists p,
    UrlParse.urlparse chk
      (UrlParse.scheme page +:+ "://" +:+ UrlParse.netloc page +:+ tail) = inr p
    /\ UrlParse.scheme p = UrlParse.scheme page
    /\ UrlParse.netloc p = UrlParse.netloc page.
Proof.
  intros Hp Hsc Htail.
  destruct (urlparse_out url page Hp) as ([Hs|Hv] & Hnd & Hb & Hc & Hsafe & _);
    [contradiction|].
  destruct (urlsplit_composed chk _ _ tail Hv Hnd Hsafe Hb Hc Htail)
    as (r & Hr & Hrs & Hrn).
  pose proof (urlparse_urlsplit chk
                (UrlParse.scheme page +:+ "://" +:+ UrlParse.netloc page +:+ tail))
    as H.
  rewrite Hr in H. destruct H as (p & Hp' & Hps & Hpn & _).
  exists p. split; [exact Hp'|]. split; congruence.
Qed.

(** The relative branch of [resolve], and what its result parses to. *)
Lemma resolve_relative_parses (url : string) (page : UrlParse.ParseResult)
    (ref : string) :
  UrlParse.urlparse chk url = inr page ->
  UrlParse.scheme page <> "" ->
  ref <> "" ->
  Py.startswith "//" ref = false ->
  Py.startswith "/" ref = false ->
  Py.startswith "http" ref = false ->
  resolve page ref
  = UrlParse.scheme page +:+ "://" +:+ UrlParse.netloc page +:+ "/"
      +:+ (PosixPath.split (UrlParse.path page)).1 +:+ "/" +:+ ref
  /\ exists p,
      UrlParse.urlparse chk (resolve page ref) = inr p
      /\ UrlParse.scheme p = UrlParse.scheme page
      /\ UrlParse.netloc p = UrlParse.netloc page.
Proof.
  intros Hp Hsc Hne H2 H1 Hh.
  assert (Hres : resolve page ref
                 = UrlParse.scheme page +:+ "://" +:+ UrlParse.netloc page +:+ "/"
                     +:+ (PosixPath.split (UrlParse.path page)).1 +:+ "/" +:+ ref).
  { unfold resolve. destruct ref as [|c ref]; [congruence|].
    cbn [Py.truthy]. rewrite H2, H1, Hh. cbn [negb].
    now destruct (PosixPath.split (UrlParse.path page)). }
  split; [exact Hres|].
  destruct (reparse_under_page url page
              ("/" +:+ (PosixPath.split (UrlParse.path page)).1 +:+ "/" +:+ ref)
              Hp Hsc eq_refl) as (p & Hpp & Hps & Hpn).
  rewrite Hres. exists p. auto.
Qed.

End Resolve.

Section Absolute.

Import UrlFacts.

Context (E : Env).

(** What [get_favicon_url] returns is the reference it found, made
    absolute by [resolve]. *)
Lemma get_favicon_url_resolve (url : string) (w : World)
    (page : UrlParse.ParseResult) :
  UrlParse.urlparse (url_checks E) url = inr page ->
  get_favicon_url E url w
  = (match (find_reference E page url w).1 with
     | inl e => inl e
     | inr ref => inr (resolve page ref)
     end, (find_reference E page url w).2).
Proof.
  intros Hp. unfold get_favicon_url, bind, lift, ret. rewrite Hp.
  now destruct (find_reference E page url w) as [[e|ref] w1].
Qed.

Lemma startswith_http_not_slash (ref : string) :
  Py.startswith "http" ref = true ->
  Py.startswith "//" ref = false /\ Py.startswith "/" ref = false.
Proof.
  destruct ref as [|c r]; cbn [Py.startswith]; [discriminate|].
  intros H. apply andb_true_iff in H as [Hc _].
  apply Ascii.eqb_eq in Hc. subst c. split; reflexivity.
Qed.

(** C4. For a page URL with a scheme and a host and a non-empty favicon
    reference found for it, the value [get_favicon_url] returns is the
    reference made absolute: a reference that starts with [/], or with none
    of [//], [/] and [http], yields a fully qualified absolute URL under the
    scheme and host of the page; a reference that starts with [//] yields
    the scheme of the page, a colon and the reference, which is a fully
    qualified absolute URL whenever the reference names a host; a reference
    that starts with [http] is returned as it is. *)
Theorem get_favicon_url_absolute (url : string) (w : World)
    (page : UrlParse.ParseResult) (ref : string) :
  UrlParse.urlparse (url_checks E) url = inr page ->
  UrlParse.scheme page <> "" ->
  UrlParse.netloc page <> "" ->
  (find_reference E page url w).1 = inr ref ->
  ref <> "" ->
  (get_favicon_url E url w).1 = inr (resolve page ref)
  /\ (Py.startswith "//" ref = false -> Py.startswith "http" ref = false ->
      exists p,
        UrlParse.urlparse (url_checks E) (resolve page ref) = inr p
        /\ UrlParse.scheme p = UrlParse.scheme page
        /\ UrlParse.netloc p = UrlParse.netloc page
        /\ is_absolute_url (url_checks E) (resolve page ref))
  /\ (Py.startswith "//" ref = true ->
      resolve page ref = UrlParse.scheme page +:+ ":" +:+ ref
      /\ forall r,
          UrlParse.urlparse (url_checks E) ref = inr r ->
          UrlParse.netloc r <> "" ->
          exists p,
            UrlParse.urlparse (url_checks E) (resolve page ref) = inr p
            /\ UrlParse.scheme p = UrlParse.scheme page
            /\ UrlParse.netloc p = UrlParse.netloc r
            /\ is_absolute_url (url_checks E) (resolve page ref))
  /\ (Py.startswith "http" ref = true -> resolve page ref = ref).
Proof.
  intros Hp Hsc Hnl Href Hne.
  split; [rewrite (get_favicon_url_resolve url w page Hp); now rewrite Href|].
  destruct ref as [|c ref]; [congruence|].
  split; [|split].
  - intros H2 Hh.
    destruct (Py.startswith "/" (String c ref)) eqn:H1.
    + assert (Hres : resolve page (String c ref)
                     = UrlParse.scheme page +:+ "://" +:+ UrlParse.netloc page
                         +:+ String c ref).
      { unfold resolve. cbn [Py.truthy]. now rewrite H2, H1. }
      assert (Hd : not_delim c = false).
      { cbn [Py.startswith] in H1. rewrite andb_true_r in H1.
        apply Ascii.eqb_eq in H1. now subst c. }
      destruct (reparse_under_page (url_checks E) url page (String c ref)
                  Hp Hsc Hd) as (p & Hpp & Hps & Hpn).
      rewrite Hres. exists p. repeat split; try assumption.
      exists p. split; [exact Hpp|]. split; congruence.
    + destruct (resolve_relative_parses (url_checks E) url page (String c ref)
                  Hp Hsc Hne H2 H1 Hh) as (_ & p & Hpp & Hps & Hpn).
      exists p. repeat split; try assumption.
      exists p. split; [exact Hpp|]. split; congruence.
  - intros H2.
    assert (Hres : resolve page (String c ref)
                   = UrlParse.scheme page +:+ ":" +:+ String c ref).
    { unfold resolve. cbn [Py.truthy]. now rewrite H2. }
    split; [exact Hres|]. intros r Hr Hrn.
    destruct (urlparse_out (url_checks E) url page Hp) as ([Hs|Hv] & _);
      [contradiction|].
    pose proof (urlparse_urlsplit (url_checks E) (String c ref)) as H0.
    destruct (UrlParse.urlsplit (url_checks E) (String c ref)) as [e|r0] eqn:Hr0;
      [congruence|].
    destruct H0 as (p0 & Hp0 & _ & Hn0 & _).
    assert (p0 = r) by congruence. subst p0.
    destruct (urlsplit_protocol_relative (url_checks E) _ _ r0 Hv H2 Hr0)
      as (r1 & Hr1 & Hs1 & Hn1).
    pose proof (urlparse_urlsplit (url_checks E)
                  (UrlParse.scheme page +:+ ":" +:+ String c ref)) as H1.
    rewrite Hr1 in H1. destruct H1 as (p & Hpp & Hps & Hpn & _).
    rewrite Hres. exists p.
    assert (Hs' : UrlParse.scheme p = UrlParse.scheme page) by congruence.
    assert (Hn' : UrlParse.netloc p = UrlParse.netloc r) by congruence.
    repeat split; try assumption.
    exists p. split; [exact Hpp|]. split; congruence.
  - intros Hh. unfold resolve. cbn [Py.truthy].
    destruct (startswith_http_not_slash _ Hh) as [-> ->]. now rewrite Hh.
Qed.

End Absolute.

Lemma get_favicon_url_absolute_witness :
  (get_favicon_url Sample.env_relative "https://example.com/wiki/start.html"
                   Sample.world0).1
  = inr "https://example.com//wiki/img/favicon.ico"
  /\ is_absolute_url Sample.checks "https://example.com//wiki/img/favicon.ico".
Proof.
  destruct (get_favicon_url_absolute Sample.env_relative
              "https://example.com/wiki/start.html" Sample.world0
              {| UrlParse.scheme := "https"; UrlParse.netloc := "example.com";
                 UrlParse.path := "/wiki/start.html"; UrlParse.params := "";
                 UrlParse.query := ""; UrlParse.fragment := "" |}
              "img/favicon.ico")
    as (Hrun & Hrel & _); try reflexivity; try discriminate.
  split; [exact Hrun|].
  destruct Hrel as (p & _ & _ & _ & Habs); [reflexivity | reflexivity|].
  exact Habs.
Defined.

(** A reference that starts with [http] without being a URL is returned as
    it is, and a reference that starts with [//] without naming a host is
    only given a scheme: neither result is an absolute URL. *)
Lemma get_favicon_url_not_absolute :
  (get_favicon_url Sample.env_http_path "https://example.com/" Sample.world0).1
  = inr "httpdocs/favicon.ico"
  /\ ~ is_absolute_url Sample.checks "httpdocs/favicon.ico"
  /\ (get_favicon_url Sample.env_no_host "https://example.com/" Sample.world0).1
     = inr "https:///favicon.ico"
  /\ ~ is_absolute_url Sample.checks "https:///favicon.ico".
Proof.
  split; [reflexivity|]. split.
  - intros (p & Hp & Hs & _). vm_compute in Hp. inversion Hp; subst.
    now apply Hs.
  - split; [reflexivity|].
    intros (p & Hp & _ & Hn). vm_compute in Hp. inversion Hp; subst.
    now apply Hn.
Qed.

(** ** A relative reference *)

Section Relative.

Import UrlFacts.

Context (E : Env).

(** C5. When the reference found for a page, with a scheme in its URL,
    starts with none of [//], [/] and [http], [get_favicon_url] returns it
    resolved against the directory of the page: the scheme and host of the
    page, the page path with its last segment cut off, and the reference.
    The URL returned parses under the scheme and host of the page, and is a
    fully qualified absolute URL when the page URL names a host. *)
Theorem get_favicon_url_relative_reference (url : string) (w : World)
    (page : UrlParse.ParseResult) (ref : string) :
  UrlParse.urlparse (url_checks E) url = inr page ->
  UrlParse.scheme page <> "" ->
  (find_reference E page url w).1 = inr ref ->
  ref <> "" ->
  Py.startswith "//" ref = false ->
  Py.startswith "/" ref = false ->
  Py.startswith "http" ref = false ->
  (* the value returned *)
  get_favicon_url E url w
  = (inr (relative_location page ref), (find_reference E page url w).2)
  (* the directory in it is the page path with its last segment cut off *)
  /\ (Py.contains "/" (PosixPath.split (UrlParse.path page)).2 = false
      /\ exists seps,
          Py.all (Ascii.eqb "/") seps = true
          /\ UrlParse.path page
             = (PosixPath.split (UrlParse.path page)).1 +:+ seps
                 +:+ (PosixPath.split (UrlParse.path page)).2)
  (* it is a URL under the scheme and host of the page *)
  /\ (exists p,
        UrlParse.urlparse (url_checks E) (relative_location page ref) = inr p
        /\ UrlParse.scheme p = UrlParse.scheme page
        /\ UrlParse.netloc p = UrlParse.netloc page)
  /\ (UrlParse.netloc page <> "" ->
      is_absolute_url (url_checks E) (relative_location page ref)).
Proof.
  intros Hp Hsc Href Hne H2 H1 Hh.
  destruct (resolve_relative_parses (url_checks E) url page ref Hp Hsc Hne H2 H1 Hh)
    as (Hres & p & Hpp & Hps & Hpn).
  assert (Hloc : resolve page ref = relative_location page ref) by exact Hres.
  rewrite Hloc in Hpp.
  split.
  - rewrite (get_favicon_url_resolve E url w page Hp). now rewrite Href, Hloc.
  - split; [apply posix_split_spec|]. split.
    + exists p. auto.
    + intros Hn. exists p. split; [exact Hpp|]. split; congruence.
Qed.

End Relative.

Lemma get_favicon_url_relative_reference_witness :
  get_favicon_url Sample.env_relative Cases.start_url Sample.world0
  = (inr (relative_location Cases.start_page "img/favicon.ico"),
     (find_reference Sample.env_relative Cases.start_page Cases.start_url
        Sample.world0).2)
  /\ relative_location Cases.start_page "img/favicon.ico"
     = "https://example.com//wiki/img/favicon.ico"
  /\ is_absolute_url Sample.checks (relative_location Cases.start_page "img/favicon.ico").
Proof.
  destruct (get_favicon_url_relative_reference Sample.env_relative Cases.start_url
              Sample.world0 Cases.start_page "img/favicon.ico")
    as (Hrun & _ & _ & Habs); try reflexivity; try discriminate.
  split; [exact Hrun|]. split; [reflexivity|].
  apply Habs. discriminate.
Defined.

(** * Further properties of the script *)

(** ** [get_filename]: the name is a plain file name *)

Section PlainName.

Import PyFacts UrlFacts.

Lemma contains_append (c : ascii) (a b : string) :
  Py.contains c (a +:+ b) = Py.contains c a || Py.contains c b.
Proof.
  induction a as [|x a IH]; [reflexivity|].
  rewrite append_cons. cbn [Py.contains]. now rewrite IH, orb_assoc.
Qed.

Lemma all_split (P : ascii -> bool) (c : ascii) (s : string) :
  Py.all P s = true -> Forall (fun t => Py.all P t = true) (Py.split c s).
Proof.
  induction s as [|a s IH]; cbn [Py.all Py.split].
  - intros _. repeat constructor.
  - intros H. apply andb_true_iff in H as [Ha H]. specialize (IH H).
    destruct (Ascii.eqb a c); [constructor; [reflexivity | exact IH]|].
    destruct (Py.split c s) as [|t ts].
    + repeat constructor. cbn [Py.all]. now rewrite Ha.
    + inversion IH; subst. constructor; [|assumption].
      cbn [Py.all]. now rewrite Ha.
Qed.

Lemma all_join (P : ascii -> bool) (sep : string) (parts : list string) :
  Py.all P sep = true ->
  Forall (fun t => Py.all P t = true) parts ->
  Py.all P (Py.join sep parts) = true.
Proof.
  intros Hsep. induction parts as [|p ps IH]; [reflexivity|].
  intros H. inversion H as [|? ? Hp Hps]; subst. specialize (IH Hps).
  cbn [Py.join]. destruct ps as [|q ps]; [exact Hp|].
  rewrite !all_append, Hp, Hsep. exact IH.
Qed.

Lemma skip_dots_ext (p : string) (d : Z) (n : nat) (i : Z) :
  (PosixPath.skip_dots p d n i).2 = "" \/ (PosixPath.skip_dots p d n i).2 = Py.from d p.
Proof.
  revert i; induction n as [|n IH]; intros i; cbn [PosixPath.skip_dots].
  - now left.
  - destruct (negb _); [now right | apply IH].
Qed.

(** Nothing after the last slash of a path holds a slash. *)
Lemma from_after_last_sep (p : string) (d : Z) :
  Py.rfind "/" p < d -> Py.contains "/" (Py.from d p) = false.
Proof.
  unfold Py.rfind, Py.from. intros Hd.
  destruct (rfind_aux_spec "/" p 0 (-1)) as [[Hno Hr] | (a & b & -> & Hb & Hr)].
  - apply contains_all. apply all_drop. now apply contains_all.
  - rewrite Hr in Hd.
    replace (a +:+ String "/" b) with ((a +:+ "/") +:+ b)
      by (now rewrite append_assoc).
    assert (Hlen : (String.length (a +:+ "/") <= Py.bound d ((a +:+ "/") +:+ b))%nat).
    { unfold Py.bound, Py.len in *. rewrite !length_append in *.
      simpl String.length.
      destruct (d <? 0) eqn:Hn; [apply Z.ltb_lt in Hn; lia|]. lia. }
    replace (Py.bound d ((a +:+ "/") +:+ b))
      with (String.length (a +:+ "/")
            + (Py.bound d ((a +:+ "/") +:+ b) - String.length (a +:+ "/")))%nat
      by lia.
    rewrite drop_add. apply contains_all. apply all_drop. now apply contains_all.
Qed.

Lemma splitext_no_sep (p : string) :
  Py.contains "/" (PosixPath.splitext p).2 = false.
Proof.
  unfold PosixPath.splitext.
  destruct (Py.rfind "/" p <? Py.rfind "." p) eqn:Hlt; [|reflexivity].
  apply Z.ltb_lt in Hlt.
  destruct (skip_dots_ext p (Py.rfind "." p)
              (Z.to_nat (Py.rfind "." p - (Py.rfind "/" p + 1)))
              (Py.rfind "/" p + 1)) as [-> | ->]; [reflexivity|].
  now apply from_after_last_sep.
Qed.

Lemma get_filename_no_sep (chk : UrlParse.Checks) (url favicon_url : string)
    (png : bool) (name : string) :
  get_filename chk url favicon_url png = inr name ->
  Py.contains "/" name = false.
Proof.
  unfold get_filename, rbind, ok. intros H.
  assert (Hext : exists ext,
             Py.contains "/" ext = false
             /\ exists page,
                 UrlParse.urlparse chk url = inr page
                 /\ name = Py.join "-"
                          (List.filter (fun d => negb (excluded d))
                                       (Py.split "." (UrlParse.netloc page)))
                        +:+ ext).
  { destruct png.
    - exists ".png". split; [reflexivity|].
      destruct (UrlParse.urlparse chk url) as [e|page]; [discriminate|].
      exists page. split; [reflexivity|]. now inversion H.
    - destruct (UrlParse.urlparse chk favicon_url) as [e|fav]; [discriminate|].
      exists (PosixPath.splitext (UrlParse.path fav)).2.
      split; [apply splitext_no_sep|].
      destruct (UrlParse.urlparse chk url) as [e|page]; [discriminate|].
      exists page. split; [reflexivity|]. now inversion H. }
  destruct Hext as (ext & Hext & page & Hp & ->).
  rewrite contains_append, Hext, orb_false_r.
  apply contains_all.
  destruct (urlparse_out chk url page Hp) as (_ & Hnd & _).
  apply all_join; [reflexivity|].
  apply Forall_forall. intros t Ht. apply list_elem_of_In in Ht.
  apply filter_In in Ht as [Ht _]. apply list_elem_of_In in Ht.
  revert t Ht. apply Forall_forall. apply all_split.
  eapply all_impl; [|exact Hnd].
  intros c Hc. rewrite not_delim_spec in Hc.
  apply negb_true_iff in Hc. apply orb_false_iff in Hc as [Hc _].
  apply orb_false_iff in Hc as [Hc _]. now rewrite Hc.
Qed.

(** A text is cut at its last slash in one way only. *)
Lemma last_sep_unique (a a' b b' : string) :
  a +:+ String "/" b = a' +:+ String "/" b' ->
  Py.contains "/" b = false -> Py.contains "/" b' = false ->
  a = a' /\ b = b'.
Proof.
  revert a'; induction a as [|x a IH]; intros [|x' a'] H Hb Hb'.
  - rewrite !append_nil_l in H. now inversion H.
  - rewrite append_nil_l, append_cons in H. inversion H; subst.
    rewrite contains_append in Hb. cbn [Py.contains] in Hb.
    rewrite Ascii.eqb_refl in Hb. cbn in Hb.
    now rewrite orb_true_r in Hb.
  - rewrite append_nil_l, append_cons in H. inversion H; subst.
    rewrite contains_append in Hb'. cbn [Py.contains] in Hb'.
    rewrite Ascii.eqb_refl in Hb'. cbn in Hb'.
    now rewrite orb_true_r in Hb'.
  - rewrite !append_cons in H. inversion H; subst.
    destruct (IH a' H2 Hb Hb') as [-> ->]. now split.
Qed.

(** The tail [os.path.split] gives for a plain name behind a slash, and for
    a plain name alone. *)
Lemma split_tail_after_sep (a name : string) :
  Py.contains "/" name = false ->
  (PosixPath.split (a +:+ String "/" name)).2 = name.
Proof.
  intros Hn. unfold PosixPath.split, Py.rfind. cbn [snd].
  destruct (rfind_aux_spec "/" (a +:+ String "/" name) 0 (-1))
    as [[Hno _] | (a2 & b & Hs & Hb & ->)].
  - rewrite contains_append in Hno. cbn [Py.contains] in Hno.
    rewrite Ascii.eqb_refl in Hno. cbn in Hno.
    now rewrite orb_true_r in Hno.
  - destruct (last_sep_unique _ _ _ _ Hs Hn Hb) as [-> ->].
    replace (a2 +:+ String "/" b) with ((a2 +:+ "/") +:+ b)
      by (now rewrite append_assoc).
    replace (0 + Py.len a2 + 1) with (Py.len (a2 +:+ "/"))
      by (unfold Py.len; rewrite length_append; simpl String.length; lia).
    apply from_append.
Qed.

Lemma split_tail_plain (name : string) :
  Py.contains "/" name = false -> (PosixPath.split name).2 = name.
Proof.
  intros Hn. unfold PosixPath.split, Py.rfind. cbn [snd].
  destruct (rfind_aux_spec "/" name 0 (-1))
    as [[_ ->] | (a2 & b & -> & Hb & _)].
  - now destruct name.
  - rewrite contains_append in Hn. cbn [Py.contains] in Hn.
    rewrite Ascii.eqb_refl in Hn. cbn in Hn.
    now rewrite orb_true_r in Hn.
Qed.

Lemma endswith_sep_inv (s : string) :
  PosixPath.endswith_sep s = true -> exists a, s = a +:+ "/".
Proof.
  unfold PosixPath.endswith_sep. intros H.
  exists (Py.upto (-1) s). rewrite <- (upto_from (-1) s) at 1. f_equal.
  destruct (Py.from (-1) s) as [|c [|c' t]]; [discriminate| |].
  all: destruct c as [[] [] [] [] [] [] [] []]; try discriminate.
  reflexivity.
Qed.

Lemma plain_not_rooted (name : string) :
  Py.contains "/" name = false -> Py.startswith "/" name = false.
Proof.
  destruct name as [|c name]; [reflexivity|].
  cbn [Py.contains Py.startswith]. intros H.
  apply orb_false_iff in H as [Hc _].
  rewrite Ascii.eqb_sym in Hc. now rewrite Hc.
Qed.

(** The base name of a plain name joined to a directory is the name. *)
Lemma join_split_plain (dir name : string) :
  Py.contains "/" name = false ->
  (PosixPath.split (PosixPath.join dir [name])).2 = name.
Proof.
  intros Hn. unfold PosixPath.join. cbn [fold_left]. unfold PosixPath.join_step.
  rewrite (plain_not_rooted name Hn).
  destruct dir as [|d dir].
  - cbn [Py.truthy negb orb]. rewrite ?append_nil_l. now apply split_tail_plain.
  - cbn [Py.truthy negb orb].
    destruct (PosixPath.endswith_sep (String d dir)) eqn:He.
    + destruct (endswith_sep_inv _ He) as [a ->].
      rewrite append_assoc, ?append_cons, ?append_nil_l.
      now apply split_tail_after_sep.
    + cbn [orb]. now apply split_tail_after_sep.
Qed.

(** X1. Whatever the two URLs are, a name [get_filename] returns holds no
    slash.  So it names a file directly in the directory it is joined to:
    the base name of the path [os.path.join] builds from any directory and
    the name is the name again. *)
Theorem get_filename_is_plain (chk : UrlParse.Checks) (url favicon_url : string)
    (png : bool) (name : string) :
  get_filename chk url favicon_url png = inr name ->
  Py.contains "/" name = false
  /\ forall dir, (PosixPath.split (PosixPath.join dir [name])).2 = name.
Proof.
  intros H.
  pose proof (get_filename_no_sep chk url favicon_url png name H) as Hn.
  split; [exact Hn|].
  intros dir. now apply join_split_plain.
Qed.

End PlainName.

Lemma get_filename_is_plain_witness :
  Py.contains "/" "example.ico" = false
  /\ forall dir, (PosixPath.split (PosixPath.join dir ["example.ico"])).2 = "example.ico".
Proof.
  apply (get_filename_is_plain Sample.checks "https://www.example.com"
           "https://example.com/a/b/favicon.ico" false "example.ico").
  reflexivity.
Defined.

(** ** [get_favicon_url]: where the reference comes from *)

Section Locator.

Context (E : Env).

Lemma append_empty (a b : string) : a +:+ b = "" -> a = "" /\ b = "".
Proof. destruct a; [now rewrite PyFacts.append_nil_l | discriminate]. Qed.

(** X2. Making a reference absolute never loses it: lines 47-54 give the
    empty string for the empty reference only.  So [get_favicon_url]
    returns the empty string, which its callers read as "no favicon",
    exactly when neither the page nor the default locations gave a
    reference. *)
Theorem get_favicon_url_empty_iff (url : string) (w : World)
    (page : UrlParse.ParseResult) :
  UrlParse.urlparse (url_checks E) url = inr page ->
  (forall ref, resolve page ref = "" <-> ref = "")
  /\ ((get_favicon_url E url w).1 = inr ""
      <-> (find_reference E page url w).1 = inr "").
Proof.
  intros Hp.
  assert (Hres : forall ref, resolve page ref = "" <-> ref = "").
  { intros ref. split; [|intros ->; reflexivity].
    unfold resolve. destruct ref as [|c ref]; [reflexivity|].
    cbn [Py.truthy].
    destruct (Py.startswith "//" _).
    { intros H. apply append_empty in H as [_ H].
      apply append_empty in H as [H _]. discriminate. }
    destruct (Py.startswith "/" _).
    { intros H. apply append_empty in H as [_ H].
      apply append_empty in H as [H _]. discriminate. }
    destruct (negb _); [|auto].
    destruct (PosixPath.split _). intros H. apply append_empty in H as [_ H].
    apply append_empty in H as [H _]. discriminate. }
  split; [exact Hres|].
  rewrite (get_favicon_url_resolve E url w page Hp). cbn [fst].
  destruct ((find_reference E page url w).1) as [e|ref].
  - split; discriminate.
  - split; intros H.
    + f_equal. apply Hres. congruence.
    + assert (ref = "") as -> by congruence. reflexivity.
Qed.

(** X3. When the page is served with status 200 and its icon link has a
    non-empty [href], that reference, made absolute, is the result, and the
    GET of the page is the only request made: the default locations are not
    probed. *)
Theorem declared_href_is_used (url : string) (w : World)
    (page : UrlParse.ParseResult) (response : Response)
    (attrs : gmap string string) (href : string) :
  UrlParse.urlparse (url_checks E) url = inr page ->
  http_get E (requests_made w) url = inr response ->
  status_code response = 200 ->
  soup_find_icon E (content response) = inr (Some attrs) ->
  attrs !! "href" = Some href ->
  href <> "" ->
  get_favicon_url E url w
  = (inr (resolve page href), after w (EvGet url (inr response)))
  /\ resolve page href <> "".
Proof.
  intros Hp Hget Hst Hsoup Hhref Hne.
  split.
  - unfold get_favicon_url, find_reference, declared_reference, bind, lift, ret,
      requests_get, codes_ok.
    rewrite Hp, Hget. cbn. rewrite Hst. cbn. rewrite Hsoup, Hhref.
    destruct href as [|c href]; [congruence|]. reflexivity.
  - unfold resolve. destruct href as [|c href]; [congruence|].
    cbn [Py.truthy].
    destruct (Py.startswith "//" _).
    { intros H. apply append_empty in H as [_ H].
      apply append_empty in H as [H _]. discriminate. }
    destruct (Py.startswith "/" _).
    { intros H. apply append_empty in H as [_ H].
      apply append_empty in H as [H _]. discriminate. }
    destruct (negb _); [|discriminate].
    destruct (PosixPath.split _). intros H. apply append_empty in H as [_ H].
    apply append_empty in H as [H _]. discriminate.
Qed.

(** X4. When the page is served with a status other than 200 its body is
    not searched for an icon link, whatever it holds, and the next request
    is the HEAD for [/favicon.png] at the root of the site. *)
Theorem page_not_ok_is_not_parsed (url : string) (w : World)
    (response : Response)
    (find : string -> Result (option (gmap string string))) :
  http_get E (requests_made w) url = inr response ->
  status_code response <> 200 ->
  get_favicon_url (with_soup E find) url w = get_favicon_url E url w
  /\ forall page,
      UrlParse.urlparse (url_checks E) url = inr page ->
      exists r1 rest,
        run_events (get_favicon_url E url) w
        = EvGet url (inr response) :: EvHead (default_location page "png") r1 :: rest.
Proof.
  intros Hget Hst.
  assert (Hne : (status_code response =? 200) = false) by now apply Z.eqb_neq.
  unfold run_events, get_favicon_url, find_reference, declared_reference,
    default_location.
  split.
  - unfold bind, lift, ret, requests_get, codes_ok. cbn.
    destruct (UrlParse.urlparse (url_checks E) url) as [e|page]; [reflexivity|].
    rewrite Hget. cbn. rewrite Hne. reflexivity.
  - intros page Hp. rewrite Hp.
    run_cases.
    all: try discriminate.
    all: injection Hget as ->.
    all: try congruence.
    all: eexists _, _; reflexivity.
Qed.

End Locator.

Lemma get_favicon_url_empty_iff_witness :
  (forall ref, resolve Cases.start_page ref = "" <-> ref = "")
  /\ ((get_favicon_url Sample.env_relative Cases.start_url Sample.world0).1 = inr ""
      <-> (find_reference Sample.env_relative Cases.start_page Cases.start_url
             Sample.world0).1 = inr "").
Proof.
  apply (get_favicon_url_empty_iff Sample.env_relative Cases.start_url
           Sample.world0 Cases.start_page).
  reflexivity.
Defined.

Lemma declared_href_is_used_witness :
  get_favicon_url Sample.env_relative Cases.start_url Sample.world0
  = (inr (resolve Cases.start_page "img/favicon.ico"),
     after Sample.world0
       (EvGet Cases.start_url (inr (Sample.response 200 "<html>" Cases.start_url))))
  /\ resolve Cases.start_page "img/favicon.ico" <> "".
Proof.
  apply (declared_href_is_used Sample.env_relative Cases.start_url Sample.world0
           Cases.start_page (Sample.response 200 "<html>" Cases.start_url)
           {[ "href" := "img/favicon.ico" ]} "img/favicon.ico").
  - reflexivity.
  - reflexivity.
  - reflexivity.
  - reflexivity.
  - reflexivity.
  - discriminate.
Defined.

Lemma page_not_ok_is_not_parsed_witness :
  get_favicon_url
    (with_soup Sample.env404 (fun _ => inr (Some {[ "href" := "/icon.png" ]})))
    Cases.start_url Sample.world0
  = get_favicon_url Sample.env404 Cases.start_url Sample.world0.
Proof.
  apply (page_not_ok_is_not_parsed Sample.env404 Cases.start_url Sample.world0
           (Sample.response 404 "" Cases.start_url)).
  - reflexivity.
  - discriminate.
Defined.

(** ** [get_favicon_url]: the requests it makes *)

Section Probes.

Context (E : Env).

(** X5. [get_favicon_url] writes no file, and makes no request at all when
    the page URL cannot be parsed.  Otherwise it makes at most three
    requests, in this order: the GET of the page, the HEAD of [/favicon.png]
    and the HEAD of [/favicon.ico], both at the root of the site of the
    page; it logs and prints nothing. *)
Theorem get_favicon_url_requests (url : string) (w : World) :
  fs (get_favicon_url E url w).2 = fs w
  /\ match UrlParse.urlparse (url_checks E) url with
     | inl e => get_favicon_url E url w = (inl e, w)
     | inr page =>
         exists r,
           run_events (get_favicon_url E url) w = [EvGet url r]
           \/ (exists r1,
                 run_events (get_favicon_url E url) w
                 = [EvGet url r; EvHead (default_location page "png") r1])
           \/ (exists r1 r2,
                 run_events (get_favicon_url E url) w
                 = [EvGet url r; EvHead (default_location page "png") r1;
                    EvHead (default_location page "ico") r2])
     end.
Proof.
  unfold run_events, get_favicon_url, find_reference, declared_reference,
    default_location.
  destruct (UrlParse.urlparse (url_checks E) url) as [e|page] eqn:Hp.
  - split; reflexivity.
  - run_cases.
    all: split; [reflexivity|].
    all: eexists.
    all: first [ left; reflexivity
               | right; left; eexists; reflexivity
               | right; right; eexists _, _; reflexivity ].
Qed.

(** X6. A request that fails ends the search: the exception it raised is
    the one [get_favicon_url] raises, and no other request follows it.  In
    particular a default location that cannot be reached is not skipped. *)
Theorem get_favicon_url_request_failure (url : string) (w : World) (u : string)
    (e : exn) :
  (EvGet u (inl e) ∈ run_events (get_favicon_url E url) w ->
   (get_favicon_url E url w).1 = inl e
   /\ last (run_events (get_favicon_url E url) w) = Some (EvGet u (inl e)))
  /\ (EvHead u (inl e) ∈ run_events (get_favicon_url E url) w ->
      (get_favicon_url E url w).1 = inl e
      /\ last (run_events (get_favicon_url E url) w) = Some (EvHead u (inl e))).
Proof.
  unfold run_events, get_favicon_url, find_reference, declared_reference.
  split; intros Hin.
  all: run_cases.
  all: inv_elem Hin.
  all: split; reflexivity.
Qed.

Lemma is_redirect_location (r : Response) :
  is_redirect r = true -> exists loc, headers r !! "location" = Some loc.
Proof.
  unfold is_redirect. intros H. apply andb_true_iff in H as [H _].
  apply bool_decide_eq_true in H. destruct H as [loc H]. now exists loc.
Qed.

(** X7. When the last request is a HEAD that was answered, the answer
    decides the result: a redirect gives its [Location] header, otherwise
    status 200 gives the URL of the response, each made absolute against the
    page URL, and any other status gives the empty string. *)
Theorem get_favicon_url_probe_outcome (url : string) (w : World)
    (page : UrlParse.ParseResult) (u : string) (answer : Response) :
  UrlParse.urlparse (url_checks E) url = inr page ->
  last (run_events (get_favicon_url E url) w) = Some (EvHead u (inr answer)) ->
  (is_redirect answer = true ->
   exists location,
     headers answer !! "location" = Some location
     /\ (get_favicon_url E url w).1 = inr (resolve page location))
  /\ (is_redirect answer = false -> status_code answer = 200 ->
      (get_favicon_url E url w).1 = inr (resolve page (resp_url answer)))
  /\ (is_redirect answer = false -> status_code answer <> 200 ->
      (get_favicon_url E url w).1 = inr "").
Proof.
  intros Hp Hlast.
  unfold run_events, get_favicon_url, find_reference, declared_reference in *.
  rewrite Hp in *.
  run_cases.
  all: try discriminate.
  all: inversion Hlast; subst; clear Hlast.
  all: repeat split.
  all: try (intros Hred Hst;
            first [ congruence
                  | apply Z.eqb_eq in Hst; congruence
                  | exfalso; apply Hst; apply Z.eqb_eq; assumption
                  | reflexivity
                  | match goal with
                    | H : negb (Py.truthy ?s) = true |- _ =>
                        destruct s; [reflexivity | discriminate H]
                    end ]).
  all: intros Hred.
  all: try congruence.
  all: try (destruct (is_redirect_location _ Hred) as [loc Hloc];
            exists loc; split; [exact Hloc | congruence]).
Qed.

End Probes.

Lemma get_favicon_url_request_failure_witness :
  (get_favicon_url Sample.env_down Cases.start_url Sample.world0).1
  = inl (ConnectionError "refused")
  /\ last (run_events (get_favicon_url Sample.env_down Cases.start_url) Sample.world0)
     = Some (EvGet Cases.start_url Sample.refused).
Proof.
  apply (get_favicon_url_request_failure Sample.env_down Cases.start_url
           Sample.world0 Cases.start_url (ConnectionError "refused")).
  vm_compute. apply list_elem_of_In. simpl. tauto.
Defined.

Lemma get_favicon_url_probe_outcome_witness :
  exists location,
    headers Cases.moved !! "location" = Some location
    /\ (get_favicon_url Cases.env_moved Cases.start_url Sample.world0).1
       = inr (resolve Cases.start_page location).
Proof.
  apply (get_favicon_url_probe_outcome Cases.env_moved Cases.start_url
           Sample.world0 Cases.start_page "https://example.com/favicon.png"
           Cases.moved).
  - reflexivity.
  - reflexivity.
  - reflexivity.
Defined.

(** ** [get_favicon]: what is fetched, decoded and written *)

Section Fetcher.

Context (E : Env).

(** [get_favicon] saves nowhere but at [filename]. *)
Lemma get_favicon_saves_at (url filename : string) (resize : Z) (w : World) :
  exists new,
    trace (get_favicon E url filename resize w).2 = trace w ++ new
    /\ forall f, EvSave f ∈ new -> f = filename.
Proof.
  unfold get_favicon, resize_step.
  run_cases.
  all: eexists; (split; [reflexivity|]).
  all: intros f Hin; inv_elem Hin; reflexivity.
Qed.

(** [get_favicon] logs nothing at level INFO, and leaves an image at
    [filename] when it returns. *)
Lemma get_favicon_effects (url filename : string) (resize : Z) (w : World) :
  exists new,
    trace (get_favicon E url filename resize w).2 = trace w ++ new
    /\ (forall m a, EvLog INFO m a ∉ new)
    /\ ((get_favicon E url filename resize w).1 = inr tt ->
        exists img,
          fs (get_favicon E url filename resize w).2 !! filename
          = Some (ImageFile img)).
Proof.
  unfold get_favicon, resize_step.
  run_cases.
  all: eexists; (split; [reflexivity|]); split.
  all: try (intros m a Hin; inv_elem Hin; fail).
  all: try discriminate.
  all: intros _; eexists; apply lookup_insert_eq.
Qed.

(** X8. With [resize] zero or negative the image is saved as it was decoded:
    no frame is selected and nothing is resized, and when [get_favicon]
    returns, the file at [filename] holds the image decoded from the body of
    the answer to the GET, all other files being as before. *)
Theorem get_favicon_without_resize (url filename : string) (resize : Z)
    (w : World) :
  resize <= 0 ->
  (forall size, EvGetImage size ∉ run_events (get_favicon E url filename resize) w)
  /\ (forall size resample,
        EvResize size resample ∉ run_events (get_favicon E url filename resize) w)
  /\ ((get_favicon E url filename resize w).1 = inr tt ->
      exists response favicon,
        EvGet url (inr response) ∈ run_events (get_favicon E url filename resize) w
        /\ image_open E (content response) = inr favicon
        /\ fs (get_favicon E url filename resize w).2
           = <[filename := ImageFile favicon]> (fs w)).
Proof.
  intros Hle.
  assert (Hb : (0 <? resize) = false) by (apply Z.ltb_ge; lia).
  unfold run_events, get_favicon, resize_step. rewrite Hb.
  run_cases.
  all: repeat split.
  all: try (intros size Hin; inv_elem Hin; fail).
  all: try (intros size resample Hin; inv_elem Hin; fail).
  all: try discriminate.
  all: intros _; eexists _, _; split; [apply list_elem_of_In; simpl; tauto|].
  all: split; [eassumption | reflexivity].
Qed.

(** X9. [get_favicon] writes at its destination only: every other path of
    the file system is as before and no save is attempted under another
    name.  When it returns, the destination holds an image and the last
    thing done is the debug message that names the destination. *)
Theorem get_favicon_writes_destination_only (url filename : string)
    (resize : Z) (w : World) :
  (forall path, path <> filename ->
     fs (get_favicon E url filename resize w).2 !! path = fs w !! path)
  /\ (forall other, other <> filename ->
        EvSave other ∉ run_events (get_favicon E url filename resize) w)
  /\ ((get_favicon E url filename resize w).1 = inr tt ->
      (exists img,
         fs (get_favicon E url filename resize w).2 !! filename
         = Some (ImageFile img))
      /\ last (run_events (get_favicon E url filename resize) w)
         = Some (EvLog DEBUG (AStr "saved as '%s'") [AStr filename])).
Proof.
  unfold run_events, get_favicon, resize_step.
  run_cases.
  all: repeat split.
  all: try (intros path Hne; first [reflexivity | now apply lookup_insert_ne]).
  all: try (intros other Hne Hin; inv_elem Hin; congruence).
  all: try discriminate.
  all: try (intros _; eexists; apply lookup_insert_eq).
  all: eexists; apply lookup_insert_eq.
Qed.

(** X10. When the body of the answer cannot be decoded as an image, the
    exception of the decoder is the one [get_favicon] raises; the attempt to
    decode is the last thing done and no file is written. *)
Theorem get_favicon_decode_failure (url filename : string) (resize : Z)
    (w : World) (body : string) (e : exn) :
  EvOpen body ∈ run_events (get_favicon E url filename resize) w ->
  image_open E body = inl e ->
  (get_favicon E url filename resize w).1 = inl e
  /\ last (run_events (get_favicon E url filename resize) w) = Some (EvOpen body)
  /\ fs (get_favicon E url filename resize w).2 = fs w.
Proof.
  intros Hin Hopen.
  unfold run_events, get_favicon, resize_step in *.
  run_cases.
  all: inv_elem Hin.
  all: same_answer.
  all: try congruence.
  all: repeat split; congruence.
Qed.

(** X11. An answered GET is rejected on its status only from 400 to 599.
    With any other status, 200 or not, the body of the answer is handed to
    the image decoder right after the request. *)
Theorem get_favicon_decodes_other_statuses (url filename : string) (resize : Z)
    (w : World) (response : Response) :
  EvGet url (inr response) ∈ run_events (get_favicon E url filename resize) w ->
  ~ (400 <= status_code response < 600) ->
  exists rest,
    run_events (get_favicon E url filename resize) w
    = EvLog DEBUG (AStr "trying to get favicon from '%s'…") [AStr url]
      :: EvGet url (inr response) :: EvOpen (content response) :: rest.
Proof.
  intros Hin Hst.
  unfold run_events, get_favicon, resize_step in *.
  run_cases.
  all: inv_elem Hin.
  all: try (exfalso; apply Hst;
            match goal with
            | H : _ && _ = true |- _ =>
                apply andb_true_iff in H as [H1 H2];
                apply Z.leb_le in H1; apply Z.ltb_lt in H2; lia
            end).
  all: eexists; reflexivity.
Qed.

End Fetcher.

Lemma get_favicon_without_resize_witness :
  exists response favicon,
    EvGet "https://example.com/favicon.ico" (inr response)
      ∈ run_events (get_favicon Sample.env_ico "https://example.com/favicon.ico"
                                "example.ico" 0) Sample.world0
    /\ image_open Sample.env_ico (content response) = inr favicon
    /\ fs (get_favicon Sample.env_ico "https://example.com/favicon.ico"
                       "example.ico" 0 Sample.world0).2
       = <[ "example.ico" := ImageFile favicon ]> (fs Sample.world0).
Proof.
  destruct (get_favicon_without_resize Sample.env_ico
              "https://example.com/favicon.ico" "example.ico" 0 Sample.world0)
    as (_ & _ & H); [lia|].
  apply H. reflexivity.
Defined.

Lemma get_favicon_writes_destination_only_witness :
  (exists img,
     fs (get_favicon Sample.env_ico "https://example.com/favicon.ico"
                     "example.ico" 16 Sample.world0).2 !! "example.ico"
     = Some (ImageFile img))
  /\ last (run_events (get_favicon Sample.env_ico "https://example.com/favicon.ico"
                                   "example.ico" 16) Sample.world0)
     = Some (EvLog DEBUG (AStr "saved as '%s'") [AStr "example.ico"]).
Proof.
  apply (get_favicon_writes_destination_only Sample.env_ico
           "https://example.com/favicon.ico" "example.ico" 16 Sample.world0).
  reflexivity.
Defined.

Lemma get_favicon_decode_failure_witness :
  (get_favicon Cases.env_not_image "https://example.com/favicon.ico"
               "example.ico" 0 Sample.world0).1
  = inl (Exception "UnidentifiedImageError")
  /\ last (run_events (get_favicon Cases.env_not_image
                         "https://example.com/favicon.ico" "example.ico" 0)
                      Sample.world0)
     = Some (EvOpen "<html>")
  /\ fs (get_favicon Cases.env_not_image "https://example.com/favicon.ico"
                     "example.ico" 0 Sample.world0).2
     = fs Sample.world0.
Proof.
  apply (get_favicon_decode_failure Cases.env_not_image
           "https://example.com/favicon.ico" "example.ico" 0 Sample.world0
           "<html>" (Exception "UnidentifiedImageError")).
  - vm_compute. apply list_elem_of_In. simpl. tauto.
  - reflexivity.
Defined.

Lemma get_favicon_decodes_other_statuses_witness :
  exists rest,
    run_events (get_favicon Sample.env304 "https://example.com/favicon.ico"
                            "example.ico" 0) Sample.world0
    = EvLog DEBUG (AStr "trying to get favicon from '%s'…")
            [AStr "https://example.com/favicon.ico"]
      :: EvGet "https://example.com/favicon.ico"
               (inr (Sample.response 304 "body" "https://example.com/favicon.ico"))
      :: EvOpen "body" :: rest.
Proof.
  apply (get_favicon_decodes_other_statuses Sample.env304
           "https://example.com/favicon.ico" "example.ico" 0 Sample.world0
           (Sample.response 304 "body" "https://example.com/favicon.ico")).
  - vm_compute. apply list_elem_of_In. simpl. tauto.
  - simpl. lia.
Defined.

(** ** [get_favicons]: the run over a list of URLs *)

Section BatchMore.

Context (E : Env).

Lemma requests_hold_no_save (evs : list Event) (f : string) :
  Forall (fun ev => is_request ev = true) evs -> EvSave f ∉ evs.
Proof.
  intros Hall Hin. rewrite Forall_forall in Hall.
  specialize (Hall _ Hin). discriminate.
Qed.

(** What one URL adds to the trace, and the local [output_dir] it leaves. *)
Lemma get_favicons_item_saves (png : bool) (resize : Z) (get : bool)
    (url output_dir local_dir : string) (w : World) :
  local_dir = output_dir \/ (output_dir = "" /\ local_dir = curdir) ->
  ((get_favicons_item E png resize get url (w, local_dir)).2.2 = output_dir
   \/ (output_dir = ""
       /\ (get_favicons_item E png resize get url (w, local_dir)).2.2 = curdir))
  /\ exists new,
      trace (get_favicons_item E png resize get url (w, local_dir)).2.1
      = trace w ++ new
      /\ forall f, EvSave f ∈ new ->
           exists favicon_url name,
             get_filename (url_checks E) (normalize_url url) favicon_url png
             = inr name
             /\ f = PosixPath.join (target_dir output_dir) [name].
Proof.
  intros Hinv.
  unfold get_favicons_item, try_except, get_favicons_try, bind, on_world,
    get_state, modify, throw, lift, ret.
  simpl.
  destruct (get_favicon_url_shape E (normalize_url url) w)
    as [[e He] | (r & more & Htr & Hreq & _)].
  - rewrite He. simpl.
    destruct (handle_url_error_returns (normalize_url url) e w) as (m & a & ->).
    simpl. split; [exact Hinv|]. eexists. split; [reflexivity|].
    intros f Hin. inv_elem Hin.
  - assert (Hns : forall f, EvSave f ∉ EvGet (normalize_url url) r :: more).
    { intros f Hin. apply elem_of_cons in Hin as [Hin|Hin]; [discriminate|].
      now apply (requests_hold_no_save more f Hreq). }
    destruct (get_favicon_url E (normalize_url url) w) as [[e|fav] w1];
      simpl in *.
    + destruct (handle_url_error_returns (normalize_url url) e w1) as (m & a & ->).
      simpl. split; [exact Hinv|]. eexists.
      rewrite Htr, <- app_assoc. split; [reflexivity|].
      intros f Hin. apply elem_of_app in Hin as [Hin|Hin];
        [now apply Hns in Hin | inv_elem Hin].
    + destruct (negb (Py.truthy fav)); simpl.
      { split; [exact Hinv|]. eexists.
        rewrite Htr, <- app_assoc. split; [reflexivity|].
        intros f Hin. apply elem_of_app in Hin as [Hin|Hin];
          [now apply Hns in Hin | inv_elem Hin]. }
      destruct get; simpl.
      2: { split; [exact Hinv|]. eexists.
           rewrite Htr, <- app_assoc. split; [reflexivity|].
           intros f Hin. apply elem_of_app in Hin as [Hin|Hin];
             [now apply Hns in Hin | inv_elem Hin]. }
      assert (Hdir : (if negb (Py.truthy local_dir) then curdir else local_dir)
                     = target_dir output_dir).
      { unfold target_dir.
        destruct Hinv as [->|[-> ->]]; [|reflexivity].
        now destruct (Py.truthy output_dir). }
      assert (Hinv' : (if negb (Py.truthy local_dir) then curdir else local_dir)
                      = output_dir
                      \/ (output_dir = ""
                          /\ (if negb (Py.truthy local_dir) then curdir
                              else local_dir) = curdir)).
      { destruct Hinv as [->|[-> ->]]; [|now right].
        destruct output_dir; [now right | now left]. }
      destruct (negb (Py.truthy local_dir)); simpl in *.
      all: destruct (get_filename (url_checks E) (normalize_url url) fav png)
        as [e|name] eqn:Hname; simpl.
      all: try (destruct (handle_url_error_returns (normalize_url url) e w1)
                  as (m & a & ->); simpl;
                split; [exact Hinv'|]; eexists;
                rewrite Htr, <- app_assoc; split; [reflexivity|];
                intros f Hin; apply elem_of_app in Hin as [Hin|Hin];
                [now apply Hns in Hin | inv_elem Hin]).
      all: match goal with
           | |- context [get_favicon E ?u ?f ?r ?w0] =>
               destruct (get_favicon_saves_at E u f r w0) as (new & Hnew & Hsave);
               destruct (get_favicon E u f r w0) as [[e|[]] w2]
           end; simpl in *.
      all: try (destruct (handle_url_error_returns (normalize_url url) e w2)
                  as (m & a & ->); simpl).
      all: split; [exact Hinv'|].
      all: eexists; rewrite ?Hnew, Htr, <- ?app_assoc; simpl;
        (split; [reflexivity|]).
      all: intros f Hin.
      all: apply elem_of_cons in Hin as [Hin|Hin]; [discriminate|].
      all: repeat (apply elem_of_app in Hin as [Hin|Hin]);
        try (exfalso; now apply (requests_hold_no_save more f Hreq));
        try (inv_elem Hin; fail).
      all: apply Hsave in Hin; subst f.
      all: exists fav, name; split; [exact Hname|].
      all: rewrite <- Hdir; reflexivity.
Qed.

Lemma get_favicons_loop_saves (png : bool) (resize : Z) (get : bool)
    (urls : list string) (output_dir local_dir : string) (w : World) :
  local_dir = output_dir \/ (output_dir = "" /\ local_dir = curdir) ->
  exists new,
    trace (get_favicons_loop E png resize get urls (w, local_dir)).2.1
    = trace w ++ new
    /\ forall f, EvSave f ∈ new ->
         exists url favicon_url name,
           url ∈ urls
           /\ get_filename (url_checks E) (normalize_url url) favicon_url png
              = inr name
           /\ f = PosixPath.join (target_dir output_dir) [name].
Proof.
  revert local_dir w; induction urls as [|url urls IH]; intros local_dir w Hinv.
  - exists []. split; [simpl; now rewrite app_nil_r|].
    intros f Hin. inv_elem Hin.
  - destruct (get_favicons_item_saves png resize get url output_dir local_dir w Hinv)
      as (Hinv1 & new1 & Htr1 & Hs1).
    pose proof (get_favicons_item_extends E png resize get url local_dir w)
      as [Hr _].
    simpl. unfold bind at 1.
    destruct (get_favicons_item E png resize get url (w, local_dir))
      as [r [w1 local1]].
    simpl in *. subst r.
    destruct (IH local1 w1 Hinv1) as (new2 & Htr2 & Hs2).
    exists (new1 ++ new2). split.
    + rewrite Htr2, Htr1, <- app_assoc. reflexivity.
    + intros f Hin. apply elem_of_app in Hin as [Hin|Hin].
      * destruct (Hs1 f Hin) as (fav & name & Hn & Hf).
        exists url, fav, name. split; [left|]. now split.
      * destruct (Hs2 f Hin) as (u & fav & name & Hu & Hn & Hf).
        exists u, fav, name. split; [now right|]. now split.
Qed.

(** The local [output_dir] of the loop is the argument, or [curdir] once an
    empty argument has been replaced; either way an item acts the same. *)
Lemma get_favicons_item_dir (png : bool) (resize : Z) (get : bool)
    (url : string) (w : World) :
  (get_favicons_item E png resize get url (w, curdir)).2.1
  = (get_favicons_item E png resize get url (w, "")).2.1
  /\ (get_favicons_item E png resize get url (w, curdir)).2.2 = curdir
  /\ ((get_favicons_item E png resize get url (w, "")).2.2 = ""
      \/ (get_favicons_item E png resize get url (w, "")).2.2 = curdir).
Proof.
  unfold get_favicons_item, try_except, get_favicons_try, bind, on_world,
    get_state, modify, throw, lift, ret.
  simpl.
  destruct (get_favicon_url E (normalize_url url) w) as [[e|fav] w1]; simpl.
  { destruct (handle_url_error (normalize_url url) e w1) as [r w2]. simpl. auto. }
  destruct (negb (Py.truthy fav)); simpl; [auto|].
  destruct get; simpl; [|auto].
  destruct (get_filename (url_checks E) (normalize_url url) fav png) as [e|name];
    simpl.
  { destruct (handle_url_error (normalize_url url) e w1) as [r w2]. simpl. auto. }
  match goal with |- context [get_favicon E fav ?f resize w1] =>
    destruct (get_favicon E fav f resize w1) as [[e|[]] w2] end; simpl; [|auto].
  destruct (handle_url_error (normalize_url url) e w2) as [r w3]. simpl. auto.
Qed.

Lemma get_favicons_loop_dir (png : bool) (resize : Z) (get : bool)
    (urls : list string) (w : World) :
  (get_favicons_loop E png resize get urls (w, curdir)).2.1
  = (get_favicons_loop E png resize get urls (w, "")).2.1.
Proof.
  rewrite !get_favicons_loop_fold. cbn [snd].
  revert w. induction urls as [|url urls IH]; intros w; [reflexivity|].
  cbn [fold_left].
  destruct (get_favicons_item_dir png resize get url w) as (Hw & Hd & Hd').
  destruct (get_favicons_item E png resize get url (w, curdir)) as [r1 [w1 d1]].
  destruct (get_favicons_item E png resize get url (w, "")) as [r2 [w2 d2]].
  cbn [fst snd] in *. subst w2 d1.
  destruct Hd' as [->| ->]; [apply IH | reflexivity].
Qed.

Lemma get_favicons_item_keeps_dir (png : bool) (resize : Z) (get : bool)
    (url output_dir : string) (w : World) :
  (get_favicons_item E png resize get url (w, output_dir)).2.2 = output_dir
  \/ (output_dir = ""
      /\ (get_favicons_item E png resize get url (w, output_dir)).2.2 = curdir).
Proof.
  destruct (get_favicons_item_saves png resize get url output_dir output_dir w)
    as [H _]; [now left | exact H].
Qed.

(** X12. [get_favicons] never raises, and a run over a list of URLs is the
    run over its parts in turn: the run over [urls1 ++ urls2] is the run over
    [urls2] from the world the run over [urls1] leaves.  Neither a URL that
    failed nor the replacement of an empty [output_dir] by the current
    directory changes what is done for the URLs that follow. *)
Theorem get_favicons_in_parts (urls1 urls2 : list string)
    (output_dir : string) (png : bool) (resize : Z) (get : bool) (w : World) :
  (get_favicons E (urls1 ++ urls2) output_dir png resize get w).1 = inr tt
  /\ get_favicons E (urls1 ++ urls2) output_dir png resize get w
     = get_favicons E urls2 output_dir png resize get
         (get_favicons E urls1 output_dir png resize get w).2.
Proof.
  unfold get_favicons.
  rewrite !get_favicons_loop_fold. cbn [fst snd].
  split; [reflexivity|].
  rewrite fold_left_app. f_equal.
  assert (Hdir : forall urls w d,
             (fold_left (fun s url => (get_favicons_item E png resize get url s).2)
                        urls (w, d)).2 = d
             \/ (d = ""
                 /\ (fold_left (fun s url => (get_favicons_item E png resize get url s).2)
                               urls (w, d)).2 = curdir)).
  { clear. intros urls. induction urls as [|url urls IH]; intros w d; [now left|].
    cbn [fold_left].
    destruct (get_favicons_item_keeps_dir png resize get url d w) as [H|[-> H]].
    - destruct (get_favicons_item E png resize get url (w, d)) as [r [w1 d1]].
      cbn [fst snd] in *. subst d1. apply IH.
    - destruct (get_favicons_item E png resize get url (w, "")) as [r [w1 d1]].
      cbn [fst snd] in *. subst d1.
      destruct (IH w1 curdir) as [H|[H _]]; [right; now split | discriminate]. }
  destruct (Hdir urls1 w output_dir) as [H|[-> H]].
  - destruct (fold_left _ urls1 (w, output_dir)) as [w1 d1].
    cbn [fst snd] in *. now subst d1.
  - destruct (fold_left _ urls1 (w, "")) as [w1 d1].
    cbn [fst snd] in *. subst d1.
    pose proof (get_favicons_loop_dir png resize get urls2 w1) as Hl.
    rewrite !get_favicons_loop_fold in Hl. exact Hl.
Qed.

(** X13. Every file a run of [get_favicons] saves is named by
    [get_filename] for one of the URLs, prefixed with [https://] where it
    did not start with [http],
    and lies directly in [output_dir], or in the current directory when
    [output_dir] is empty: the name holds no slash. *)
Theorem get_favicons_saves_in_output_dir (urls : list string)
    (output_dir : string) (png : bool) (resize : Z) (get : bool) (w : World)
    (f : string) :
  EvSave f ∈ run_events (get_favicons E urls output_dir png resize get) w ->
  exists url favicon_url name,
    url ∈ urls
    /\ get_filename (url_checks E) (normalize_url url) favicon_url png = inr name
    /\ Py.contains "/" name = false
    /\ f = PosixPath.join (target_dir output_dir) [name].
Proof.
  intros Hin.
  destruct (get_favicons_loop_saves png resize get urls output_dir output_dir w)
    as (new & Htr & Hs); [now left|].
  unfold run_events, get_favicons in Hin.
  destruct (get_favicons_loop E png resize get urls (w, output_dir)) as [r s].
  cbn [fst snd] in *.
  rewrite (events_since_app _ _ _ Htr) in Hin.
  destruct (Hs f Hin) as (url & fav & name & Hu & Hn & Hf).
  exists url, fav, name. repeat split; try assumption.
  now apply (get_filename_no_sep (url_checks E) (normalize_url url) fav png).
Qed.

End BatchMore.

Lemma get_favicons_saves_in_output_dir_witness :
  exists url favicon_url name,
    url ∈ ["example.com"]
    /\ get_filename (url_checks Cases.env_site) (normalize_url url) favicon_url false
       = inr name
    /\ Py.contains "/" name = false
    /\ "./example.ico" = PosixPath.join (target_dir "") [name].
Proof.
  apply (get_favicons_saves_in_output_dir Cases.env_site ["example.com"] ""
           false 0 true Sample.world0 "./example.ico").
  vm_compute. apply list_elem_of_In. simpl. tauto.
Defined.

(** ** [get_dokuwiki_interwiki_icons]: the entries of the configuration *)

Section InterwikiMore.

Context (E : Env).

(** X14. A line that is not an entry is passed over without any effect and
    without any message.  The line is stripped first; it is passed over
    when what is left does not have the shape of an entry, so when nothing
    is left, and when what is left starts with a character that is not a
    lower-case letter, a digit, a dot, a hyphen or an underscore, as in a
    comment or a name in capitals. *)
Theorem interwiki_other_lines_are_ignored (args : option Args)
    (images_dir : string) (force : bool) (line : string) (w : World) :
  ((forall name target, ~ entry_shape (strip line) name target) ->
   interwiki_entry E args images_dir force line w = (inr tt, w))
  /\ (strip line = "" ->
      interwiki_entry E args images_dir force line w = (inr tt, w))
  /\ (forall c rest,
        strip line = String c rest -> Re.name_char c = false ->
        interwiki_entry E args images_dir force line w = (inr tt, w)).
Proof.
  assert (Hnone : Re.fullmatch_entry (strip line) = None ->
                  interwiki_entry E args images_dir force line w = (inr tt, w)).
  { intros H. unfold interwiki_entry, interwiki_try. now rewrite H. }
  split; [|split].
  - intros Hno. apply Hnone.
    destruct (Re.fullmatch_entry (strip line)) as [[name target]|] eqn:Hm;
      [|reflexivity].
    apply fullmatch_entry_shape in Hm. now apply Hno in Hm.
  - intros Hs. apply Hnone. now rewrite Hs.
  - intros c rest Hs Hc. apply Hnone. rewrite Hs.
    unfold Re.fullmatch_entry, Re.plus. now rewrite Hc.
Qed.

(** X15. The first handler of an entry reads the global [args].  Where it
    is not bound, as when the function is called from another module, a
    connection failure for one entry is not logged: the handler raises
    [NameError], the scan stops there and the lines that follow are not
    processed. *)
Theorem interwiki_scan_unbound_args (images_dir : string) (force : bool)
    (line : string) (lines : list string) (w : World) (msg : string) :
  (interwiki_try E images_dir force line w).1 = inl (ConnectionError msg) ->
  interwiki_scan E None images_dir force (line :: lines) w
  = (inl (NameError "args"), (interwiki_try E images_dir force line w).2).
Proof.
  intros H. cbn [interwiki_scan]. unfold bind at 1.
  unfold interwiki_entry, bind, try_except.
  destruct (interwiki_try E images_dir force line w) as [[e|r] w1];
    simpl in H; [|discriminate].
  inversion H; subst. reflexivity.
Qed.

(** X16. The directory of the icons is created before the configuration
    file is opened: when the file is missing the function raises, having
    asked for the directory with mode 0o770 and done nothing else. *)
Theorem interwiki_missing_configuration (args : option Args)
    (dokuwiki_home : string) (force : bool) (w : World) :
  fs w !! PosixPath.join (abspath E dokuwiki_home) ["conf"; "interwiki.local.conf"]
    = None ->
  (exists e, (get_dokuwiki_interwiki_icons E args dokuwiki_home force w).1 = inl e)
  /\ run_events (get_dokuwiki_interwiki_icons E args dokuwiki_home force) w
     = [EvMakedirs
          (PosixPath.join (abspath E dokuwiki_home) ["lib"; "images"; "interwiki"])
          504]
  /\ fs (get_dokuwiki_interwiki_icons E args dokuwiki_home force w).2 = fs w.
Proof.
  intros Hconf.
  unfold run_events, get_dokuwiki_interwiki_icons, bind, makedirs, read_lines.
  simpl in *.
  destruct (makedirs_error E _) as [e|]; simpl.
  - split; [now exists e|]. unfold after. simpl.
    rewrite events_since_mk. split; reflexivity.
  - rewrite Hconf. split; [eexists; reflexivity|]. unfold after. simpl.
    rewrite events_since_mk. split; reflexivity.
Qed.

Lemma get_favicon_url_starts_with_get (url : string) (w : World)
    (page : UrlParse.ParseResult) :
  UrlParse.urlparse (url_checks E) url = inr page ->
  exists r more,
    trace (get_favicon_url E url w).2 = trace w ++ EvGet url r :: more
    /\ Forall (fun ev => is_request ev = true) more.
Proof.
  intros Hp.
  unfold get_favicon_url, find_reference, declared_reference. rewrite Hp.
  run_cases.
  all: eexists _, _; (split; [reflexivity|]).
  all: repeat constructor.
Qed.

(** What the [try] block of an entry adds to the trace. *)
Lemma interwiki_try_trace (images_dir : string) (force : bool)
    (line name target : string) (w : World) :
  Re.fullmatch_entry (strip line) = Some (name, target) ->
  exists new,
    trace (interwiki_try E images_dir force line w).2 = trace w ++ new
    /\ (forall f, EvSave f ∈ new ->
          f = PosixPath.join images_dir [name +:+ ".png"])
    /\ (forall p,
          force = true
          \/ fs w !! PosixPath.join images_dir [name +:+ ".png"] = None ->
          UrlParse.urlparse (url_checks E) target = inr p ->
          UrlParse.scheme p <> "" ->
          exists r more,
            new = EvGet (UrlParse.scheme p +:+ "://" +:+ UrlParse.netloc p +:+ "/") r
                  :: more).
Proof.
  intros Hm. unfold interwiki_try. rewrite Hm.
  unfold bind, isfile, log, emit, modify, ret, lift. cbn [fst snd].
  destruct (bool_decide (is_Some (fs w !! PosixPath.join images_dir [name +:+ ".png"]))
            && negb force) eqn:Hskip.
  - eexists. split; [reflexivity|]. split.
    + intros f Hin. inv_elem Hin.
    + intros p Hor. exfalso.
      apply andb_true_iff in Hskip as [Hfile Hforce].
      apply bool_decide_eq_true in Hfile. apply negb_true_iff in Hforce.
      destruct Hor as [Hf|Hnone]; [congruence|].
      rewrite Hnone in Hfile. now destruct Hfile.
  - destruct (UrlParse.urlparse (url_checks E) target) as [e|p] eqn:Hp.
    + exists []. split; [simpl; now rewrite app_nil_r|]. split.
      * intros f Hin. inv_elem Hin.
      * intros p _ Hp'. discriminate.
    + set (url := UrlParse.scheme p +:+ "://" +:+ UrlParse.netloc p +:+ "/").
      assert (Hurl : exists new1,
                 trace (get_favicon_url E url w).2 = trace w ++ new1
                 /\ (forall f, EvSave f ∉ new1)
                 /\ (UrlParse.scheme p <> "" ->
                     exists r more, new1 = EvGet url r :: more)).
      { destruct (get_favicon_url_shape E url w)
          as [[e He] | (r & more & Htr & Hreq & _)].
        - destruct (UrlParse.urlparse (url_checks E) url) as [e'|page] eqn:Hpage.
          + exists []. rewrite He. split; [simpl; now rewrite app_nil_r|].
            split; [intros f Hin; inv_elem Hin|].
            intros Hsc. exfalso.
            destruct (reparse_under_page (url_checks E) target p "/" Hp Hsc eq_refl)
              as (p' & Hp' & _).
            fold url in Hp'. congruence.
          + exfalso.
            destruct (get_favicon_url_starts_with_get url w page Hpage)
              as (r & more & Htr & _).
            rewrite He in Htr. simpl in Htr.
            apply (f_equal length) in Htr. rewrite length_app in Htr.
            simpl in Htr. lia.
        - exists (EvGet url r :: more). split; [exact Htr|]. split.
          + intros f Hin. apply elem_of_cons in Hin as [Hin|Hin]; [discriminate|].
            rewrite Forall_forall in Hreq. specialize (Hreq _ Hin). discriminate.
          + intros _. now exists r, more. }
      destruct Hurl as (new1 & Htr1 & Hns1 & Hfirst).
      destruct (get_favicon_url E url w) as [[e|fav] w1]; cbn [fst snd] in *.
      * exists new1. split; [exact Htr1|]. split.
        -- intros f Hin. now apply Hns1 in Hin.
        -- intros p0 _ Hp0 Hsc. inversion Hp0; subst p0. now apply Hfirst.
      * destruct (negb (Py.truthy fav)).
        -- eexists. cbn. rewrite Htr1, <- app_assoc. split; [reflexivity|]. split.
           ++ intros f Hin. apply elem_of_app in Hin as [Hin|Hin];
                [now apply Hns1 in Hin | inv_elem Hin].
           ++ intros p0 _ Hp0 Hsc. inversion Hp0; subst p0.
              destruct (Hfirst Hsc) as (r & more & ->).
              eexists _, _. reflexivity.
        -- destruct (get_favicon_saves_at E fav
                       (PosixPath.join images_dir [name +:+ ".png"]) 16 w1)
             as (new2 & Htr2 & Hs2).
           destruct (get_favicon E fav _ 16 w1) as [[e|[]] w2];
             cbn [fst snd] in *.
           all: exists (new1 ++ new2).
           all: rewrite Htr2, Htr1, <- app_assoc; (split; [reflexivity|]); split.
           all: try (intros f Hin; apply elem_of_app in Hin as [Hin|Hin];
                     [now apply Hns1 in Hin | now apply Hs2]).
           all: intros p0 _ Hp0 Hsc; inversion Hp0; subst p0;
             destruct (Hfirst Hsc) as (r & more & ->);
             eexists _, _; reflexivity.
Qed.

(** An entry adds at most one logging call to what its [try] block did. *)
Lemma interwiki_entry_after_try (args : option Args) (images_dir : string)
    (force : bool) (line : string) (w : World) :
  exists tail,
    trace (interwiki_entry E args images_dir force line w).2
    = trace (interwiki_try E images_dir force line w).2 ++ tail
    /\ (tail = [] \/ exists lvl msg a, tail = [EvLog lvl msg a]).
Proof.
  unfold interwiki_entry, bind, try_except.
  destruct (interwiki_try E images_dir force line w) as [[e|[[name filename]|]] w1];
    cbn [fst snd].
  - unfold handle_entry_error.
    destruct (is_ConnectionError e); [destruct args|];
      [| |destruct (is_RequestException e)].
    all: cbn.
    all: first [ exists []; split; [now rewrite app_nil_r | now left]
               | eexists; split; [reflexivity | right; eauto] ].
  - eexists. split; [reflexivity|]. right. eauto.
  - exists []. split; [cbn; now rewrite app_nil_r | now left].
Qed.

(** What the [try] block of an entry has done when it falls through. *)
Lemma interwiki_try_result (images_dir : string) (force : bool)
    (line : string) (w : World) :
  exists new,
    trace (interwiki_try E images_dir force line w).2 = trace w ++ new
    /\ (forall a, EvLog INFO (AStr "%s: icon saved as '%s'") a ∉ new)
    /\ (forall name filename,
          (interwiki_try E images_dir force line w).1 = inr (Some (name, filename)) ->
          (exists target, Re.fullmatch_entry (strip line) = Some (name, target))
          /\ filename = PosixPath.join images_dir [name +:+ ".png"]
          /\ exists img,
               fs (interwiki_try E images_dir force line w).2 !! filename
               = Some (ImageFile img)).
Proof.
  unfold interwiki_try.
  destruct (Re.fullmatch_entry (strip line)) as [[name target]|] eqn:Hm.
  2: { exists []. cbn. rewrite app_nil_r. split; [reflexivity|]. split.
       - intros a Hin. inv_elem Hin.
       - intros ? ? [=]. }
  unfold bind, isfile, log, emit, modify, ret, lift. cbn [fst snd].
  destruct (bool_decide (is_Some (fs w !! PosixPath.join images_dir [name +:+ ".png"]))
            && negb force).
  { eexists. split; [reflexivity|]. split.
    - intros a Hin. inv_elem Hin.
    - intros ? ? [=]. }
  destruct (UrlParse.urlparse (url_checks E) target) as [e|p].
  { exists []. cbn. rewrite app_nil_r. split; [reflexivity|]. split.
    - intros a Hin. inv_elem Hin.
    - intros ? ? [=]. }
  set (url := UrlParse.scheme p +:+ "://" +:+ UrlParse.netloc p +:+ "/").
  assert (Hurl : exists new1,
             trace (get_favicon_url E url w).2 = trace w ++ new1
             /\ forall l m a, EvLog l m a ∉ new1).
  { destruct (get_favicon_url_shape E url w)
      as [[e He] | (r & more & Htr & Hreq & _)].
    - exists []. rewrite He. cbn. rewrite app_nil_r. split; [reflexivity|].
      intros l m a Hin. inv_elem Hin.
    - exists (EvGet url r :: more). split; [exact Htr|].
      intros l m a Hin. apply elem_of_cons in Hin as [Hin|Hin]; [discriminate|].
      rewrite Forall_forall in Hreq. specialize (Hreq _ Hin). discriminate. }
  destruct Hurl as (new1 & Htr1 & Hnl1).
  destruct (get_favicon_url E url w) as [[e|fav] w1]; cbn [fst snd] in *.
  { exists new1. split; [exact Htr1|]. split.
    - intros a Hin. now apply Hnl1 in Hin.
    - intros ? ? [=]. }
  destruct (negb (Py.truthy fav)).
  { eexists. cbn. rewrite Htr1, <- app_assoc. split; [reflexivity|]. split.
    - intros a Hin. apply elem_of_app in Hin as [Hin|Hin];
        [now apply Hnl1 in Hin | inv_elem Hin].
    - intros ? ? [=]. }
  destruct (get_favicon_effects E fav
              (PosixPath.join images_dir [name +:+ ".png"]) 16 w1)
    as (new2 & Htr2 & Hnl2 & Hfile).
  destruct (get_favicon E fav _ 16 w1) as [[e|[]] w2]; cbn [fst snd] in *.
  all: exists (new1 ++ new2).
  all: rewrite Htr2, Htr1, <- app_assoc; (split; [reflexivity|]); split.
  all: try (intros a Hin; apply elem_of_app in Hin as [Hin|Hin];
            [now apply Hnl1 in Hin | now apply Hnl2 in Hin]).
  - intros ? ? [=].
  - intros name' filename' [= <- <-]. split; [now exists target|].
    split; [reflexivity|]. now apply Hfile.
Qed.

(** X17. For an entry that is not skipped, the page asked for its icon is
    the root of the site of the target: scheme and host are kept; path,
    query and fragment, with the placeholders they hold, are dropped.  The
    GET of that page is the first thing done for the entry. *)
Theorem interwiki_entry_asks_site_root (args : option Args)
    (images_dir : string) (force : bool) (line name target : string)
    (p : UrlParse.ParseResult) (w : World) :
  Re.fullmatch_entry (strip line) = Some (name, target) ->
  force = true \/ fs w !! PosixPath.join images_dir [name +:+ ".png"] = None ->
  UrlParse.urlparse (url_checks E) target = inr p ->
  UrlParse.scheme p <> "" ->
  exists r rest,
    run_events (interwiki_entry E args images_dir force line) w
    = EvGet (UrlParse.scheme p +:+ "://" +:+ UrlParse.netloc p +:+ "/") r :: rest.
Proof.
  intros Hm Hor Hp Hsc.
  destruct (interwiki_try_trace images_dir force line name target w Hm)
    as (new & Htr & _ & Hfirst).
  destruct (Hfirst p Hor Hp Hsc) as (r & more & ->).
  destruct (interwiki_entry_after_try args images_dir force line w)
    as (tail & Htail & _).
  unfold run_events. rewrite Htr in Htail.
  rewrite <- app_assoc in Htail.
  rewrite (events_since_app _ _ _ Htail).
  now exists r, (more ++ tail).
Qed.

(** X18. Every file a scan saves is the icon of an entry of the
    configuration: it is saved in the directory of the icons under the name
    of the entry followed by [.png]. *)
Theorem interwiki_scan_saves_entry_icons (args : option Args)
    (images_dir : string) (force : bool) (lines : list string) (w : World)
    (f : string) :
  EvSave f ∈ run_events (interwiki_scan E args images_dir force lines) w ->
  exists line name target,
    line ∈ lines
    /\ entry_shape (strip line) name target
    /\ f = PosixPath.join images_dir [name +:+ ".png"].
Proof.
  assert (Hgen : forall lines w,
    exists new,
      trace (interwiki_scan E args images_dir force lines w).2 = trace w ++ new
      /\ forall f, EvSave f ∈ new ->
           exists line name target,
             line ∈ lines
             /\ entry_shape (strip line) name target
             /\ f = PosixPath.join images_dir [name +:+ ".png"]).
  { clear. intros lines. induction lines as [|line lines IH]; intros w.
    - exists []. cbn. rewrite app_nil_r. split; [reflexivity|].
      intros f Hin. inv_elem Hin.
    - assert (Hentry : exists new1,
        trace (interwiki_entry E args images_dir force line w).2 = trace w ++ new1
        /\ forall f, EvSave f ∈ new1 ->
             exists name target,
               entry_shape (strip line) name target
               /\ f = PosixPath.join images_dir [name +:+ ".png"]).
      { destruct (interwiki_entry_after_try args images_dir force line w)
          as (tail & Htail & Hshape).
        assert (Hnt : forall f, EvSave f ∉ tail).
        { intros f Hin. destruct Hshape as [->|(l & m & a & ->)]; inv_elem Hin. }
        destruct (Re.fullmatch_entry (strip line)) as [[name target]|] eqn:Hm.
        - destruct (interwiki_try_trace images_dir force line name target w Hm)
            as (new & Htr & Hs & _).
          exists (new ++ tail). rewrite Htail, Htr, <- app_assoc.
          split; [reflexivity|].
          intros f Hin. apply elem_of_app in Hin as [Hin|Hin];
            [|now apply Hnt in Hin].
          exists name, target. split; [|now apply Hs].
          now apply fullmatch_entry_shape.
        - exists tail. rewrite Htail. unfold interwiki_try. rewrite Hm.
          split; [reflexivity|].
          intros f Hin. now apply Hnt in Hin. }
      destruct Hentry as (new1 & Htr1 & Hs1).
      cbn [interwiki_scan]. unfold bind.
      destruct (interwiki_entry E args images_dir force line w) as [[e|[]] w1];
        cbn [fst snd] in *.
      + exists new1. split; [exact Htr1|].
        intros f Hin. destruct (Hs1 f Hin) as (name & target & Hsh & ->).
        exists line, name, target. split; [apply elem_of_cons; now left|].
        now split.
      + destruct (IH w1) as (new2 & Htr2 & Hs2).
        exists (new1 ++ new2). rewrite Htr2, Htr1, <- app_assoc.
        split; [reflexivity|].
        intros f Hin. apply elem_of_app in Hin as [Hin|Hin].
        * destruct (Hs1 f Hin) as (name & target & Hsh & ->).
          exists line, name, target. split; [apply elem_of_cons; now left|].
          now split.
        * destruct (Hs2 f Hin) as (l & name & target & Hl & Hsh & ->).
          exists l, name, target. split; [apply elem_of_cons; now right|].
          now split. }
  intros Hin.
  destruct (Hgen lines w) as (new & Htr & Hs).
  unfold run_events in Hin. rewrite (events_since_app _ _ _ Htr) in Hin.
  now apply Hs.
Qed.

(** X19. The message that an icon was saved is truthful: when an entry
    logs it, the line is an entry of that name, the file named in the
    message is the one of the entry in the directory of the icons, it holds
    an image when the entry is done, and the entry returns normally. *)
Theorem interwiki_saved_log_is_true (args : option Args)
    (images_dir : string) (force : bool) (line name filename : string)
    (w : World) :
  EvLog INFO (AStr "%s: icon saved as '%s'") [AStr name; AStr filename]
    ∈ run_events (interwiki_entry E args images_dir force line) w ->
  (exists target, entry_shape (strip line) name target)
  /\ filename = PosixPath.join images_dir [name +:+ ".png"]
  /\ (exists img,
        fs (interwiki_entry E args images_dir force line w).2 !! filename
        = Some (ImageFile img))
  /\ (interwiki_entry E args images_dir force line w).1 = inr tt.
Proof.
  intros Hin.
  destruct (interwiki_try_result images_dir force line w)
    as (new & Htr & Hnl & Hres).
  unfold run_events, events_since in Hin.
  unfold interwiki_entry, bind, try_except in *.
  destruct (interwiki_try E images_dir force line w)
    as [[e|[[name' filename']|]] w1]; cbn [fst snd] in *.
  - exfalso. unfold handle_entry_error in Hin.
    destruct (is_ConnectionError e); [destruct args|];
      [| |destruct (is_RequestException e)]; cbn in Hin.
    all: rewrite Htr, <- ?app_assoc, drop_app_length in Hin.
    all: try (apply elem_of_app in Hin as [Hin|Hin];
              [now apply Hnl in Hin | inv_elem Hin]).
    now apply Hnl in Hin.
  - cbn in Hin. rewrite Htr, <- app_assoc, drop_app_length in Hin.
    apply elem_of_app in Hin as [Hin|Hin]; [now apply Hnl in Hin|].
    apply list_elem_of_singleton in Hin. injection Hin as <- <-.
    destruct (Hres name filename eq_refl) as ((target & Hm) & Hf & Himg).
    split; [exists target; now apply fullmatch_entry_shape|].
    split; [exact Hf|]. split; [exact Himg | reflexivity].
  - exfalso. cbn in Hin.
    rewrite Htr, drop_app_length in Hin. now apply Hnl in Hin.
Qed.

End InterwikiMore.

Lemma interwiki_other_lines_are_ignored_witness :
  interwiki_entry Sample.env_down (Some Sample.args0) "/imgs" false "# comment"
                  Sample.world0
  = (inr tt, Sample.world0).
Proof.
  destruct (interwiki_other_lines_are_ignored Sample.env_down (Some Sample.args0)
              "/imgs" false "# comment" Sample.world0) as (_ & _ & H).
  apply (H "#"%char " comment"); reflexivity.
Defined.

Lemma interwiki_scan_unbound_args_witness :
  interwiki_scan Sample.env_down None "/imgs" false
    [Cases.wp_line; "en   https://example.com/{NAME}"] Sample.world0
  = (inl (NameError "args"),
     (interwiki_try Sample.env_down "/imgs" false Cases.wp_line Sample.world0).2).
Proof.
  apply (interwiki_scan_unbound_args Sample.env_down "/imgs" false Cases.wp_line
           ["en   https://example.com/{NAME}"] Sample.world0 "refused").
  reflexivity.
Defined.

Lemma interwiki_missing_configuration_witness :
  run_events (get_dokuwiki_interwiki_icons Sample.env_down (Some Sample.args0)
                "/srv/wiki" false) Sample.world0
  = [EvMakedirs
       (PosixPath.join (abspath Sample.env_down "/srv/wiki")
          ["lib"; "images"; "interwiki"]) 504].
Proof.
  apply (interwiki_missing_configuration Sample.env_down (Some Sample.args0)
           "/srv/wiki" false Sample.world0).
  reflexivity.
Defined.

Lemma interwiki_entry_asks_site_root_witness :
  exists r rest,
    run_events (interwiki_entry Sample.env_down (Some Sample.args0) "/imgs" false
                  Cases.wp_line) Sample.world0
    = EvGet (UrlParse.scheme Cases.wp_target +:+ "://"
               +:+ UrlParse.netloc Cases.wp_target +:+ "/") r :: rest.
Proof.
  apply (interwiki_entry_asks_site_root Sample.env_down (Some Sample.args0)
           "/imgs" false Cases.wp_line "wp"
           "https://en.wikipedia.org/wiki/{NAME}" Cases.wp_target Sample.world0).
  - reflexivity.
  - right. reflexivity.
  - reflexivity.
  - discriminate.
Defined.

Lemma interwiki_scan_saves_entry_icons_witness :
  exists line name target,
    line ∈ ["# icons"; Cases.wp_line]
    /\ entry_shape (strip line) name target
    /\ "/imgs/wp.png" = PosixPath.join "/imgs" [name +:+ ".png"].
Proof.
  apply (interwiki_scan_saves_entry_icons Cases.env_site (Some Sample.args0)
           "/imgs" false ["# icons"; Cases.wp_line] Sample.world0 "/imgs/wp.png").
  vm_compute. apply list_elem_of_In. simpl. tauto.
Defined.

Lemma interwiki_saved_log_is_true_witness :
  (exists target, entry_shape (strip Cases.wp_line) "wp" target)
  /\ "/imgs/wp.png" = PosixPath.join "/imgs" ["wp" +:+ ".png"]
  /\ (exists img,
        fs (interwiki_entry Cases.env_site (Some Sample.args0) "/imgs" false
              Cases.wp_line Sample.world0).2 !! "/imgs/wp.png"
        = Some (ImageFile img))
  /\ (interwiki_entry Cases.env_site (Some Sample.args0) "/imgs" false
        Cases.wp_line Sample.world0).1 = inr tt.
Proof.
  apply (interwiki_saved_log_is_true Cases.env_site (Some Sample.args0) "/imgs"
           false Cases.wp_line "wp" "/imgs/wp.png" Sample.world0).
  vm_compute. apply list_elem_of_In. simpl. tauto.
Defined.

(** ** The [__main__] block: the URLs of a run *)

Section ArgsFile.

Import PyFacts.



Lemma splitlines_lines (s : string) :
  Forall (fun u => line_text u = true) (splitlines s).
Proof.
  assert (Hgen : forall n s, (String.length s <= n)%nat ->
                   Forall (fun u => line_text u = true) (splitlines s)).
  { clear s. induction n as [|n IH]; intros [|c s] Hlen;
      try (constructor; fail); [simpl in Hlen; lia|].
    cbn [splitlines]. simpl in Hlen.
    destruct (is_linebreak c) eqn:Hc.
    - constructor; [reflexivity|].
      destruct s as [|c' s'']; [constructor|].
      destruct ((Py.ord c =? 13) && (Py.ord c' =? 10));
        apply IH; simpl in *; lia.
    - assert (Hs : Forall (fun u => line_text u = true) (splitlines s))
        by (apply IH; lia).
      destruct (splitlines s) as [|l ls].
      + repeat constructor. unfold line_text. cbn [Py.all]. now rewrite Hc.
      + inversion Hs as [|? ? Hl Hls]; subst. constructor; [|exact Hls].
        unfold line_text in *. cbn [Py.all]. now rewrite Hc. }
  now apply (Hgen (String.length s)).
Qed.

Context (E : Env).


(** X21. Reading the URLs of [--args-file] changes nothing and logs
    nothing, and gives URLs only for a text file; none of the URLs read
    holds a line boundary. *)
Theorem read_urls_are_lines (args : Args) (f : string) (w : World) :
  args_args_file args = Some f -> f <> "" ->
  (read_urls args w).2 = w
  /\ forall urls,
       (read_urls args w).1 = inr urls ->
       Forall (fun u => line_text u = true) urls
       /\ exists lines, fs w !! f = Some (TextFile lines).
Proof.
  intros Hf Hne. unfold read_urls. rewrite Hf.
  destruct f as [|c f]; [congruence|]. cbn [Py.truthy].
  unfold bind, read_lines, ret.
  destruct (fs w !! String c f) as [[lines|img]|]; cbn [fst snd].
  all: split; [reflexivity|]; intros urls [= <-].
  split; [apply splitlines_lines | now exists lines].
Qed.

End ArgsFile.


Lemma read_urls_are_lines_witness :
  (read_urls Cases.args_listed Cases.listed_world).2 = Cases.listed_world.
Proof.
  apply (read_urls_are_lines Cases.args_listed "urls.txt" Cases.listed_world).
  - reflexivity.
  - discriminate.
Defined.
